(** * Stateful neural-network layers ([ivy/neural_net_stateful/layers.py])

    A shallow embedding of the layer classes [Linear], [Conv1D],
    [Conv1DTranspose], [Conv2D], [Conv2DTranspose] and [LSTM].

    The layers are thin clients of the tensor library [ivy]: they compute
    shapes and initialisation bounds, call tensor operations and keep the
    results in a nested container.  The tensor operations themselves are not
    part of the layer file; they are an interface here (class [Ivy]) with the
    contracts the specification gives for them (class [IvyContract]), and the
    layer code is embedded over that interface.

    Python floats are idealised as real numbers: rounding is not modelled. *)

From Stdlib Require Import ZArith List String Ascii Bool Reals Lia Lra.
From Stdlib Require Import DecimalString DecimalZ FinFun.
Import ListNotations.

Local Open Scope string_scope.
Local Open Scope list_scope.
Local Open Scope Z_scope.

(** ** Python-level values, exceptions and builtins *)

Module Py.

(** Exceptions.  [ZeroDivisionError], [TypeError] and [AttributeError] are
    Python's own; [BackendError] is any exception raised inside a tensor
    operation of the backend, with its message.  [InvalidConfiguration],
    [ShapeMismatch] and [KeyNotFound] are the error classes of the
    specification's taxonomy. *)
Inductive exn : Type :=
| ZeroDivisionError
| TypeError (what : string)
| AttributeError (name : string)
| BackendError (msg : string)
| KeyNotFound (key : string)
| InvalidConfiguration
| ShapeMismatch.

Definition result (A : Type) : Type := (exn + A)%type.
Definition Ok {A} (a : A) : result A := inr a.
Definition Err {A} (e : exn) : result A := inl e.

Definition rbind {A B} (c : result A) (k : A -> result B) : result B :=
  match c with
  | inl e => inl e
  | inr a => k a
  end.

(** The value of [x ** 0.5]: a float when [x] is non-negative, a complex
    number otherwise. *)
Inductive num : Type :=
| PyFloat (x : R)
| PyComplex (re im : R).

(** [a / b] on two ints: true division. *)
Definition truediv (a b : Z) : result R :=
  if b =? 0 then Err ZeroDivisionError else Ok (IZR a / IZR b)%R.

(** [x ** 0.5] on a float. *)
Definition pow_half (x : R) : num :=
  if Rle_dec 0 x then PyFloat (sqrt x) else PyComplex 0 (sqrt (- x)).

(** Unary minus. *)
Definition neg (p : num) : num :=
  match p with
  | PyFloat x => PyFloat (- x)
  | PyComplex re im => PyComplex (- re) (- im)
  end.

(** [range(n)]. *)
Definition range (n : Z) : list Z := map Z.of_nat (seq 0 (Z.to_nat n)).

(** [str(i)] on an int. *)
Definition str (i : Z) : string := NilEmpty.string_of_int (Z.to_int i).

(** [s[:-2]] on a sequence. *)
Definition drop_last2 {A} (s : list A) : list A := firstn (List.length s - 2)%nat s.

(** [zip] stops at the shortest argument. *)
Fixpoint zip4 {A B C D} (a : list A) (b : list B) (c : list C) (d : list D)
  : list (A * B * C * D) :=
  match a, b, c, d with
  | x :: a', y :: b', z :: c', w :: d' => (x, y, z, w) :: zip4 a' b' c' d'
  | _, _, _, _ => []
  end.

(** A [dict] keeps its keys in insertion order; storing under a key that is
    already present replaces the value and keeps the key's position. *)
Fixpoint dict_set {V} (k : string) (x : V) (d : list (string * V))
  : list (string * V) :=
  match d with
  | [] => [(k, x)]
  | (k', y) :: d' =>
      if String.eqb k k' then (k, x) :: d' else (k', y) :: dict_set k x d'
  end.

(** [dict(pairs)]. *)
Definition dict {V} (pairs : list (string * V)) : list (string * V) :=
  fold_left (fun d kv => dict_set (fst kv) (snd kv) d) pairs [].

Fixpoint dict_get {V} (k : string) (d : list (string * V)) : option V :=
  match d with
  | [] => None
  | (k', y) :: d' => if String.eqb k k' then Some y else dict_get k d'
  end.

End Py.

Import Py.

Notation "x <-! c ;; k" := (rbind c (fun x => k))
  (at level 61, c at next level, right associativity).
Notation "' p <-! c ;; k" := (rbind c (fun x => let p := x in k))
  (at level 61, p pattern, c at next level, right associativity).

(** ** Shapes *)

Definition prod (s : list Z) : Z := fold_right Z.mul 1 s.

Definition valid_shape (s : list Z) : Prop := Forall (fun n => 0 <= n) s.

Definition valid_shapeb (s : list Z) : bool := forallb (fun n => 0 <=? n) s.

(** ** The tensor library

    What [layers.py] uses of [ivy]: tensor creation ([zeros],
    [random_uniform], [variable]), the dense operation [linear], the
    recurrence [lstm_update] and the indexing expression [x[..., -1, :]].
    A tensor is observed through its shape, its elements in row-major
    order, the device it lives on and whether it is a trainable variable.
    An operation either returns or raises inside the backend (the message is
    the left summand); [random_uniform] also advances the backend's random
    generator. *)

Class Ivy : Type := {
  tensor : Type;
  rng : Type;
  shape : tensor -> list Z;
  elems : tensor -> list R;
  dev_of : tensor -> string;
  is_variable : tensor -> bool;
  (** the device used when a creation call passes no [dev_str] *)
  default_dev : string;
  zeros : list Z -> option string -> string + tensor;
  random_uniform :
    num -> num -> list Z -> option string -> rng -> string + (tensor * rng);
  variable : tensor -> tensor;
  linear : tensor -> tensor -> tensor -> string + tensor;
  lstm_update :
    tensor -> tensor -> tensor -> tensor -> tensor -> string + (tensor * tensor);
  (** [x[..., -1, :]] *)
  last_step : tensor -> string + tensor
}.

Definition dev_or_default `{Ivy} (d : option string) : string :=
  match d with
  | Some s => s
  | None => default_dev
  end.

(** Row [k] of a row-major matrix with rows of width [n]. *)
Definition row (k n : nat) (l : list R) : list R := firstn n (skipn (k * n) l).

Definition dot (xs ws : list R) : R :=
  fold_right Rplus 0%R (map (fun p => (fst p * snd p)%R) (combine xs ws)).

(** Modelled from the spec: the dense operation [ivy.linear], which is not
    part of the layer file.  "output = input·weightᵀ + bias, applied over the
    trailing dimension": for [rows] input rows of width [ic], a weight of
    [oc] rows of width [ic] and a bias of length [oc], entry [j] of output
    row [r] is the dot product of input row [r] with weight row [j], plus
    [b[j]]. *)
Definition affine (rows ic oc : nat) (x w b : list R) : list R :=
  flat_map
    (fun r => map (fun j => (dot (row r ic x) (row j ic w) + nth j b 0)%R)
                  (seq 0 oc))
    (seq 0 rows).

(** Modelled from the spec: the contracts of the tensor operations, which are
    not part of the layer file (specification, section 6: "zero-filled tensor
    of a given shape and device target; uniformly distributed random tensor
    within given bounds, shape, and device target; a trainable-variable
    wrapper marking a tensor as differentiable", [linear], [lstm_update]
    returning the output sequence and the final cell state).  A contract
    speaks of well-shaped arguments only; what a backend does elsewhere
    (raise, broadcast, ...) is left open. *)
Class IvyContract `{Ivy} : Prop := {
  zeros_spec : forall s d,
    valid_shape s ->
    exists t, zeros s d = inr t /\
      shape t = s /\
      elems t = repeat 0%R (Z.to_nat (prod s)) /\
      dev_of t = dev_or_default d;
  random_uniform_spec : forall lo hi s d g,
    (lo <= hi)%R -> valid_shape s ->
    exists t g', random_uniform (PyFloat lo) (PyFloat hi) s d g = inr (t, g') /\
      shape t = s /\
      List.length (elems t) = Z.to_nat (prod s) /\
      Forall (fun x => (lo <= x <= hi)%R) (elems t) /\
      dev_of t = dev_or_default d;
  variable_shape : forall t, shape (variable t) = shape t;
  variable_elems : forall t, elems (variable t) = elems t;
  variable_dev : forall t, dev_of (variable t) = dev_of t;
  variable_trainable : forall t, is_variable (variable t) = true;
  linear_spec : forall x w b bs ic oc,
    valid_shape (bs ++ [ic]) -> 0 <= oc ->
    shape x = bs ++ [ic] -> shape w = [oc; ic] -> shape b = [oc] ->
    exists y, linear x w b = inr y /\
      shape y = bs ++ [oc] /\
      elems y = affine (Z.to_nat (prod bs)) (Z.to_nat ic) (Z.to_nat oc)
                       (elems x) (elems w) (elems b);
  lstm_update_spec : forall x h0 c0 wi wr bs T ic oc,
    valid_shape (bs ++ [T; ic]) -> 0 <= oc ->
    shape x = bs ++ [T; ic] ->
    shape h0 = bs ++ [oc] -> shape c0 = bs ++ [oc] ->
    shape wi = [ic; 4 * oc] -> shape wr = [oc; 4 * oc] ->
    exists h c, lstm_update x h0 c0 wi wr = inr (h, c) /\
      shape h = bs ++ [T; oc] /\
      shape c = bs ++ [oc];
  last_step_spec : forall x bs T c,
    valid_shape (bs ++ [T; c]) -> 0 < T ->
    shape x = bs ++ [T; c] ->
    exists y, last_step x = inr y /\ shape y = bs ++ [c]
}.

(** ** Effects

    Forward computations are deterministic and may raise: they live in
    [result].  Variable creation also draws from the backend's random
    generator: it lives in [M], a state-and-exception monad over [rng]. *)

Definition backend {A} (c : string + A) : result A :=
  match c with
  | inl msg => Err (BackendError msg)
  | inr a => Ok a
  end.

Section Monad.
Context `{Ivy}.

Definition M (A : Type) : Type := rng -> result (A * rng).

Definition ret {A} (a : A) : M A := fun g => Ok (a, g).

Definition bind {A B} (c : M A) (k : A -> M B) : M B :=
  fun g =>
    match c g with
    | inl e => inl e
    | inr (a, g') => k a g'
    end.

Definition lift {A} (c : result A) : M A :=
  fun g =>
    match c with
    | inl e => inl e
    | inr a => Ok (a, g)
    end.

(** A list comprehension whose element expression has effects. *)
Fixpoint mapM {A B} (f : A -> M B) (l : list A) : M (list B) :=
  match l with
  | [] => ret []
  | a :: l' => bind (f a) (fun b => bind (mapM f l') (fun bs => ret (b :: bs)))
  end.

(** The same for a comprehension that may only raise. *)
Fixpoint mapR {A B} (f : A -> result B) (l : list A) : result (list B) :=
  match l with
  | [] => Ok []
  | a :: l' => rbind (f a) (fun b => rbind (mapR f l') (fun bs => Ok (b :: bs)))
  end.

Definition random_uniformM (lo hi : num) (s : list Z) (d : option string)
  : M tensor :=
  fun g =>
    match random_uniform lo hi s d g with
    | inl msg => Err (BackendError msg)
    | inr (t, g') => Ok (t, g')
    end.
End Monad.

Notation "x <- c ;; k" := (bind c (fun x => k))
  (at level 61, c at next level, right associativity).

(** ** Parameter containers *)

(** Modelled from the spec: the parameter container (class [Container] is
    not part of the layer file): "an ordered, nested mapping from string keys
    to tensor handles, supporting attribute-style access and iteration";
    [get] "fails with KeyNotFound if the path does not resolve"; iteration
    yields the pairs in insertion order. *)
#[warnings="-register-all"]
Inductive container `{Ivy} : Type :=
| Leaf (t : tensor)
| Dict (entries : list (string * container)).

Section Container.
Context `{Ivy}.

(** [c.k] *)
Definition getattr (c : container) (k : string) : result container :=
  match c with
  | Leaf _ => Err (AttributeError k)
  | Dict d =>
      match dict_get k d with
      | Some x => Ok x
      | None => Err (KeyNotFound k)
      end
  end.

(** [c.items()] *)
Definition items (c : container) : result (list (string * container)) :=
  match c with
  | Leaf _ => Err (AttributeError "items")
  | Dict d => Ok d
  end.

(** A container entry handed to a tensor operation has to be a tensor. *)
Definition as_tensor (c : container) : result tensor :=
  match c with
  | Leaf t => Ok t
  | Dict _ => Err (TypeError "container where a tensor is expected")
  end.
End Container.

(** ** The module base class *)

Module ModuleBase.
Section Defs.
Context `{Ivy}.

Record t : Type := { _dev_str : string; v : container }.

(** Modelled from the spec: [Module.__init__], which is not part of the
    layer file (section 4.2): the module records its device target, then
    either invokes the variant's "create variables" operation, which
    returns a freshly allocated container, or accepts a caller-supplied
    container as it is. *)
Definition __init__ (_create_variables : string -> M container)
           (dev_str : string) (v : option container) : M t :=
  match v with
  | None =>
      vs <- _create_variables dev_str ;;
      ret {| _dev_str := dev_str; v := vs |}
  | Some c => ret {| _dev_str := dev_str; v := c |}
  end.
End Defs.
End ModuleBase.

(** Arguments that are "int or sequence of ints" and "string or sequence of
    ints"; the constructors only store them. *)
Inductive int_or_seq : Type :=
| AnInt (n : Z)
| ASeq (l : list Z).

Inductive padding_arg : Type :=
| PadMode (mode : string)
| PadSeq (l : list Z).

(** ** Linear *)

Module Linear.
Section Defs.
Context `{Ivy}.

(** The attributes [__init__] sets before it calls the base class. *)
Record fields : Type := {
  _input_channels : Z;
  _output_channels : Z
}.

Record t : Type := { self : fields; base : ModuleBase.t }.

#[local] Coercion self : t >-> fields.

Definition v (l : t) : container := ModuleBase.v (base l).

Definition _create_variables (self : fields) (dev_str : string)
  : M container :=
  q <- lift (truediv 6 (_output_channels self + _input_channels self)) ;;
  let wlim := pow_half q in
  w <- random_uniformM (neg wlim) wlim
         [_output_channels self; _input_channels self] (Some dev_str) ;;
  let w := variable w in
  b <- lift (backend (zeros [_output_channels self] (Some dev_str))) ;;
  let b := variable b in
  ret (Dict [("w", Leaf w); ("b", Leaf b)]).

Definition __init__ (input_channels output_channels : Z)
           (dev_str : string) (v : option container) : M t :=
  let self := {| _input_channels := input_channels;
                 _output_channels := output_channels |} in
  base <- ModuleBase.__init__ (_create_variables self) dev_str v ;;
  ret {| self := self; base := base |}.

Definition _forward (l : t) (inputs : tensor) : result tensor :=
  w <-! getattr (v l) "w" ;;
  b <-! getattr (v l) "b" ;;
  w <-! as_tensor w ;;
  b <-! as_tensor b ;;
  backend (linear inputs w b).
End Defs.
End Linear.

Coercion Linear.self : Linear.t >-> Linear.fields.

(** ** Convolutions

    Of the four convolution layers the constructors and the creation of the
    variables are embedded; their forward passes, which hand everything to
    the backend's convolution operations, are not needed below. *)

Module Conv1D.
Section Defs.
Context `{Ivy}.

Record fields : Type := {
  _input_channels : Z;
  _output_channels : Z;
  _filter_size : Z;
  _strides : int_or_seq;
  _padding : padding_arg;
  _data_format : string;
  _dilations : int_or_seq
}.

Record t : Type := { self : fields; base : ModuleBase.t }.

#[local] Coercion self : t >-> fields.

Definition _create_variables (self : fields) (dev_str : string)
  : M container :=
  q <- lift (truediv 6 (_output_channels self + _input_channels self)) ;;
  let wlim := pow_half q in
  let w_shape :=
    if String.eqb (_data_format self) "NWC"
    then [_filter_size self; _output_channels self; _input_channels self]
    else [_output_channels self; _input_channels self; _filter_size self] in
  w <- random_uniformM (neg wlim) wlim w_shape (Some dev_str) ;;
  let w := variable w in
  b <- lift (backend (zeros [1; 1; _output_channels self] (Some dev_str))) ;;
  let b := variable b in
  ret (Dict [("w", Leaf w); ("b", Leaf b)]).

Definition __init__ (input_channels output_channels filter_size : Z)
           (strides : int_or_seq) (padding : padding_arg)
           (data_format : string) (dilations : int_or_seq)
           (dev_str : string) (v : option container) : M t :=
  let self := {| _input_channels := input_channels;
                 _output_channels := output_channels;
                 _filter_size := filter_size;
                 _strides := strides;
                 _padding := padding;
                 _data_format := data_format;
                 _dilations := dilations |} in
  base <- ModuleBase.__init__ (_create_variables self) dev_str v ;;
  ret {| self := self; base := base |}.
End Defs.
End Conv1D.

Coercion Conv1D.self : Conv1D.t >-> Conv1D.fields.

Module Conv1DTranspose.
Section Defs.
Context `{Ivy}.

Record fields : Type := {
  _input_channels : Z;
  _output_channels : Z;
  _filter_size : Z;
  _strides : int_or_seq;
  _padding : padding_arg;
  _output_shape : option (list Z);
  _data_format : string;
  _dilations : int_or_seq
}.

Record t : Type := { self : fields; base : ModuleBase.t }.

#[local] Coercion self : t >-> fields.

Definition _create_variables (self : fields) (dev_str : string)
  : M container :=
  q <- lift (truediv 6 (_output_channels self + _input_channels self)) ;;
  let wlim := pow_half q in
  let w_shape :=
    if String.eqb (_data_format self) "NWC"
    then [_filter_size self; _output_channels self; _input_channels self]
    else [_output_channels self; _input_channels self; _filter_size self] in
  w <- random_uniformM (neg wlim) wlim w_shape (Some dev_str) ;;
  let w := variable w in
  b <- lift (backend (zeros [1; 1; _output_channels self] (Some dev_str))) ;;
  let b := variable b in
  ret (Dict [("w", Leaf w); ("b", Leaf b)]).

Definition __init__ (input_channels output_channels filter_size : Z)
           (strides : int_or_seq) (padding : padding_arg)
           (output_shape : option (list Z))
           (data_format : string) (dilations : int_or_seq)
           (dev_str : string) (v : option container) : M t :=
  let self := {| _input_channels := input_channels;
                 _output_channels := output_channels;
                 _filter_size := filter_size;
                 _strides := strides;
                 _padding := padding;
                 _output_shape := output_shape;
                 _data_format := data_format;
                 _dilations := dilations |} in
  base <- ModuleBase.__init__ (_create_variables self) dev_str v ;;
  ret {| self := self; base := base |}.
End Defs.
End Conv1DTranspose.

Coercion Conv1DTranspose.self : Conv1DTranspose.t >-> Conv1DTranspose.fields.

Module Conv2D.
Section Defs.
Context `{Ivy}.

Record fields : Type := {
  _input_channels : Z;
  _output_channels : Z;
  _filter_shape : list Z;
  _strides : int_or_seq;
  _padding : padding_arg;
  _data_format : string;
  _dilations : int_or_seq
}.

Record t : Type := { self : fields; base : ModuleBase.t }.

#[local] Coercion self : t >-> fields.

Definition _create_variables (self : fields) (dev_str : string)
  : M container :=
  q <- lift (truediv 6 (_output_channels self + _input_channels self)) ;;
  let wlim := pow_half q in
  let w_shape :=
    if String.eqb (_data_format self) "NHWC"
    then _filter_shape self ++ [_output_channels self; _input_channels self]
    else [_output_channels self; _input_channels self] ++ _filter_shape self in
  w <- random_uniformM (neg wlim) wlim w_shape (Some dev_str) ;;
  let w := variable w in
  b <- lift (backend (zeros [1; 1; 1; _output_channels self] (Some dev_str))) ;;
  let b := variable b in
  ret (Dict [("w", Leaf w); ("b", Leaf b)]).

Definition __init__ (input_channels output_channels : Z)
           (filter_shape : list Z)
           (strides : int_or_seq) (padding : padding_arg)
           (data_format : string) (dilations : int_or_seq)
           (dev_str : string) (v : option container) : M t :=
  let self := {| _input_channels := input_channels;
                 _output_channels := output_channels;
                 _filter_shape := filter_shape;
                 _strides := strides;
                 _padding := padding;
                 _data_format := data_format;
                 _dilations := dilations |} in
  base <- ModuleBase.__init__ (_create_variables self) dev_str v ;;
  ret {| self := self; base := base |}.
End Defs.
End Conv2D.

Coercion Conv2D.self : Conv2D.t >-> Conv2D.fields.

Module Conv2DTranspose.
Section Defs.
Context `{Ivy}.

Record fields : Type := {
  _input_channels : Z;
  _output_channels : Z;
  _filter_shape : list Z;
  _strides : int_or_seq;
  _padding : padding_arg;
  _output_shape : option (list Z);
  _data_format : string;
  _dilations : int_or_seq
}.

Record t : Type := { self : fields; base : ModuleBase.t }.

#[local] Coercion self : t >-> fields.

Definition _create_variables (self : fields) (dev_str : string)
  : M container :=
  q <- lift (truediv 6 (_output_channels self + _input_channels self)) ;;
  let wlim := pow_half q in
  let w_shape :=
    if String.eqb (_data_format self) "NHWC"
    then _filter_shape self ++ [_output_channels self; _input_channels self]
    else [_output_channels self; _input_channels self] ++ _filter_shape self in
  w <- random_uniformM (neg wlim) wlim w_shape (Some dev_str) ;;
  let w := variable w in
  b <- lift (backend (zeros [1; 1; 1; _output_channels self] (Some dev_str))) ;;
  let b := variable b in
  ret (Dict [("w", Leaf w); ("b", Leaf b)]).

Definition __init__ (input_channels output_channels : Z)
           (filter_shape : list Z)
           (strides : int_or_seq) (padding : padding_arg)
           (output_shape : option (list Z))
           (data_format : string) (dilations : int_or_seq)
           (dev_str : string) (v : option container) : M t :=
  let self := {| _input_channels := input_channels;
                 _output_channels := output_channels;
                 _filter_shape := filter_shape;
                 _strides := strides;
                 _padding := padding;
                 _output_shape := output_shape;
                 _data_format := data_format;
                 _dilations := dilations |} in
  base <- ModuleBase.__init__ (_create_variables self) dev_str v ;;
  ret {| self := self; base := base |}.
End Defs.
End Conv2DTranspose.

Coercion Conv2DTranspose.self : Conv2DTranspose.t >-> Conv2DTranspose.fields.

(** ** LSTM *)

Module LSTM.
Section Defs.
Context `{Ivy}.

Record fields : Type := {
  _input_channels : Z;
  _output_channels : Z;
  _num_layers : Z;
  _return_sequence : bool;
  _return_state : bool
}.

Record t : Type := { self : fields; base : ModuleBase.t }.

#[local] Coercion self : t >-> fields.

Definition v (l : t) : container := ModuleBase.v (base l).

(** What [_forward] returns: the output alone, or the output with the
    pair of per-layer state lists. *)
Inductive returned : Type :=
| Output (h_t : tensor)
| OutputAndState (h_t : tensor) (state : list tensor * list tensor).

Definition get_initial_state (l : t) (batch_shape : list Z)
  : result (list tensor * list tensor) :=
  hs <-! mapR (fun _ => backend
                 (zeros (batch_shape ++ [_output_channels l]) None))
              (range (_num_layers l)) ;;
  cs <-! mapR (fun _ => backend
                 (zeros (batch_shape ++ [_output_channels l]) None))
              (range (_num_layers l)) ;;
  Ok (hs, cs).

Definition layer_keys (self : fields) : list string :=
  map (fun i => ("layer_" ++ str i)%string) (range (_num_layers self)).

Definition _create_variables (self : fields) (dev_str : string)
  : M container :=
  q <- lift (truediv 6 (_output_channels self + _input_channels self)) ;;
  let wlim := pow_half q in
  let keys := layer_keys self in
  ws <- mapM (fun i =>
                w <- random_uniformM (neg wlim) wlim
                       [if i =? 0 then _input_channels self
                        else _output_channels self;
                        4 * _output_channels self] (Some dev_str) ;;
                ret (Dict [("w", Leaf (variable w))]))
             (range (_num_layers self)) ;;
  let input_weights := dict (combine keys ws) in
  q <- lift (truediv 6 (_output_channels self + _output_channels self)) ;;
  let wlim := pow_half q in
  let keys := layer_keys self in
  ws <- mapM (fun i =>
                w <- random_uniformM (neg wlim) wlim
                       [_output_channels self; 4 * _output_channels self]
                       (Some dev_str) ;;
                ret (Dict [("w", Leaf (variable w))]))
             (range (_num_layers self)) ;;
  let recurrent_weights := dict (combine keys ws) in
  ret (Dict [("input", Dict input_weights);
             ("recurrent", Dict recurrent_weights)]).

Definition __init__ (input_channels output_channels num_layers : Z)
           (return_sequence return_state : bool)
           (dev_str : string) (v : option container) : M t :=
  let self := {| _input_channels := input_channels;
                 _output_channels := output_channels;
                 _num_layers := num_layers;
                 _return_sequence := return_sequence;
                 _return_state := return_state |} in
  base <- ModuleBase.__init__ (_create_variables self) dev_str v ;;
  ret {| self := self; base := base |}.

(** The loop variables of [_forward]. *)
Definition carry : Type := (tensor * list tensor * list tensor)%type.

(** One pair of states with one entry of each weight container, as [zip]
    yields them. *)
Definition zipped : Type :=
  (tensor * tensor * (string * container) * (string * container))%type.

(** The body of the loop. *)
Definition loop_body (acc : carry) (it : zipped) : result carry :=
  let '(h_t, h_n_list, c_n_list) := acc in
  let '(h_0, c_0, (_, lstm_input_var), (_, lstm_recurrent_var)) := it in
  wi <-! getattr lstm_input_var "w" ;;
  wr <-! getattr lstm_recurrent_var "w" ;;
  wi <-! as_tensor wi ;;
  wr <-! as_tensor wr ;;
  ' (h_t, c_n) <-! backend (lstm_update h_t h_0 c_0 wi wr) ;;
  h_n <-! backend (last_step h_t) ;;
  Ok (h_t, h_n_list ++ [h_n], c_n_list ++ [c_n]).

Fixpoint for_loop (its : list zipped) (acc : carry) : result carry :=
  match its with
  | [] => Ok acc
  | it :: its' => acc' <-! loop_body acc it ;; for_loop its' acc'
  end.

Definition _forward (l : t) (inputs : tensor)
           (initial_state : option (list tensor * list tensor))
  : result returned :=
  initial_state <-!
    match initial_state with
    | None => get_initial_state l (drop_last2 (shape inputs))
    | Some st => Ok st
    end ;;
  let h_n_list := [] in
  let c_n_list := [] in
  let h_t := inputs in
  v_input <-! getattr (v l) "input" ;;
  input_items <-! items v_input ;;
  v_recurrent <-! getattr (v l) "recurrent" ;;
  recurrent_items <-! items v_recurrent ;;
  ' (h_t, h_n_list, c_n_list) <-!
    for_loop (zip4 (fst initial_state) (snd initial_state)
                   input_items recurrent_items)
             (h_t, h_n_list, c_n_list) ;;
  h_t <-! (if negb (_return_sequence l) then backend (last_step h_t)
           else Ok h_t) ;;
  if negb (_return_state l) then Ok (Output h_t)
  else Ok (OutputAndState h_t (h_n_list, c_n_list)).
End Defs.
End LSTM.

Coercion LSTM.self : LSTM.t >-> LSTM.fields.

(** ** Reading containers and layers *)

Section Reading.
Context `{Ivy}.

(** The tensors a container holds, in order. *)
Fixpoint leaves (c : container) : list tensor :=
  match c with
  | Leaf t => [t]
  | Dict d =>
      (fix go (l : list (string * container)) : list tensor :=
         match l with
         | [] => []
         | (_, c') :: l' => leaves c' ++ go l'
         end) d
  end.

(** The container entry of one LSTM layer: [{'w': w}], nothing else. *)
Definition lstm_entry (w : tensor) : container := Dict [("w", Leaf w)].

(** The container of an LSTM whose layers have the input weights [ins] and
    the recurrent weights [recs]: [{'input': {'layer_0': {'w': ...}, ...},
    'recurrent': {'layer_0': {'w': ...}, ...}}]. *)
Definition lstm_layout (self : LSTM.fields) (ins recs : list tensor)
  : container :=
  Dict [("input", Dict (combine (LSTM.layer_keys self) (map lstm_entry ins)));
        ("recurrent", Dict (combine (LSTM.layer_keys self) (map lstm_entry recs)))].

(** The weight shapes of an LSTM: as many weights of each kind as layers, the
    input weight of layer 0 with [input_channels] rows and of every later
    layer with [output_channels] rows, every recurrent weight with
    [output_channels] rows, all with [4 * output_channels] columns. *)
Definition lstm_shaped (self : LSTM.fields) (ins recs : list tensor) : Prop :=
  List.length ins = Z.to_nat (LSTM._num_layers self) /\
  List.length recs = Z.to_nat (LSTM._num_layers self) /\
  (forall i w, nth_error ins i = Some w ->
     shape w = [if (i =? 0)%nat then LSTM._input_channels self
                else LSTM._output_channels self;
                4 * LSTM._output_channels self]) /\
  (forall i w, nth_error recs i = Some w ->
     shape w = [LSTM._output_channels self; 4 * LSTM._output_channels self]).

(** An LSTM whose container holds well-shaped weights, as a container made by
    [_create_variables] does. *)
Definition lstm_ready (l : LSTM.t) (ins recs : list tensor) : Prop :=
  LSTM.v l = lstm_layout l ins recs /\ lstm_shaped l ins recs.

(** A Linear layer whose container holds a weight and a bias of the shapes
    its channel counts ask for. *)
Definition linear_ready (l : Linear.t) (w b : tensor) : Prop :=
  Linear.v l = Dict [("w", Leaf w); ("b", Leaf b)] /\
  shape w = [Linear._output_channels l; Linear._input_channels l] /\
  shape b = [Linear._output_channels l].
End Reading.

(** ** The LSTM forward pass in the specification's words

    "Processes layers sequentially (layer i's full output sequence becomes
    layer i+1's input); each layer's recurrence is delegated to an external
    stateful-update operation that consumes the previous layer's output
    sequence, the initial hidden/cell state for that layer, and that layer's
    two weight tensors, returning the new output sequence and final cell
    state" -- "an explicit indexed loop over num_layers".  The definitions
    below follow these words, layer by index; they are compared with
    [LSTM._forward], which iterates over a [zip]. *)

(** The key of layer [i] in a weight container. *)
Definition layer_key (i : nat) : string := ("layer_" ++ str (Z.of_nat i))%string.

Module LSTMSpec.
Section Defs.
Context `{Ivy}.

(** The weight of layer [i] in the group ["input"] or ["recurrent"]. *)
Definition weight (l : LSTM.t) (group : string) (i : nat) : result tensor :=
  grp <-! getattr (LSTM.v l) group ;;
  layer <-! getattr grp (layer_key i) ;;
  w <-! getattr layer "w" ;;
  as_tensor w.

(** The initial state of layer [i]. *)
Definition state_at (st : list tensor) (i : nat) : result tensor :=
  match nth_error st i with
  | Some t => Ok t
  | None => Err (KeyNotFound "state")
  end.

(** What the update operation returns for layer [i]: its output sequence and
    final cell state.  Layer 0 consumes the input, layer [i+1] the output
    sequence of layer [i]. *)
Fixpoint layer_output (l : LSTM.t) (inputs : tensor) (hs cs : list tensor)
         (i : nat) : result (tensor * tensor) :=
  x_i <-! match i with
          | O => Ok inputs
          | S j => rbind (layer_output l inputs hs cs j) (fun p => Ok (fst p))
          end ;;
  h_0 <-! state_at hs i ;;
  c_0 <-! state_at cs i ;;
  wi <-! weight l "input" i ;;
  wr <-! weight l "recurrent" i ;;
  backend (lstm_update x_i h_0 c_0 wi wr).

(** The sequence that leaves a stack of [k] layers. *)
Definition stack_output (l : LSTM.t) (inputs : tensor) (hs cs : list tensor)
           (k : nat) : result tensor :=
  match k with
  | O => Ok inputs
  | S j => rbind (layer_output l inputs hs cs j) (fun p => Ok (fst p))
  end.
(** Layer [i] ran and its states were collected: the update operation
    returned an output sequence and a final cell state for it, the hidden
    state kept at position [i] of [hn] is the last timestep of that output
    sequence, and the cell state kept at position [i] of [cn] is that final
    cell state. *)
Definition collected (l : LSTM.t) (inputs : tensor) (hs cs hn cn : list tensor)
           (i : nat) : Prop :=
  exists h c y,
    layer_output l inputs hs cs i = Ok (h, c) /\
    last_step h = inr y /\
    nth_error hn i = Some y /\
    nth_error cn i = Some c.

(** The output policy: the last timestep only unless [return_sequence]. *)
Definition truncated (l : LSTM.t) (h_seq out : tensor) : Prop :=
  if LSTM._return_sequence l then out = h_seq else last_step h_seq = inr out.

(** The output policy: the output alone unless [return_state]. *)
Definition packed (l : LSTM.t) (out : tensor) (hn cn : list tensor)
  : LSTM.returned :=
  if LSTM._return_state l then LSTM.OutputAndState out (hn, cn)
  else LSTM.Output out.
End Defs.
End LSTMSpec.

(** ** Constructing any of the layers *)

(** A constructor call of one of the six layer classes, with its
    hyperparameters; the device target and the optional container come
    besides. *)
Inductive new_layer : Type :=
| NewLinear (input_channels output_channels : Z)
| NewConv1D (input_channels output_channels filter_size : Z)
            (strides : int_or_seq) (padding : padding_arg)
            (data_format : string) (dilations : int_or_seq)
| NewConv1DTranspose (input_channels output_channels filter_size : Z)
            (strides : int_or_seq) (padding : padding_arg)
            (output_shape : option (list Z))
            (data_format : string) (dilations : int_or_seq)
| NewConv2D (input_channels output_channels : Z) (filter_shape : list Z)
            (strides : int_or_seq) (padding : padding_arg)
            (data_format : string) (dilations : int_or_seq)
| NewConv2DTranspose (input_channels output_channels : Z) (filter_shape : list Z)
            (strides : int_or_seq) (padding : padding_arg)
            (output_shape : option (list Z))
            (data_format : string) (dilations : int_or_seq)
| NewLSTM (input_channels output_channels num_layers : Z)
          (return_sequence return_state : bool).

(** The channel counts of a call. *)
Definition channels (c : new_layer) : Z * Z :=
  match c with
  | NewLinear ic oc => (ic, oc)
  | NewConv1D ic oc _ _ _ _ _ => (ic, oc)
  | NewConv1DTranspose ic oc _ _ _ _ _ _ => (ic, oc)
  | NewConv2D ic oc _ _ _ _ _ => (ic, oc)
  | NewConv2DTranspose ic oc _ _ _ _ _ _ => (ic, oc)
  | NewLSTM ic oc _ _ _ => (ic, oc)
  end.

Section AnyLayer.
Context `{Ivy}.

(** A constructed layer of any class. *)
Inductive layer : Type :=
| ALinear (l : Linear.t)
| AConv1D (l : Conv1D.t)
| AConv1DTranspose (l : Conv1DTranspose.t)
| AConv2D (l : Conv2D.t)
| AConv2DTranspose (l : Conv2DTranspose.t)
| AnLSTM (l : LSTM.t).

Definition construct (c : new_layer) (dev_str : string) (v : option container)
  : M layer :=
  match c with
  | NewLinear ic oc =>
      l <- Linear.__init__ ic oc dev_str v ;; ret (ALinear l)
  | NewConv1D ic oc fs st pad df dil =>
      l <- Conv1D.__init__ ic oc fs st pad df dil dev_str v ;; ret (AConv1D l)
  | NewConv1DTranspose ic oc fs st pad os df dil =>
      l <- Conv1DTranspose.__init__ ic oc fs st pad os df dil dev_str v ;;
      ret (AConv1DTranspose l)
  | NewConv2D ic oc fs st pad df dil =>
      l <- Conv2D.__init__ ic oc fs st pad df dil dev_str v ;; ret (AConv2D l)
  | NewConv2DTranspose ic oc fs st pad os df dil =>
      l <- Conv2DTranspose.__init__ ic oc fs st pad os df dil dev_str v ;;
      ret (AConv2DTranspose l)
  | NewLSTM ic oc n rs rst =>
      l <- LSTM.__init__ ic oc n rs rst dev_str v ;; ret (AnLSTM l)
  end.

(** The hyperparameters a layer holds, read back as the call that sets them. *)
Definition held (l : layer) : new_layer :=
  match l with
  | ALinear l => NewLinear (Linear._input_channels l) (Linear._output_channels l)
  | AConv1D l =>
      NewConv1D (Conv1D._input_channels l) (Conv1D._output_channels l)
                (Conv1D._filter_size l) (Conv1D._strides l) (Conv1D._padding l)
                (Conv1D._data_format l) (Conv1D._dilations l)
  | AConv1DTranspose l =>
      NewConv1DTranspose
        (Conv1DTranspose._input_channels l) (Conv1DTranspose._output_channels l)
        (Conv1DTranspose._filter_size l) (Conv1DTranspose._strides l)
        (Conv1DTranspose._padding l) (Conv1DTranspose._output_shape l)
        (Conv1DTranspose._data_format l) (Conv1DTranspose._dilations l)
  | AConv2D l =>
      NewConv2D (Conv2D._input_channels l) (Conv2D._output_channels l)
                (Conv2D._filter_shape l) (Conv2D._strides l) (Conv2D._padding l)
                (Conv2D._data_format l) (Conv2D._dilations l)
  | AConv2DTranspose l =>
      NewConv2DTranspose
        (Conv2DTranspose._input_channels l) (Conv2DTranspose._output_channels l)
        (Conv2DTranspose._filter_shape l) (Conv2DTranspose._strides l)
        (Conv2DTranspose._padding l) (Conv2DTranspose._output_shape l)
        (Conv2DTranspose._data_format l) (Conv2DTranspose._dilations l)
  | AnLSTM l =>
      NewLSTM (LSTM._input_channels l) (LSTM._output_channels l)
              (LSTM._num_layers l) (LSTM._return_sequence l)
              (LSTM._return_state l)
  end.

(** The base-class part of a layer. *)
Definition base_of (l : layer) : ModuleBase.t :=
  match l with
  | ALinear l => Linear.base l
  | AConv1D l => Conv1D.base l
  | AConv1DTranspose l => Conv1DTranspose.base l
  | AConv2D l => Conv2D.base l
  | AConv2DTranspose l => Conv2DTranspose.base l
  | AnLSTM l => LSTM.base l
  end.
End AnyLayer.

(** The errors the creation of variables can end in: the division of the
    Glorot bound, or an exception of the backend; no error of the
    specification's taxonomy. *)
Definition creation_error (e : exn) : Prop :=
  e = ZeroDivisionError \/ exists msg, e = BackendError msg.

(** The hyperparameters on which a Glorot bound divides by zero: every layer
    divides [6] by [output_channels + input_channels], and the LSTM, for the
    bound of its recurrent weights, by [output_channels + output_channels] as
    well. *)
Definition zero_divisor (c : new_layer) : Prop :=
  snd (channels c) + fst (channels c) = 0 \/
  match c with
  | NewLSTM _ oc _ _ _ => oc + oc = 0
  | _ => False
  end.

(** The hyperparameters a constructor can create variables for: channel
    counts that are not negative and not both zero, filter sizes that are not
    negative and, for the LSTM, whose second bound divides by
    [2 * output_channels], a positive [output_channels]. *)
Definition creatable (c : new_layer) : Prop :=
  0 <= fst (channels c) /\ 0 <= snd (channels c) /\
  0 < fst (channels c) + snd (channels c) /\
  match c with
  | NewLinear _ _ => True
  | NewConv1D _ _ fs _ _ _ _ => 0 <= fs
  | NewConv1DTranspose _ _ fs _ _ _ _ _ => 0 <= fs
  | NewConv2D _ _ fs _ _ _ _ => valid_shape fs
  | NewConv2DTranspose _ _ fs _ _ _ _ _ => valid_shape fs
  | NewLSTM _ oc _ _ _ => 0 < oc
  end.

(** ** A reference backend

    A small backend that meets the contracts: tensors are a shape with
    row-major data, the random generator is a counter, and [random_uniform]
    places its [k]-th draw at the fraction [1/(k+2)] of the interval.
    [lstm_update] checks shapes and returns tensors of the right shapes
    filled with zeros: the contract of the recurrence is on shapes only.
    It raises on ill-shaped arguments, as the array libraries do. *)

Module Ref.

Record array : Type := {
  t_shape : list Z;
  t_data : list R;
  t_dev : string;
  t_var : bool
}.

Definition cpu : string := "cpu".

Definition dev_arg (d : option string) : string :=
  match d with
  | Some s => s
  | None => cpu
  end.

Definition rzeros (s : list Z) (d : option string) : string + array :=
  if valid_shapeb s
  then inr {| t_shape := s;
              t_data := repeat 0%R (Z.to_nat (prod s));
              t_dev := dev_arg d;
              t_var := false |}
  else inl "negative dimensions are not allowed".

Definition draw (lo hi : R) (k : nat) : R :=
  (lo + (hi - lo) * / INR (k + 2))%R.

Definition rrandom_uniform (lo hi : num) (s : list Z) (d : option string)
           (g : nat) : string + (array * nat) :=
  match lo, hi with
  | PyFloat a, PyFloat b =>
      if valid_shapeb s
      then let n := Z.to_nat (prod s) in
           inr ({| t_shape := s;
                   t_data := map (fun i => draw a b (g + i)) (seq 0 n);
                   t_dev := dev_arg d;
                   t_var := false |}, (g + n)%nat)
      else inl "negative dimensions are not allowed"
  | _, _ => inl "bounds must be real numbers"
  end.

Definition rvariable (t : array) : array :=
  {| t_shape := t_shape t; t_data := t_data t; t_dev := t_dev t;
     t_var := true |}.

Definition shape_eqb (a b : list Z) : bool :=
  if list_eq_dec Z.eq_dec a b then true else false.

Definition rlinear (x w b : array) : string + array :=
  match rev (t_shape x), t_shape w, t_shape b with
  | ic :: rbs, [oc; ic'], [oc'] =>
      if valid_shapeb (t_shape x) && (0 <=? oc) && (ic =? ic') && (oc =? oc')
      then inr {| t_shape := rev rbs ++ [oc];
                  t_data := affine (Z.to_nat (prod (rev rbs))) (Z.to_nat ic)
                                   (Z.to_nat oc)
                                   (t_data x) (t_data w) (t_data b);
                  t_dev := t_dev x;
                  t_var := false |}
      else inl "shapes are not aligned"
  | _, _, _ => inl "shapes are not aligned"
  end.

Definition filled (s : list Z) (d : string) : array :=
  {| t_shape := s; t_data := repeat 0%R (Z.to_nat (prod s)); t_dev := d;
     t_var := false |}.

Definition rlstm_update (x h0 c0 wi wr : array)
  : string + (array * array) :=
  match rev (t_shape x), t_shape wi, t_shape wr with
  | ic :: T :: rbs, [ic'; g], [oc; g'] =>
      let bs := rev rbs in
      if valid_shapeb (t_shape x) && (0 <=? oc) && (ic =? ic')
         && (g =? 4 * oc) && (g' =? 4 * oc)
         && shape_eqb (t_shape h0) (bs ++ [oc])
         && shape_eqb (t_shape c0) (bs ++ [oc])
      then inr (filled (bs ++ [T; oc]) (t_dev x),
                filled (bs ++ [oc]) (t_dev x))
      else inl "shapes are not aligned"
  | _, _, _ => inl "shapes are not aligned"
  end.

Definition rlast_step (x : array) : string + array :=
  match rev (t_shape x) with
  | c :: T :: rbs =>
      if valid_shapeb (t_shape x) && (0 <? T)
      then inr {| t_shape := rev rbs ++ [c];
                  t_data :=
                    flat_map
                      (fun r => row (r * Z.to_nat T + (Z.to_nat T - 1))
                                    (Z.to_nat c) (t_data x))
                      (seq 0 (Z.to_nat (prod (rev rbs))));
                  t_dev := t_dev x;
                  t_var := t_var x |}
      else inl "index -1 is out of bounds for an axis of size 0"
  | _ => inl "too many indices"
  end.

Definition backend : Ivy := {|
  tensor := array;
  rng := nat;
  shape := t_shape;
  elems := t_data;
  dev_of := t_dev;
  is_variable := t_var;
  default_dev := cpu;
  zeros := rzeros;
  random_uniform := rrandom_uniform;
  variable := rvariable;
  linear := rlinear;
  lstm_update := rlstm_update;
  last_step := rlast_step
|}.

End Ref.

(** ** Sample layers on the reference backend *)

Module Sample.
#[local] Existing Instance Ref.backend.

Definition weight (s : list Z) : Ref.array := Ref.rvariable (Ref.filled s "cpu").

(** [Linear(4, 3)] with a container of a weight and a bias. *)
Definition dense : Linear.t :=
  {| Linear.self := {| Linear._input_channels := 4;
                       Linear._output_channels := 3 |};
     Linear.base :=
       {| ModuleBase._dev_str := "cpu";
          ModuleBase.v := Dict [("w", Leaf (weight [3; 4]));
                                ("b", Leaf (weight [3]))] |} |}.

Definition lstm_fields (n : Z) (rs rst : bool) : LSTM.fields :=
  {| LSTM._input_channels := 8;
     LSTM._output_channels := 16;
     LSTM._num_layers := n;
     LSTM._return_sequence := rs;
     LSTM._return_state := rst |}.

Definition lstm_ins (n : Z) : list Ref.array :=
  map (fun i => weight [if i =? 0 then 8 else 16; 64]) (range n).

Definition lstm_recs (n : Z) : list Ref.array :=
  map (fun _ => weight [16; 64]) (range n).

(** [LSTM(8, 16, n, rs, rst)] with a container of [n] input and [n] recurrent
    weights. *)
Definition lstm (n : Z) (rs rst : bool) : LSTM.t :=
  {| LSTM.self := lstm_fields n rs rst;
     LSTM.base :=
       {| ModuleBase._dev_str := "cpu";
          ModuleBase.v := lstm_layout (lstm_fields n rs rst)
                                      (lstm_ins n) (lstm_recs n) |} |}.

(** An input of shape [[3, 5, 8]] and a state of shape [[3, 16]]. *)
Definition inputs : Ref.array := Ref.filled [3; 5; 8] "cpu".
Definition state : Ref.array := Ref.filled [3; 16] "cpu".

(** [LSTM(8, 16, 1)] holding the weights of [lstm 1] under keys of its own
    choice. *)
Definition lstm_renamed : LSTM.t :=
  {| LSTM.self := lstm_fields 1 true true;
     LSTM.base :=
       {| ModuleBase._dev_str := "cpu";
          ModuleBase.v :=
            Dict [("input", Dict [("first", lstm_entry (weight [8; 64]))]);
                  ("recurrent", Dict [("first", lstm_entry (weight [16; 64]))])] |} |}.

(** [Linear(4, 3)] given a container made for seven outputs of five
    inputs. *)
Definition dense_injected : container :=
  Dict [("w", Leaf (weight [7; 5])); ("b", Leaf (weight [7]))].
End Sample.

(** * Properties *)

(** ** Shapes and numbers *)

Lemma valid_shapeb_true (s : list Z) : valid_shape s -> valid_shapeb s = true.
Proof.
  unfold valid_shape, valid_shapeb. intros Hs.
  apply forallb_forall. intros n Hn.
  rewrite Forall_forall in Hs. apply Z.leb_le. auto.
Qed.

Lemma valid_shape_app (a b : list Z) :
  valid_shape (a ++ b) <-> valid_shape a /\ valid_shape b.
Proof. unfold valid_shape. apply Forall_app. Qed.

Lemma valid_shape_cons (n : Z) (s : list Z) :
  valid_shape (n :: s) <-> 0 <= n /\ valid_shape s.
Proof. unfold valid_shape. apply Forall_cons_iff. Qed.

Lemma valid_shape_nil : valid_shape [].
Proof. constructor. Qed.

Ltac shapes :=
  repeat first
    [ apply valid_shape_nil
    | apply valid_shape_app; split
    | apply valid_shape_cons; split
    | assumption
    | lia ].

Lemma prod_nil : prod [] = 1.
Proof. reflexivity. Qed.

Lemma prod_cons (n : Z) (s : list Z) : prod (n :: s) = n * prod s.
Proof. reflexivity. Qed.

Lemma prod_singleton (n : Z) : prod [n] = n.
Proof. rewrite prod_cons, prod_nil. lia. Qed.

Lemma pow_half_nonneg (x : R) : (0 <= x)%R -> pow_half x = PyFloat (sqrt x).
Proof.
  intros Hx. unfold pow_half. destruct (Rle_dec 0 x) as [_ | Hn]; [reflexivity | contradiction].
Qed.

Lemma truediv_pos (a n : Z) : n <> 0 -> truediv a n = Ok (IZR a / IZR n)%R.
Proof.
  intros Hn. unfold truediv. destruct (Z.eqb_spec n 0); [contradiction | reflexivity].
Qed.

Lemma six_over_pos (n : Z) : 0 < n -> (0 < 6 / IZR n)%R.
Proof.
  intros Hn. apply Rdiv_lt_0_compat; [lra | apply IZR_lt; exact Hn].
Qed.

(** The Glorot bound of the layers: [(6 / n) ** 0.5] is the float
    [sqrt (6 / n)] when [n] is positive. *)
Lemma glorot_bound (n : Z) :
  0 < n -> pow_half (6 / IZR n) = PyFloat (sqrt (6 / IZR n)).
Proof.
  intros Hn. apply pow_half_nonneg. left. apply six_over_pos. exact Hn.
Qed.

Lemma neg_le_sqrt (x : R) : (- sqrt x <= sqrt x)%R.
Proof. pose proof (sqrt_pos x). lra. Qed.

(** ** The reference backend meets the contracts *)

Lemma draw_bounds (lo hi : R) (k : nat) :
  (lo <= hi)%R -> (lo <= Ref.draw lo hi k <= hi)%R.
Proof.
  intros Hle. unfold Ref.draw.
  assert (Hk : (2 <= INR (k + 2))%R).
  { rewrite plus_INR. pose proof (pos_INR k). simpl. lra. }
  assert (Hpos : (0 < / INR (k + 2))%R) by (apply Rinv_0_lt_compat; lra).
  assert (Hone : (/ INR (k + 2) <= 1)%R).
  { rewrite <- Rinv_1. apply Rinv_le_contravar; lra. }
  split; nra.
Qed.

Lemma shape_eqb_refl (s : list Z) : Ref.shape_eqb s s = true.
Proof. unfold Ref.shape_eqb. destruct (list_eq_dec Z.eq_dec s s); congruence. Qed.

Lemma ref_contract : @IvyContract Ref.backend.
Proof.
  constructor; simpl.
  - intros s d Hs. unfold Ref.rzeros. rewrite (valid_shapeb_true s Hs).
    eexists. split; [reflexivity |]. simpl. destruct d; auto.
  - intros lo hi s d g Hle Hs. unfold Ref.rrandom_uniform.
    rewrite (valid_shapeb_true s Hs).
    eexists. eexists. split; [reflexivity |]. simpl.
    repeat split.
    + rewrite length_map, length_seq. reflexivity.
    + apply Forall_forall. intros x Hx. apply in_map_iff in Hx.
      destruct Hx as [i [<- _]]. apply draw_bounds. exact Hle.
  - reflexivity.
  - reflexivity.
  - reflexivity.
  - reflexivity.
  - intros x w b bs ic oc Hv Hoc Hx Hw Hb. unfold Ref.rlinear.
    rewrite Hx, Hw, Hb, rev_app_distr. simpl.
    rewrite (valid_shapeb_true _ Hv).
    rewrite !Z.eqb_refl. destruct (Z.leb_spec 0 oc); [| lia]. simpl.
    rewrite rev_involutive. eexists. repeat split.
  - intros x h0 c0 wi wr bs T ic oc Hv Hoc Hx Hh Hc Hwi Hwr.
    unfold Ref.rlstm_update.
    rewrite Hx, Hwi, Hwr, rev_app_distr. simpl.
    rewrite (valid_shapeb_true _ Hv), !Z.eqb_refl, rev_involutive, Hh, Hc.
    rewrite shape_eqb_refl. destruct (Z.leb_spec 0 oc); [| lia]. simpl.
    eexists. eexists. repeat split.
  - intros x bs T c Hv HT Hx. unfold Ref.rlast_step.
    rewrite Hx, rev_app_distr. simpl.
    rewrite (valid_shapeb_true _ Hv), rev_involutive.
    destruct (Z.ltb_spec 0 T); [| lia]. simpl.
    eexists. repeat split.
Qed.

(** ** Running the tensor-creation calls *)

Section Creation.
Context `{IvyContract}.

Lemma run_random_uniform (lo hi : R) (s : list Z) (d : option string) (g : rng) :
  (lo <= hi)%R -> valid_shape s ->
  exists t g',
    random_uniformM (PyFloat lo) (PyFloat hi) s d g = Ok (t, g') /\
    shape t = s /\
    List.length (elems t) = Z.to_nat (prod s) /\
    Forall (fun x => (lo <= x <= hi)%R) (elems t) /\
    dev_of t = dev_or_default d.
Proof.
  intros Hle Hs.
  destruct (random_uniform_spec lo hi s d g Hle Hs) as (t & g' & E & P).
  exists t, g'. split; [| exact P].
  unfold random_uniformM. rewrite E. reflexivity.
Qed.

Lemma run_zeros (s : list Z) (d : option string) :
  valid_shape s ->
  exists t,
    backend (zeros s d) = Ok t /\
    shape t = s /\
    elems t = repeat 0%R (Z.to_nat (prod s)) /\
    dev_of t = dev_or_default d.
Proof.
  intros Hs. destruct (zeros_spec s d Hs) as (t & E & P).
  exists t. split; [| exact P]. rewrite E. reflexivity.
Qed.

(** The Glorot-uniform draw of every layer: bounds [-wlim] and [wlim] with
    [wlim = (6 / n) ** 0.5]. *)
Lemma run_glorot_uniform (n : Z) (s : list Z) (dev_str : string) (g : rng) :
  0 < n -> valid_shape s ->
  exists t g',
    random_uniformM (neg (pow_half (6 / IZR n))) (pow_half (6 / IZR n)) s
                    (Some dev_str) g = Ok (t, g') /\
    shape t = s /\
    List.length (elems t) = Z.to_nat (prod s) /\
    Forall (fun x => (- sqrt (6 / IZR n) <= x <= sqrt (6 / IZR n))%R) (elems t) /\
    dev_of t = dev_str.
Proof.
  intros Hn Hs. rewrite (glorot_bound n Hn). simpl neg.
  apply (run_random_uniform _ _ s (Some dev_str) g (neg_le_sqrt _) Hs).
Qed.
End Creation.

Lemma bind_ok `{Ivy} {A B} (c : M A) (k : A -> M B) (g : rng) (a : A) (g' : rng) :
  c g = Ok (a, g') -> bind c k g = k a g'.
Proof. intros E. unfold bind. rewrite E. reflexivity. Qed.

Lemma bind_lift_ok `{Ivy} {A B} (c : result A) (k : A -> M B) (g : rng) (a : A) :
  c = Ok a -> bind (lift c) k g = k a g.
Proof. intros E. unfold bind, lift. rewrite E. reflexivity. Qed.

(** ** Linear: the created variables *)

(** The two creation calls of [Linear._create_variables] on valid channel
    counts: the uniform draw [w0] and the zero tensor [b0] that end up,
    wrapped as variables, in the container. *)
Lemma Linear_create_variables_run `{IvyContract}
      (ic oc : Z) (dev_str : string) (g : rng) :
  0 <= ic -> 0 <= oc -> 0 < ic + oc ->
  let self := {| Linear._input_channels := ic; Linear._output_channels := oc |} in
  exists w0 b0 g',
    Linear._create_variables self dev_str g
      = Ok (Dict [("w", Leaf (variable w0)); ("b", Leaf (variable b0))], g') /\
    shape w0 = [oc; ic] /\
    List.length (elems w0) = Z.to_nat (prod [oc; ic]) /\
    Forall (fun x => (- sqrt (6 / IZR (oc + ic)) <= x <= sqrt (6 / IZR (oc + ic)))%R)
           (elems w0) /\
    dev_of w0 = dev_str /\
    shape b0 = [oc] /\
    elems b0 = repeat 0%R (Z.to_nat (prod [oc])) /\
    dev_of b0 = dev_str.
Proof.
  intros Hic Hoc Hsum self.
  assert (Hn : 0 < oc + ic) by lia.
  assert (Hne : oc + ic <> 0) by lia.
  destruct (run_glorot_uniform (oc + ic) [oc; ic] dev_str g Hn)
    as (w0 & g' & Ew & Sw & Lw & Bw & Dw); [shapes |].
  destruct (run_zeros [oc] (Some dev_str)) as (b0 & Eb & Sb & Zb & Db); [shapes |].
  exists w0, b0, g'. split; [| repeat split; assumption].
  unfold Linear._create_variables.
  cbn [Linear._input_channels Linear._output_channels self].
  rewrite (bind_lift_ok _ _ g _ (truediv_pos 6 (oc + ic) Hne)).
  cbv zeta. rewrite (bind_ok _ _ g w0 g' Ew).
  rewrite (bind_lift_ok _ _ g' b0 Eb). reflexivity.
Qed.

(** C1.  For every valid pair of channel counts (both non-negative, not both
    zero), [Linear._create_variables] returns the container
    [{'w': w, 'b': b}] where [w] is a trainable tensor of shape
    [[output_channels, input_channels]] on the requested device whose
    elements all lie in [[-wlim, wlim]], [wlim = sqrt (6 / (input_channels +
    output_channels))], and [b] is a trainable tensor of shape
    [[output_channels]] whose elements are all zero. *)
Theorem Linear_create_variables_spec `{IvyContract}
        (ic oc : Z) (dev_str : string) (g : rng) :
  0 <= ic -> 0 <= oc -> 0 < ic + oc ->
  let self := {| Linear._input_channels := ic; Linear._output_channels := oc |} in
  let wlim := sqrt (6 / IZR (ic + oc)) in
  exists w b g',
    Linear._create_variables self dev_str g
      = Ok (Dict [("w", Leaf w); ("b", Leaf b)], g') /\
    shape w = [oc; ic] /\
    List.length (elems w) = Z.to_nat (oc * ic) /\
    Forall (fun x => (- wlim <= x <= wlim)%R) (elems w) /\
    shape b = [oc] /\
    elems b = repeat 0%R (Z.to_nat oc) /\
    is_variable w = true /\ is_variable b = true /\
    dev_of w = dev_str /\ dev_of b = dev_str.
Proof.
  intros Hic Hoc Hsum self wlim.
  destruct (Linear_create_variables_run ic oc dev_str g Hic Hoc Hsum)
    as (w0 & b0 & g' & E & Sw & Lw & Bw & Dw & Sb & Zb & Db).
  exists (variable w0), (variable b0), g'.
  rewrite !variable_shape, !variable_elems, !variable_dev, !variable_trainable.
  rewrite prod_singleton in Zb.
  rewrite !prod_cons, prod_nil, Z.mul_1_r in Lw.
  subst wlim. replace (ic + oc) with (oc + ic) by lia.
  repeat split; assumption.
Qed.

Lemma Linear_create_variables_witness :
  let self := {| Linear._input_channels := 4; Linear._output_channels := 3 |} in
  let wlim := sqrt (6 / IZR (4 + 3)) in
  exists w b g',
    @Linear._create_variables Ref.backend self "cuda:0" 0%nat
      = Ok (Dict [("w", Leaf w); ("b", Leaf b)], g') /\
    @shape Ref.backend w = [3; 4] /\
    List.length (@elems Ref.backend w) = Z.to_nat (3 * 4) /\
    Forall (fun x => (- wlim <= x <= wlim)%R) (@elems Ref.backend w) /\
    @shape Ref.backend b = [3] /\
    @elems Ref.backend b = repeat 0%R (Z.to_nat 3) /\
    @is_variable Ref.backend w = true /\ @is_variable Ref.backend b = true /\
    @dev_of Ref.backend w = "cuda:0" /\ @dev_of Ref.backend b = "cuda:0".
Proof.
  apply (@Linear_create_variables_spec Ref.backend ref_contract 4 3 "cuda:0" 0%nat); lia.
Defined.

(** ** Conv2D: the created variables *)

(** C4.  For every valid [Conv2D] configuration (non-negative channel counts,
    not both zero, and a filter shape without negative entries),
    [_create_variables] returns [{'w': w, 'b': b}] where the weight has shape
    [filter_shape + [output_channels, input_channels]] when [data_format] is
    ["NHWC"] and [[output_channels, input_channels] + filter_shape] when it is
    ["NCHW"], and the bias has shape [[1, 1, 1, output_channels]] and is all
    zeros. *)
Theorem Conv2D_create_variables_spec `{IvyContract}
        (self : Conv2D.fields) (dev_str : string) (g : rng) :
  let ic := Conv2D._input_channels self in
  let oc := Conv2D._output_channels self in
  let fs := Conv2D._filter_shape self in
  0 <= ic -> 0 <= oc -> 0 < ic + oc -> valid_shape fs ->
  exists w b g',
    Conv2D._create_variables self dev_str g
      = Ok (Dict [("w", Leaf w); ("b", Leaf b)], g') /\
    (Conv2D._data_format self = "NHWC" -> shape w = fs ++ [oc; ic]) /\
    (Conv2D._data_format self = "NCHW" -> shape w = [oc; ic] ++ fs) /\
    Forall (fun x => (- sqrt (6 / IZR (ic + oc)) <= x <= sqrt (6 / IZR (ic + oc)))%R)
           (elems w) /\
    shape b = [1; 1; 1; oc] /\
    elems b = repeat 0%R (Z.to_nat oc).
Proof.
  intros ic oc fs Hic Hoc Hsum Hfs.
  assert (Hn : 0 < oc + ic) by lia.
  unfold Conv2D._create_variables. fold ic oc fs.
  unfold bind at 1. unfold lift at 1.
  rewrite truediv_pos by (intros E; rewrite E in Hn; lia). simpl.
  set (w_shape := if String.eqb (Conv2D._data_format self) "NHWC"
                  then fs ++ [oc; ic] else oc :: ic :: fs).
  assert (Hws : valid_shape w_shape).
  { subst w_shape. destruct (String.eqb _ _); shapes. }
  destruct (run_glorot_uniform (oc + ic) w_shape dev_str g Hn Hws)
    as (w & g' & Ew & Sw & _ & Bw & _).
  unfold bind at 1. rewrite Ew.
  destruct (run_zeros [1; 1; 1; oc] (Some dev_str)) as (b & Eb & Sb & Zb & _);
    [shapes |].
  unfold bind, lift, ret. rewrite Eb. simpl.
  exists (variable w), (variable b), g'.
  rewrite !variable_shape, !variable_elems.
  replace (prod [1; 1; 1; oc]) with oc in Zb by (rewrite !prod_cons, prod_nil; lia).
  replace (ic + oc) with (oc + ic) by lia.
  repeat split; auto.
  - intros E. rewrite Sw. subst w_shape. rewrite E. reflexivity.
  - intros E. rewrite Sw. subst w_shape. rewrite E. reflexivity.
Qed.

Lemma Conv2D_create_variables_witness :
  let self := {| Conv2D._input_channels := 3;
                 Conv2D._output_channels := 8;
                 Conv2D._filter_shape := [5; 5];
                 Conv2D._strides := AnInt 1;
                 Conv2D._padding := PadMode "SAME";
                 Conv2D._data_format := "NCHW";
                 Conv2D._dilations := AnInt 1 |} in
  exists w b g',
    @Conv2D._create_variables Ref.backend self "cpu" 0%nat
      = Ok (Dict [("w", Leaf w); ("b", Leaf b)], g') /\
    @shape Ref.backend w = [8; 3; 5; 5] /\
    @shape Ref.backend b = [1; 1; 1; 8] /\
    @elems Ref.backend b = repeat 0%R 8.
Proof.
  intros self.
  destruct (@Conv2D_create_variables_spec Ref.backend ref_contract self "cpu" 0%nat)
    as (w & b & g' & E & _ & Hnchw & _ & Sb & Zb);
    [simpl; lia | simpl; lia | simpl; lia | simpl; shapes |].
  exists w, b, g'. repeat split; auto.
Defined.

(** ** LSTM: the zero-state accessor *)

Lemma mapR_const {A B} (f : A -> result B) (l : list A) (b : B) :
  (forall a, In a l -> f a = Ok b) ->
  mapR f l = Ok (repeat b (List.length l)).
Proof.
  induction l as [| a l IH]; intros Hf; simpl.
  - reflexivity.
  - rewrite (Hf a) by (left; reflexivity). simpl.
    rewrite IH by (intros; apply Hf; right; assumption). reflexivity.
Qed.

Lemma range_length (n : Z) : List.length (range n) = Z.to_nat n.
Proof. unfold range. rewrite length_map, length_seq. reflexivity. Qed.

Lemma Forall_repeat {A} (P : A -> Prop) (a : A) (n : nat) :
  P a -> Forall P (repeat a n).
Proof. intros Ha. induction n; simpl; constructor; auto. Qed.

(** C6.  For every LSTM with a non-negative number of layers and channel
    count and every batch shape, [get_initial_state] returns a pair of two
    lists, each of length [num_layers], whose elements are all zero-filled
    tensors of shape [batch_shape + [output_channels]]. *)
Theorem LSTM_get_initial_state_spec `{IvyContract}
        (l : LSTM.t) (batch_shape : list Z) :
  let oc := LSTM._output_channels l in
  let n := LSTM._num_layers l in
  valid_shape batch_shape -> 0 <= oc -> 0 <= n ->
  exists hs cs,
    LSTM.get_initial_state l batch_shape = Ok (hs, cs) /\
    Z.of_nat (List.length hs) = n /\
    Z.of_nat (List.length cs) = n /\
    Forall (fun t => shape t = batch_shape ++ [oc] /\
                     elems t = repeat 0%R (Z.to_nat (prod (batch_shape ++ [oc]))))
           (hs ++ cs).
Proof.
  intros oc n Hbs Hoc Hn.
  destruct (run_zeros (batch_shape ++ [oc]) None) as (z & Ez & Sz & Zz & _);
    [shapes |].
  unfold LSTM.get_initial_state. fold oc n.
  rewrite (mapR_const _ (range n) z) by (intros; exact Ez).
  simpl. rewrite range_length.
  exists (repeat z (Z.to_nat n)), (repeat z (Z.to_nat n)).
  rewrite repeat_length, Z2Nat.id by lia.
  repeat split.
  apply Forall_app. split; apply Forall_repeat; auto.
Qed.

Lemma LSTM_get_initial_state_witness :
  let l := {| LSTM.self := {| LSTM._input_channels := 8;
                              LSTM._output_channels := 16;
                              LSTM._num_layers := 2;
                              LSTM._return_sequence := true;
                              LSTM._return_state := true |};
              LSTM.base := {| ModuleBase._dev_str := "cuda:0";
                              ModuleBase.v := Dict [] |} |} in
  exists hs cs,
    @LSTM.get_initial_state Ref.backend l [3] = Ok (hs, cs) /\
    Z.of_nat (List.length hs) = 2 /\
    Z.of_nat (List.length cs) = 2 /\
    Forall (fun t => @shape Ref.backend t = [3; 16] /\
                     @elems Ref.backend t = repeat 0%R (Z.to_nat (prod [3; 16])))
           (hs ++ cs).
Proof.
  intros l.
  apply (@LSTM_get_initial_state_spec Ref.backend ref_contract l [3]);
    simpl; [shapes | lia | lia].
Defined.

(** ** Dictionaries and layer keys *)

Lemma dict_set_fresh {V} (k : string) (x : V) (d : list (string * V)) :
  ~ In k (map fst d) -> dict_set k x d = d ++ [(k, x)].
Proof.
  induction d as [| [k' y] d IH]; simpl; intros Hk.
  - reflexivity.
  - destruct (String.eqb_spec k k') as [-> | Hne].
    + exfalso. apply Hk. left. reflexivity.
    + rewrite IH; [reflexivity |]. intros Hin. apply Hk. right. exact Hin.
Qed.

Lemma dict_fold_nodup {V} (l acc : list (string * V)) :
  NoDup (map fst (acc ++ l)) ->
  fold_left (fun d kv => dict_set (fst kv) (snd kv) d) l acc = acc ++ l.
Proof.
  revert acc. induction l as [| [k x] l IH]; intros acc Hnd; simpl.
  - rewrite app_nil_r. reflexivity.
  - rewrite dict_set_fresh.
    + rewrite IH; rewrite <- app_assoc; [reflexivity | exact Hnd].
    + rewrite map_app in Hnd. simpl in Hnd.
      apply NoDup_remove_2 in Hnd. intros Hin. apply Hnd.
      apply in_or_app. left. exact Hin.
Qed.

(** [dict(pairs)] keeps a list of pairs with distinct keys as it is. *)
Lemma dict_nodup {V} (l : list (string * V)) :
  NoDup (map fst l) -> dict l = l.
Proof. intros Hnd. unfold dict. rewrite dict_fold_nodup; auto. Qed.

Lemma map_fst_combine {A B} (a : list A) (b : list B) :
  List.length a = List.length b -> map fst (combine a b) = a.
Proof.
  revert b. induction a as [| x a IH]; intros [| y b] Hlen; simpl in *;
    try discriminate; [reflexivity |].
  f_equal. apply IH. lia.
Qed.

Lemma str_inj (i j : Z) : str i = str j -> i = j.
Proof.
  unfold str. intros E.
  assert (E' : Some (Z.to_int i) = Some (Z.to_int j)).
  { rewrite <- !NilEmpty.isi, E. reflexivity. }
  injection E' as E'.
  rewrite <- (DecimalZ.of_to i), <- (DecimalZ.of_to j), E'. reflexivity.
Qed.

Lemma layer_key_inj (i j : nat) : layer_key i = layer_key j -> i = j.
Proof.
  unfold layer_key. simpl. intros E. injection E as E.
  apply str_inj in E. lia.
Qed.

Lemma layer_keys_seq (self : LSTM.fields) :
  LSTM.layer_keys self = map layer_key (seq 0 (Z.to_nat (LSTM._num_layers self))).
Proof. unfold LSTM.layer_keys, range. rewrite map_map. reflexivity. Qed.

Lemma layer_keys_length (self : LSTM.fields) :
  List.length (LSTM.layer_keys self) = Z.to_nat (LSTM._num_layers self).
Proof. rewrite layer_keys_seq, length_map, length_seq. reflexivity. Qed.

Lemma layer_keys_nodup (self : LSTM.fields) : NoDup (LSTM.layer_keys self).
Proof.
  rewrite layer_keys_seq. apply Injective_map_NoDup.
  - intros i j. apply layer_key_inj.
  - apply seq_NoDup.
Qed.

(** The [dict(zip(keys, values))] of [_create_variables]. *)
Lemma dict_layer_keys {V} (self : LSTM.fields) (vals : list V) :
  List.length vals = Z.to_nat (LSTM._num_layers self) ->
  dict (combine (LSTM.layer_keys self) vals) = combine (LSTM.layer_keys self) vals.
Proof.
  intros Hlen. apply dict_nodup.
  rewrite map_fst_combine by (rewrite layer_keys_length; lia).
  apply layer_keys_nodup.
Qed.

Lemma Forall2_seq_nth {B} (f : nat -> Z) (P : Z -> B -> Prop) (len a : nat)
      (ws : list B) :
  Forall2 P (map f (seq a len)) ws ->
  forall i w, nth_error ws i = Some w -> P (f (a + i)%nat) w.
Proof.
  revert a ws. induction len as [| len IH]; intros a ws HF i w Hi; simpl in HF.
  - inversion HF; subst. destruct i; discriminate.
  - inversion HF as [| x y l l' Hxy Hrest]; subst.
    destruct i as [| i]; simpl in Hi.
    + injection Hi as <-. rewrite Nat.add_0_r. exact Hxy.
    + replace (a + S i)%nat with (S a + i)%nat by lia.
      apply (IH (S a) l'); assumption.
Qed.

Lemma Forall2_range {B} (P : Z -> B -> Prop) (n : Z) (ws : list B) :
  Forall2 P (range n) ws ->
  List.length ws = Z.to_nat n /\
  forall i w, nth_error ws i = Some w -> P (Z.of_nat i) w.
Proof.
  intros HF. split.
  - rewrite <- (Forall2_length HF). apply range_length.
  - intros i w Hi. apply (Forall2_seq_nth Z.of_nat P _ 0%nat ws HF i w Hi).
Qed.

Lemma Forall2_Forall_r {A B} (P : A -> B -> Prop) (Q : B -> Prop)
      (l : list A) (ws : list B) :
  (forall a b, P a b -> Q b) -> Forall2 P l ws -> Forall Q ws.
Proof. intros HPQ HF. induction HF; constructor; eauto. Qed.

(** ** LSTM: the created variables *)

Section LSTMCreation.
Context `{IvyContract}.

Lemma leaves_Dict_nil : leaves (Dict []) = [].
Proof. reflexivity. Qed.

Lemma leaves_Dict_cons (k : string) (c : container) (d : list (string * container)) :
  leaves (Dict ((k, c) :: d)) = leaves c ++ leaves (Dict d).
Proof. reflexivity. Qed.

Lemma leaves_entries (keys : list string) (ws : list tensor) :
  List.length keys = List.length ws ->
  leaves (Dict (combine keys (map lstm_entry ws))) = ws.
Proof.
  revert keys. induction ws as [| w ws IH]; intros [| k keys] Hlen;
    simpl in Hlen; try discriminate.
  - reflexivity.
  - cbn [map combine]. rewrite leaves_Dict_cons, IH by lia. reflexivity.
Qed.

Lemma leaves_layout (self : LSTM.fields) (ins recs : list tensor) :
  List.length ins = Z.to_nat (LSTM._num_layers self) ->
  List.length recs = Z.to_nat (LSTM._num_layers self) ->
  leaves (lstm_layout self ins recs) = ins ++ recs.
Proof.
  intros Hi Hr. unfold lstm_layout.
  rewrite !leaves_Dict_cons, leaves_Dict_nil, app_nil_r.
  rewrite !leaves_entries by (rewrite layer_keys_length; lia).
  reflexivity.
Qed.

(** A comprehension of Glorot-uniform draws, one per element of [idx]. *)
Lemma mapM_glorot (n : Z) (shape_of : Z -> list Z) (dev_str : string)
      (idx : list Z) (g : rng) :
  0 < n -> (forall i, valid_shape (shape_of i)) ->
  exists ws g',
    mapM (fun i =>
            w <- random_uniformM (neg (pow_half (6 / IZR n))) (pow_half (6 / IZR n))
                   (shape_of i) (Some dev_str) ;;
            ret (Dict [("w", Leaf (variable w))])) idx g
      = Ok (map lstm_entry ws, g') /\
    Forall2 (fun i w =>
               shape w = shape_of i /\
               Forall (fun x => (- sqrt (6 / IZR n) <= x <= sqrt (6 / IZR n))%R)
                      (elems w) /\
               is_variable w = true /\ dev_of w = dev_str) idx ws.
Proof.
  intros Hn Hs. revert g. induction idx as [| i idx IH]; intros g.
  - exists [], g. split; [reflexivity | constructor].
  - destruct (run_glorot_uniform n (shape_of i) dev_str g Hn (Hs i))
      as (w & g1 & Ew & Sw & _ & Bw & Dw).
    destruct (IH g1) as (ws & g' & Ews & HF).
    exists (variable w :: ws), g'. split.
    + cbn [mapM].
      rewrite (bind_ok _ _ g (lstm_entry (variable w)) g1)
        by (rewrite (bind_ok _ _ g w g1 Ew); reflexivity).
      rewrite (bind_ok _ _ g1 _ g' Ews). reflexivity.
    + constructor; [| exact HF].
      rewrite variable_shape, variable_elems, variable_dev, variable_trainable.
      auto.
Qed.
End LSTMCreation.

(** The draws of [LSTM._create_variables] on valid channel counts, layer by
    layer of [range(num_layers)]. *)
Lemma LSTM_create_variables_run `{IvyContract}
      (self : LSTM.fields) (dev_str : string) (g : rng) :
  let ic := LSTM._input_channels self in
  let oc := LSTM._output_channels self in
  0 <= ic -> 0 < oc ->
  exists ins recs g',
    LSTM._create_variables self dev_str g = Ok (lstm_layout self ins recs, g') /\
    Forall2 (fun i w =>
               shape w = [if i =? 0 then ic else oc; 4 * oc] /\
               Forall (fun x => (- sqrt (6 / IZR (oc + ic)) <= x
                                 <= sqrt (6 / IZR (oc + ic)))%R) (elems w) /\
               is_variable w = true /\ dev_of w = dev_str)
            (range (LSTM._num_layers self)) ins /\
    Forall2 (fun (_ : Z) w =>
               shape w = [oc; 4 * oc] /\
               Forall (fun x => (- sqrt (6 / IZR (oc + oc)) <= x
                                 <= sqrt (6 / IZR (oc + oc)))%R) (elems w) /\
               is_variable w = true /\ dev_of w = dev_str)
            (range (LSTM._num_layers self)) recs.
Proof.
  intros ic oc Hic Hoc.
  assert (Hn1 : 0 < oc + ic) by lia.
  assert (Hn2 : 0 < oc + oc) by lia.
  assert (Hne1 : oc + ic <> 0) by lia.
  assert (Hne2 : oc + oc <> 0) by lia.
  destruct (mapM_glorot (oc + ic) (fun i => [if i =? 0 then ic else oc; 4 * oc])
                        dev_str (range (LSTM._num_layers self)) g Hn1)
    as (ins & g1 & Eins & Fins).
  { intros i. destruct (i =? 0); shapes. }
  destruct (mapM_glorot (oc + oc) (fun _ => [oc; 4 * oc])
                        dev_str (range (LSTM._num_layers self)) g1 Hn2)
    as (recs & g2 & Erecs & Frecs).
  { intros i. shapes. }
  exists ins, recs, g2. split; [| split; assumption].
  unfold LSTM._create_variables. fold ic oc.
  rewrite (bind_lift_ok _ _ g _ (truediv_pos 6 (oc + ic) Hne1)).
  rewrite (bind_ok _ _ g _ g1 Eins).
  rewrite (bind_lift_ok _ _ g1 _ (truediv_pos 6 (oc + oc) Hne2)).
  rewrite (bind_ok _ _ g1 _ g2 Erecs).
  unfold ret.
  rewrite !dict_layer_keys
    by (rewrite length_map;
        first [exact (proj1 (Forall2_range _ _ _ Fins))
              | exact (proj1 (Forall2_range _ _ _ Frecs))]).
  reflexivity.
Qed.

(** The shapes drawn layer by layer are the weight shapes of the LSTM. *)
Lemma lstm_shaped_of_run `{Ivy} (self : LSTM.fields) (ins recs : list tensor)
      (P Q : tensor -> Prop) :
  Forall2 (fun i w =>
             shape w = [if i =? 0 then LSTM._input_channels self
                        else LSTM._output_channels self;
                        4 * LSTM._output_channels self] /\ P w)
          (range (LSTM._num_layers self)) ins ->
  Forall2 (fun (_ : Z) w =>
             shape w = [LSTM._output_channels self; 4 * LSTM._output_channels self]
             /\ Q w)
          (range (LSTM._num_layers self)) recs ->
  lstm_shaped self ins recs.
Proof.
  intros Fins Frecs.
  destruct (Forall2_range _ _ _ Fins) as [Lins Pins].
  destruct (Forall2_range _ _ _ Frecs) as [Lrecs Precs].
  repeat split; auto.
  - intros i w Hi. destruct (Pins i w Hi) as [Sw _]. rewrite Sw.
    destruct i; reflexivity.
  - intros i w Hi. destruct (Precs i w Hi) as [Sw _]. exact Sw.
Qed.

(** C5.  For every LSTM with non-negative [input_channels] and positive
    [output_channels], [_create_variables] returns the container
    [{'input': {'layer_i': {'w': ...}}, 'recurrent': {'layer_i': {'w': ...}}}]
    with one entry per layer [i < num_layers] in each group: the input weight
    of layer [i] has shape [[layer_input_size, 4 * output_channels]], where
    [layer_input_size] is [input_channels] for layer 0 and [output_channels]
    for every later layer, and is drawn within the Glorot bound of
    [input_channels + output_channels]; the recurrent weight has shape
    [[output_channels, 4 * output_channels]] and is drawn within the Glorot
    bound of [output_channels + output_channels].  These weights are the only
    tensors of the container: no bias variables are created. *)
Theorem LSTM_create_variables_spec `{IvyContract}
        (self : LSTM.fields) (dev_str : string) (g : rng) :
  let ic := LSTM._input_channels self in
  let oc := LSTM._output_channels self in
  let within (n : Z) (w : tensor) :=
    Forall (fun x => (- sqrt (6 / IZR n) <= x <= sqrt (6 / IZR n))%R) (elems w) in
  0 <= ic -> 0 < oc ->
  exists ins recs g',
    LSTM._create_variables self dev_str g = Ok (lstm_layout self ins recs, g') /\
    lstm_shaped self ins recs /\
    Forall (fun w => within (ic + oc) w /\ is_variable w = true /\ dev_of w = dev_str) ins /\
    Forall (fun w => within (oc + oc) w /\ is_variable w = true /\ dev_of w = dev_str) recs /\
    leaves (lstm_layout self ins recs) = ins ++ recs.
Proof.
  intros ic oc within Hic Hoc.
  destruct (LSTM_create_variables_run self dev_str g Hic Hoc)
    as (ins & recs & g' & E & Fins & Frecs).
  pose proof (lstm_shaped_of_run self ins recs _ _ Fins Frecs) as S.
  exists ins, recs, g'.
  split; [exact E |]. split; [exact S |]. split; [| split].
  - eapply Forall2_Forall_r; [| exact Fins].
    intros i w (_ & B & V & D). unfold within.
    replace (ic + oc) with (oc + ic) by lia. auto.
  - eapply Forall2_Forall_r; [| exact Frecs].
    intros i w (_ & B & V & D). unfold within. auto.
  - destruct S as (Li & Lr & _). apply leaves_layout; assumption.
Qed.

Lemma LSTM_create_variables_witness :
  let self := {| LSTM._input_channels := 8;
                 LSTM._output_channels := 16;
                 LSTM._num_layers := 2;
                 LSTM._return_sequence := true;
                 LSTM._return_state := true |} in
  exists ins recs g',
    @LSTM._create_variables Ref.backend self "cuda:0" 0%nat
      = Ok (@lstm_layout Ref.backend self ins recs, g') /\
    @lstm_shaped Ref.backend self ins recs /\
    @leaves Ref.backend (@lstm_layout Ref.backend self ins recs) = ins ++ recs.
Proof.
  intros self.
  destruct (@LSTM_create_variables_spec Ref.backend ref_contract self "cuda:0" 0%nat)
    as (ins & recs & g' & E & S & _ & _ & L); [simpl; lia | simpl; lia |].
  exists ins, recs, g'. auto.
Defined.

(** ** Construction *)

Section Construction.
Context `{Ivy}.

(** With no container supplied, the constructor's outcome is that of
    [_create_variables]. *)
Lemma LSTM_init_none (ic oc n : Z) (rs rst : bool) (dev_str : string) (g : rng) :
  let self := {| LSTM._input_channels := ic; LSTM._output_channels := oc;
                 LSTM._num_layers := n; LSTM._return_sequence := rs;
                 LSTM._return_state := rst |} in
  LSTM.__init__ ic oc n rs rst dev_str None g =
  match LSTM._create_variables self dev_str g with
  | inl e => inl e
  | inr (c, g') =>
      Ok ({| LSTM.self := self;
             LSTM.base := {| ModuleBase._dev_str := dev_str; ModuleBase.v := c |} |},
          g')
  end.
Proof.
  intros self. unfold LSTM.__init__, ModuleBase.__init__, bind, ret. fold self.
  destruct (LSTM._create_variables self dev_str g) as [e | [c g']]; reflexivity.
Qed.

Lemma Linear_init_none (ic oc : Z) (dev_str : string) (g : rng) :
  let self := {| Linear._input_channels := ic; Linear._output_channels := oc |} in
  Linear.__init__ ic oc dev_str None g =
  match Linear._create_variables self dev_str g with
  | inl e => inl e
  | inr (c, g') =>
      Ok ({| Linear.self := self;
             Linear.base := {| ModuleBase._dev_str := dev_str; ModuleBase.v := c |} |},
          g')
  end.
Proof.
  intros self. unfold Linear.__init__, ModuleBase.__init__, bind, ret. fold self.
  destruct (Linear._create_variables self dev_str g) as [e | [c g']]; reflexivity.
Qed.
End Construction.

(** ** LSTM: devices of the states and of the variables *)

(** C9.  For every LSTM constructed (with valid channel counts) for a device
    target [dev_str] other than the library's default device:
    [_create_variables] makes [num_layers] input and [num_layers] recurrent
    weights -- the [2 * num_layers] tensors of the container, one per
    tensor-creation call -- and every one of them lives on [dev_str], while
    every zero tensor of [get_initial_state] ([num_layers] hidden and
    [num_layers] cell states) lives on the default device, not on [dev_str]:
    the accessor passes no device target to [zeros]. *)
Theorem LSTM_initial_state_device `{IvyContract}
        (ic oc n : Z) (rs rst : bool) (dev_str : string) (g : rng)
        (batch_shape : list Z) :
  0 <= ic -> 0 < oc -> valid_shape batch_shape ->
  dev_str <> default_dev ->
  exists l g' ins recs hs cs,
    LSTM.__init__ ic oc n rs rst dev_str None g = Ok (l, g') /\
    ModuleBase._dev_str (LSTM.base l) = dev_str /\
    LSTM.v l = lstm_layout l ins recs /\
    lstm_shaped l ins recs /\
    leaves (LSTM.v l) = ins ++ recs /\
    List.length (leaves (LSTM.v l)) = (2 * Z.to_nat n)%nat /\
    Forall (fun t => dev_of t = dev_str /\ is_variable t = true)
           (leaves (LSTM.v l)) /\
    LSTM.get_initial_state l batch_shape = Ok (hs, cs) /\
    List.length hs = Z.to_nat n /\ List.length cs = Z.to_nat n /\
    Forall (fun t => dev_of t = default_dev /\ dev_of t <> dev_str) (hs ++ cs).
Proof.
  intros Hic Hoc Hbs Hdev.
  set (self := {| LSTM._input_channels := ic; LSTM._output_channels := oc;
                  LSTM._num_layers := n; LSTM._return_sequence := rs;
                  LSTM._return_state := rst |}).
  destruct (LSTM_create_variables_run self dev_str g Hic Hoc)
    as (ins & recs & g' & E & Fins & Frecs).
  pose proof (lstm_shaped_of_run self ins recs _ _ Fins Frecs) as S.
  destruct S as (Li & Lr & Si & Sr).
  pose proof (leaves_layout self ins recs Li Lr) as L.
  assert (Fi : Forall (fun t => dev_of t = dev_str /\ is_variable t = true) ins).
  { eapply Forall2_Forall_r; [| exact Fins]. intros i w (_ & _ & V & D). auto. }
  assert (Fr : Forall (fun t => dev_of t = dev_str /\ is_variable t = true) recs).
  { eapply Forall2_Forall_r; [| exact Frecs]. intros i w (_ & _ & V & D). auto. }
  rewrite LSTM_init_none. fold self. rewrite E.
  eexists. exists g', ins, recs.
  destruct (run_zeros (batch_shape ++ [oc]) None) as (z & Ez & _ & _ & Dz);
    [shapes |].
  exists (repeat z (Z.to_nat n)), (repeat z (Z.to_nat n)).
  split; [reflexivity |]. split; [reflexivity |]. split; [reflexivity |].
  split; [repeat split; assumption |].
  split; [exact L |].
  split.
  { change (List.length (leaves (lstm_layout self ins recs)) = (2 * Z.to_nat n)%nat).
    rewrite L, length_app, Li, Lr. cbn [LSTM._num_layers self]. lia. }
  split.
  { change (Forall (fun t => dev_of t = dev_str /\ is_variable t = true)
                   (leaves (lstm_layout self ins recs))).
    rewrite L. apply Forall_app. split; assumption. }
  split; [| split; [| split]].
  - unfold LSTM.get_initial_state. simpl.
    rewrite (mapR_const _ (range n) z) by (intros; exact Ez).
    simpl. rewrite range_length. reflexivity.
  - apply repeat_length.
  - apply repeat_length.
  - apply Forall_app. split; apply Forall_repeat; simpl in Dz; rewrite Dz;
      split; auto.
Qed.

Lemma LSTM_initial_state_device_witness :
  exists l g' hs cs,
    @LSTM.__init__ Ref.backend 8 16 2 true true "cuda:0" None 0%nat = Ok (l, g') /\
    @LSTM.get_initial_state Ref.backend l [3] = Ok (hs, cs) /\
    List.length (leaves (LSTM.v l)) = 4%nat /\
    Forall (fun t => @dev_of Ref.backend t = "cuda:0") (leaves (LSTM.v l)) /\
    List.length hs = 2%nat /\ List.length cs = 2%nat /\
    Forall (fun t => @dev_of Ref.backend t = "cpu") (hs ++ cs).
Proof.
  destruct (@LSTM_initial_state_device Ref.backend ref_contract
              8 16 2 true true "cuda:0" 0%nat [3])
    as (l & g' & ins & recs & hs & cs & E & _ & _ & _ & _ & Ln & Fv & Es
        & Lh & Lc & Fs);
    [lia | lia | shapes | discriminate |].
  exists l, g', hs, cs.
  split; [exact E |]. split; [exact Es |]. split; [exact Ln |].
  split; [eapply Forall_impl; [| exact Fv]; intros t [D _]; exact D |].
  split; [exact Lh |]. split; [exact Lc |].
  eapply Forall_impl; [| exact Fs]. intros t [D _]. exact D.
Defined.

(** ** Linear: the forward pass *)

(** A Linear layer made by its constructor holds a weight and a bias of the
    shapes its channel counts ask for. *)
Lemma Linear_init_ready `{IvyContract} (ic oc : Z) (dev_str : string) (g : rng) :
  0 <= ic -> 0 <= oc -> 0 < ic + oc ->
  exists l w b g',
    Linear.__init__ ic oc dev_str None g = Ok (l, g') /\
    Linear._input_channels l = ic /\ Linear._output_channels l = oc /\
    linear_ready l w b.
Proof.
  intros Hic Hoc Hsum.
  destruct (Linear_create_variables_run ic oc dev_str g Hic Hoc Hsum)
    as (w0 & b0 & g' & E & Sw & _ & _ & _ & Sb & _).
  rewrite Linear_init_none, E.
  eexists. exists (variable w0), (variable b0), g'. split; [reflexivity |].
  repeat split; rewrite ?variable_shape; assumption.
Qed.

(** C7.  For every Linear layer whose container holds a weight of shape
    [[output_channels, input_channels]] and a bias of shape
    [[output_channels]] (as a constructed layer does) and every input of
    shape [batch_shape + [input_channels]], [_forward] returns the tensor
    input·weightᵀ + bias of shape [batch_shape + [output_channels]]: the
    batch dimensions are kept as they are; in particular an input of shape
    [[B, input_channels]] gives an output of shape [[B, output_channels]]. *)
Theorem Linear_forward_spec `{IvyContract}
        (l : Linear.t) (w b x : tensor) (bs : list Z) :
  let ic := Linear._input_channels l in
  let oc := Linear._output_channels l in
  linear_ready l w b ->
  valid_shape (bs ++ [ic]) -> 0 <= oc ->
  shape x = bs ++ [ic] ->
  exists y,
    Linear._forward l x = Ok y /\
    shape y = bs ++ [oc] /\
    elems y = affine (Z.to_nat (prod bs)) (Z.to_nat ic) (Z.to_nat oc)
                     (elems x) (elems w) (elems b).
Proof.
  intros ic oc (Hv & Sw & Sb) Hvs Hoc Sx.
  destruct (linear_spec x w b bs ic oc Hvs Hoc Sx Sw Sb) as (y & E & Sy & Ey).
  exists y. split; [| split; assumption].
  unfold Linear._forward. rewrite Hv. simpl. rewrite E. reflexivity.
Qed.

Lemma sample_dense_ready :
  @linear_ready Ref.backend Sample.dense (Sample.weight [3; 4]) (Sample.weight [3]).
Proof. repeat split. Qed.

Lemma Linear_forward_witness :
  exists y,
    @Linear._forward Ref.backend Sample.dense (Ref.filled [2; 4] "cpu") = Ok y /\
    @shape Ref.backend y = [2; 3] /\
    @elems Ref.backend y
      = affine 2 4 3 (repeat 0%R 8) (repeat 0%R 12) (repeat 0%R 3).
Proof.
  apply (@Linear_forward_spec Ref.backend ref_contract Sample.dense
           (Sample.weight [3; 4]) (Sample.weight [3])
           (Ref.filled [2; 4] "cpu") [2]).
  - exact sample_dense_ready.
  - simpl. shapes.
  - simpl. lia.
  - reflexivity.
Defined.

(** ** LSTM: the forward pass *)

Lemma zip4_snoc {A B C D} (a : list A) (b : list B) (c : list C) (d : list D)
      (x : A) (y : B) (z : C) (w : D) :
  List.length a = List.length b -> List.length a = List.length c ->
  List.length a = List.length d ->
  zip4 (a ++ [x]) (b ++ [y]) (c ++ [z]) (d ++ [w]) = zip4 a b c d ++ [(x, y, z, w)].
Proof.
  revert b c d. induction a as [| a0 a IH]; intros [| b0 b] [| c0 c] [| d0 d];
    simpl; intros Hb Hc Hd; try discriminate.
  - reflexivity.
  - f_equal. apply IH; lia.
Qed.

(** [zip] reads no further than its shortest argument. *)
Lemma zip4_shortest {A B C D} (a : list A) (b : list B) (c : list C) (d : list D) :
  List.length a = List.length b ->
  zip4 a b c d = zip4 a b (firstn (List.length a) c) (firstn (List.length a) d).
Proof.
  revert b c d. induction a as [| a0 a IH]; intros [| b0 b] c d Hb;
    simpl in Hb; try discriminate.
  - reflexivity.
  - destruct c as [| c0 c]; [reflexivity |].
    destruct d as [| d0 d]; [reflexivity |].
    simpl. f_equal. apply IH. lia.
Qed.

Lemma firstn_snoc {A} (l : list A) (k : nat) (a : A) :
  nth_error l k = Some a -> firstn (S k) l = firstn k l ++ [a].
Proof.
  revert k. induction l as [| x l IH]; intros [| k] Hk; simpl in Hk;
    try discriminate.
  - injection Hk as <-. reflexivity.
  - cbn [firstn app]. f_equal. apply IH. exact Hk.
Qed.

Lemma nth_error_combine_some {A B} (a : list A) (b : list B) (i : nat) (x : A) (y : B) :
  nth_error a i = Some x -> nth_error b i = Some y ->
  nth_error (combine a b) i = Some (x, y).
Proof.
  revert b i. induction a as [| a0 a IH]; intros [| b0 b] [| i] Ha Hb;
    simpl in *; try discriminate.
  - congruence.
  - apply IH; assumption.
Qed.

Lemma nth_error_Some_lt {A} (l : list A) (i : nat) (a : A) :
  nth_error l i = Some a -> (i < List.length l)%nat.
Proof. intros E. apply nth_error_Some. congruence. Qed.

Lemma nth_error_lt_Some {A} (l : list A) (i : nat) :
  (i < List.length l)%nat -> exists a, nth_error l i = Some a.
Proof.
  intros Hi. destruct (nth_error l i) as [a |] eqn:E; [eauto |].
  apply nth_error_None in E. lia.
Qed.

Lemma layer_keys_nth (self : LSTM.fields) (i : nat) :
  (i < Z.to_nat (LSTM._num_layers self))%nat ->
  nth_error (LSTM.layer_keys self) i = Some (layer_key i).
Proof.
  intros Hi. rewrite layer_keys_seq.
  apply map_nth_error. rewrite nth_error_seq.
  destruct (Nat.ltb_spec i (Z.to_nat (LSTM._num_layers self))); [reflexivity | lia].
Qed.

Lemma dict_get_layer_key {V} (vals : list V) (a len i : nat) :
  List.length vals = len ->
  dict_get (layer_key (a + i)) (combine (map layer_key (seq a len)) vals)
  = nth_error vals i.
Proof.
  revert a len i. induction vals as [| x vals IH]; intros a len i Hlen.
  - rewrite combine_nil. destruct i; reflexivity.
  - destruct len as [| len]; [discriminate |].
    cbn [seq map combine dict_get].
    destruct i as [| i].
    + rewrite Nat.add_0_r, String.eqb_refl. reflexivity.
    + destruct (String.eqb_spec (layer_key (a + S i)) (layer_key a)) as [E | _].
      * apply layer_key_inj in E. lia.
      * replace (a + S i)%nat with (S a + i)%nat by lia.
        cbn [nth_error]. apply IH. simpl in Hlen. lia.
Qed.

Section LSTMRun.
Context `{IvyContract}.

Lemma for_loop_app (its1 its2 : list LSTM.zipped) (acc : LSTM.carry) :
  LSTM.for_loop (its1 ++ its2) acc
  = rbind (LSTM.for_loop its1 acc) (LSTM.for_loop its2).
Proof.
  revert acc. induction its1 as [| it its1 IH]; intros acc; simpl.
  - reflexivity.
  - destruct (LSTM.loop_body acc it) as [e | acc']; simpl; [reflexivity | apply IH].
Qed.

(** One turn of the loop on the entries of a layer: one call of
    [lstm_update], then the last timestep of its output sequence. *)
Lemma loop_body_entry (h_t : tensor) (hn cn : list tensor) (h_0 c_0 : tensor)
      (k1 k2 : string) (wi wr h c y : tensor) :
  lstm_update h_t h_0 c_0 wi wr = inr (h, c) ->
  last_step h = inr y ->
  LSTM.loop_body (h_t, hn, cn) (h_0, c_0, (k1, lstm_entry wi), (k2, lstm_entry wr))
  = Ok (h, hn ++ [y], cn ++ [c]).
Proof.
  intros Eu El. unfold LSTM.loop_body. simpl. rewrite Eu. simpl. rewrite El.
  reflexivity.
Qed.

(** The weights the specification's indexed loop finds for layer [i]. *)
Lemma weight_input (l : LSTM.t) (ins recs : list tensor) (i : nat) (w : tensor) :
  lstm_ready l ins recs -> nth_error ins i = Some w ->
  LSTMSpec.weight l "input" i = Ok w.
Proof.
  intros (Hv & Li & _) Hi. unfold LSTMSpec.weight. rewrite Hv.
  unfold lstm_layout. cbn [getattr dict_get String.eqb Ascii.eqb Bool.eqb rbind Ok].
  rewrite layer_keys_seq.
  rewrite (dict_get_layer_key _ 0 _ i) by (rewrite length_map; exact Li).
  rewrite (map_nth_error _ _ _ Hi). reflexivity.
Qed.

Lemma weight_recurrent (l : LSTM.t) (ins recs : list tensor) (i : nat) (w : tensor) :
  lstm_ready l ins recs -> nth_error recs i = Some w ->
  LSTMSpec.weight l "recurrent" i = Ok w.
Proof.
  intros (Hv & _ & Lr & _) Hi. unfold LSTMSpec.weight. rewrite Hv.
  unfold lstm_layout. cbn [getattr dict_get String.eqb Ascii.eqb Bool.eqb rbind Ok].
  rewrite layer_keys_seq.
  rewrite (dict_get_layer_key _ 0 _ i) by (rewrite length_map; exact Lr).
  rewrite (map_nth_error _ _ _ Hi). reflexivity.
Qed.
End LSTMRun.

Section LSTMPrefix.
Context `{IvyContract}.
Variables (l : LSTM.t) (ins recs : list tensor).
Variables (x : tensor) (hs cs : list tensor) (bs : list Z) (T : Z).
Hypothesis Hready : lstm_ready l ins recs.
Hypothesis Hoc : 0 <= LSTM._output_channels l.
Hypothesis Hvalid : valid_shape (bs ++ [T; LSTM._input_channels l]).
Hypothesis HT : 0 < T.
Hypothesis Hx : shape x = bs ++ [T; LSTM._input_channels l].
Hypothesis Hhs : Forall (fun t => shape t = bs ++ [LSTM._output_channels l]) hs.
Hypothesis Hcs : Forall (fun t => shape t = bs ++ [LSTM._output_channels l]) cs.

Lemma layer_output_unfold (i : nat) :
  LSTMSpec.layer_output l x hs cs i =
  (x_i <-! LSTMSpec.stack_output l x hs cs i ;;
   h_0 <-! LSTMSpec.state_at hs i ;;
   c_0 <-! LSTMSpec.state_at cs i ;;
   wi <-! LSTMSpec.weight l "input" i ;;
   wr <-! LSTMSpec.weight l "recurrent" i ;;
   backend (lstm_update x_i h_0 c_0 wi wr)).
Proof. destruct i; reflexivity. Qed.

Lemma valid_batch : valid_shape bs.
Proof. apply valid_shape_app in Hvalid. tauto. Qed.

(** The loop over the first [k] layers against the specification's indexed
    loop. *)
Lemma run_prefix (k : nat) :
  (k <= List.length hs)%nat -> (k <= List.length cs)%nat ->
  (k <= Z.to_nat (LSTM._num_layers l))%nat ->
  exists h hn cn,
    LSTM.for_loop
      (zip4 (firstn k hs) (firstn k cs)
            (firstn k (combine (LSTM.layer_keys l) (map lstm_entry ins)))
            (firstn k (combine (LSTM.layer_keys l) (map lstm_entry recs))))
      (x, [], []) = Ok (h, hn, cn) /\
    LSTMSpec.stack_output l x hs cs k = Ok h /\
    shape h = bs ++ [T; if (k =? 0)%nat then LSTM._input_channels l
                        else LSTM._output_channels l] /\
    List.length hn = k /\ List.length cn = k /\
    (forall i, (i < k)%nat -> LSTMSpec.collected l x hs cs hn cn i) /\
    Forall (fun t => shape t = bs ++ [LSTM._output_channels l]) (hn ++ cn).
Proof.
  pose proof valid_batch as Hbs.
  destruct Hready as (Hv & Li & Lr & Si & Sr).
  induction k as [| k IH]; intros Kh Kc Kn.
  - exists x, [], []. cbn [firstn zip4 LSTM.for_loop LSTMSpec.stack_output].
    repeat split; auto. intros i Hi. lia.
  - destruct IH as (h & hn & cn & Eloop & Estack & Sh & Lhn & Lcn & Hcol & Hsh);
      try lia.
    destruct (nth_error_lt_Some hs k) as [h_0 Eh]; [lia |].
    destruct (nth_error_lt_Some cs k) as [c_0 Ec]; [lia |].
    destruct (nth_error_lt_Some ins k) as [wi Ewi]; [lia |].
    destruct (nth_error_lt_Some recs k) as [wr Ewr]; [lia |].
    pose proof (proj1 (Forall_forall _ hs) Hhs h_0 (nth_error_In _ _ Eh)) as Sh0.
    pose proof (proj1 (Forall_forall _ cs) Hcs c_0 (nth_error_In _ _ Ec)) as Sc0.
    cbv beta in Sh0, Sc0.
    set (ck := if (k =? 0)%nat then LSTM._input_channels l
               else LSTM._output_channels l) in *.
    assert (Hck : 0 <= ck).
    { subst ck. destruct (k =? 0)%nat; [| exact Hoc].
      apply valid_shape_app in Hvalid. destruct Hvalid as [_ Hv2].
      apply valid_shape_cons in Hv2. destruct Hv2 as [_ Hv3].
      apply valid_shape_cons in Hv3. tauto. }
    assert (Hbs_T : 0 <= T) by lia.
    assert (Hv1 : valid_shape (bs ++ [T; ck])) by shapes.
    assert (Hv2 : valid_shape (bs ++ [T; LSTM._output_channels l])) by shapes.
    assert (Swi : shape wi = [ck; 4 * LSTM._output_channels l]).
    { subst ck. apply (Si k wi Ewi). }
    destruct (lstm_update_spec h h_0 c_0 wi wr bs T ck (LSTM._output_channels l)
                Hv1 Hoc Sh Sh0 Sc0 Swi (Sr k wr Ewr))
      as (h' & c' & Eu & Sh' & Sc').
    destruct (last_step_spec h' bs T (LSTM._output_channels l) Hv2 HT Sh')
      as (y & El & Sy).
    exists h', (hn ++ [y]), (cn ++ [c']).
    assert (Elayer : LSTMSpec.layer_output l x hs cs k = Ok (h', c')).
    { rewrite layer_output_unfold, Estack. cbn [rbind Ok].
      unfold LSTMSpec.state_at. rewrite Eh, Ec. cbn [rbind Ok].
      rewrite (weight_input l ins recs k wi), (weight_recurrent l ins recs k wr);
        try assumption; try (repeat split; assumption).
      cbn [rbind Ok]. rewrite Eu. reflexivity. }
    split; [| split; [| split; [| split; [| split; [| split]]]]].
    + rewrite (firstn_snoc hs k h_0 Eh), (firstn_snoc cs k c_0 Ec).
      rewrite (firstn_snoc _ k (layer_key k, lstm_entry wi)).
      2: { apply nth_error_combine_some;
           [apply layer_keys_nth; lia | apply map_nth_error; exact Ewi]. }
      rewrite (firstn_snoc _ k (layer_key k, lstm_entry wr)).
      2: { apply nth_error_combine_some;
           [apply layer_keys_nth; lia | apply map_nth_error; exact Ewr]. }
      rewrite zip4_snoc.
      * etransitivity; [apply for_loop_app |]. rewrite Eloop. cbn [rbind Ok LSTM.for_loop].
        rewrite (loop_body_entry _ _ _ _ _ _ _ _ _ h' c' y Eu El). reflexivity.
      * rewrite !length_firstn. lia.
      * rewrite !length_firstn, length_combine, length_map, layer_keys_length. lia.
      * rewrite !length_firstn, length_combine, length_map, layer_keys_length. lia.
    + cbn [LSTMSpec.stack_output]. rewrite Elayer. reflexivity.
    + exact Sh'.
    + rewrite length_app. simpl. lia.
    + rewrite length_app. simpl. lia.
    + intros i Hi. destruct (Nat.eq_dec i k) as [-> | Hne].
      * exists h', c', y. repeat split; auto.
        -- rewrite nth_error_app2 by lia. rewrite Lhn, Nat.sub_diag. reflexivity.
        -- rewrite nth_error_app2 by lia. rewrite Lcn, Nat.sub_diag. reflexivity.
      * destruct (Hcol i) as (hi & ci & yi & E1 & E2 & E3 & E4); [lia |].
        exists hi, ci, yi. repeat split; auto.
        -- rewrite nth_error_app1 by lia. exact E3.
        -- rewrite nth_error_app1 by lia. exact E4.
    + apply Forall_app in Hsh. destruct Hsh as [Hsn Hsc].
      apply Forall_app. split; apply Forall_app; split; auto.
Qed.
End LSTMPrefix.

Lemma drop_last2_app {A} (bs : list A) (a b : A) : drop_last2 (bs ++ [a; b]) = bs.
Proof.
  unfold drop_last2. rewrite length_app. simpl.
  replace (List.length bs + 2 - 2)%nat with (List.length bs + 0)%nat by lia.
  rewrite firstn_app_2. simpl. apply app_nil_r.
Qed.

Section LSTMForward.
Context `{IvyContract}.
Variables (l : LSTM.t) (ins recs : list tensor).
Variables (x : tensor) (bs : list Z) (T : Z).
Hypothesis Hready : lstm_ready l ins recs.
Hypothesis Hoc : 0 <= LSTM._output_channels l.
Hypothesis Hvalid : valid_shape (bs ++ [T; LSTM._input_channels l]).
Hypothesis HT : 0 < T.
Hypothesis Hx : shape x = bs ++ [T; LSTM._input_channels l].

(** With the initial state given, [_forward] is the loop over the zipped
    states and container entries, then the output policy. *)
Lemma forward_unfold (hs cs : list tensor) :
  LSTM._forward l x (Some (hs, cs)) =
  (acc <-! LSTM.for_loop
             (zip4 hs cs (combine (LSTM.layer_keys l) (map lstm_entry ins))
                         (combine (LSTM.layer_keys l) (map lstm_entry recs)))
             (x, [], []) ;;
   h_t <-! (if negb (LSTM._return_sequence l)
            then backend (last_step (fst (fst acc))) else Ok (fst (fst acc))) ;;
   if negb (LSTM._return_state l) then Ok (LSTM.Output h_t)
   else Ok (LSTM.OutputAndState h_t (snd (fst acc), snd acc))).
Proof.
  destruct Hready as (Hv & _).
  unfold LSTM._forward. rewrite Hv. unfold lstm_layout.
  cbn [getattr dict_get String.eqb Ascii.eqb Bool.eqb rbind Ok items fst snd].
  destruct (LSTM.for_loop _ _) as [e | [[h hn] cn]]; reflexivity.
Qed.

(** The forward pass on an initial state of [k] hidden and [k] cell states,
    [k] no larger than the number of layers. *)
Lemma forward_some (hs cs : list tensor) :
  List.length cs = List.length hs ->
  (List.length hs <= Z.to_nat (LSTM._num_layers l))%nat ->
  Forall (fun t => shape t = bs ++ [LSTM._output_channels l]) hs ->
  Forall (fun t => shape t = bs ++ [LSTM._output_channels l]) cs ->
  let ck := if (List.length hs =? 0)%nat then LSTM._input_channels l
            else LSTM._output_channels l in
  exists h hn cn out,
    LSTMSpec.stack_output l x hs cs (List.length hs) = Ok h /\
    shape h = bs ++ [T; ck] /\
    LSTMSpec.truncated l h out /\
    shape out = (if LSTM._return_sequence l then bs ++ [T; ck] else bs ++ [ck]) /\
    LSTM._forward l x (Some (hs, cs)) = Ok (LSTMSpec.packed l out hn cn) /\
    List.length hn = List.length hs /\
    List.length cn = List.length hs /\
    (forall i, (i < List.length hs)%nat -> LSTMSpec.collected l x hs cs hn cn i) /\
    Forall (fun t => shape t = bs ++ [LSTM._output_channels l]) (hn ++ cn).
Proof.
  intros Lcs Lk Hhs Hcs ck.
  destruct (run_prefix l ins recs x hs cs bs T Hready Hoc Hvalid HT Hx Hhs Hcs
                       (List.length hs))
    as (h & hn & cn & Eloop & Estack & Sh & Lhn & Lcn & Hcol & Hsh); try lia.
  fold ck in Sh.
  assert (Hck : 0 <= ck).
  { subst ck. destruct (_ =? 0)%nat; [| exact Hoc].
    apply valid_shape_app in Hvalid. destruct Hvalid as [_ Hv2].
    apply valid_shape_cons in Hv2. destruct Hv2 as [_ Hv3].
    apply valid_shape_cons in Hv3. tauto. }
  pose proof (valid_batch _ _ _ Hvalid) as Hbs.
  assert (HT0 : 0 <= T) by lia.
  assert (Hv1 : valid_shape (bs ++ [T; ck])) by shapes.
  rewrite firstn_all in Eloop.
  rewrite <- Lcs in Eloop at 1. rewrite firstn_all in Eloop.
  rewrite <- zip4_shortest in Eloop by lia.
  destruct (LSTM._return_sequence l) eqn:Ers.
  - exists h, hn, cn, h. repeat split; auto.
    + unfold LSTMSpec.truncated. rewrite Ers. reflexivity.
    + rewrite forward_unfold, Eloop. cbn [rbind Ok fst snd]. rewrite Ers.
      cbn [negb rbind Ok]. unfold LSTMSpec.packed.
      destruct (LSTM._return_state l); reflexivity.
  - destruct (last_step_spec h bs T ck Hv1 HT Sh) as (out & El & So).
    exists h, hn, cn, out. repeat split; auto.
    + unfold LSTMSpec.truncated. rewrite Ers. exact El.
    + rewrite forward_unfold, Eloop. cbn [rbind Ok fst snd]. rewrite Ers.
      cbn [negb]. rewrite El. cbn [backend rbind Ok]. unfold LSTMSpec.packed.
      destruct (LSTM._return_state l); reflexivity.
Qed.

(** The zero-state accessor gives a state for every layer. *)
Lemma initial_state_run :
  exists hs cs,
    LSTM.get_initial_state l (drop_last2 (shape x)) = Ok (hs, cs) /\
    LSTM.get_initial_state l bs = Ok (hs, cs) /\
    List.length hs = Z.to_nat (LSTM._num_layers l) /\
    List.length cs = Z.to_nat (LSTM._num_layers l) /\
    Forall (fun t => shape t = bs ++ [LSTM._output_channels l]) hs /\
    Forall (fun t => shape t = bs ++ [LSTM._output_channels l]) cs.
Proof.
  pose proof (valid_batch _ _ _ Hvalid) as Hbs.
  destruct (run_zeros (bs ++ [LSTM._output_channels l]) None) as (z & Ez & Sz & _);
    [shapes |].
  exists (repeat z (Z.to_nat (LSTM._num_layers l))),
         (repeat z (Z.to_nat (LSTM._num_layers l))).
  rewrite Hx, drop_last2_app.
  assert (E : LSTM.get_initial_state l bs
              = Ok (repeat z (Z.to_nat (LSTM._num_layers l)),
                    repeat z (Z.to_nat (LSTM._num_layers l)))).
  { unfold LSTM.get_initial_state.
    rewrite (mapR_const _ (range (LSTM._num_layers l)) z) by (intros; exact Ez).
    cbn [rbind Ok]. rewrite range_length. reflexivity. }
  rewrite !repeat_length.
  repeat split; auto; apply Forall_repeat; exact Sz.
Qed.

(** With the initial state omitted, [_forward] continues as if the state of
    the zero-state accessor had been passed. *)
Lemma forward_none (st : list tensor * list tensor) :
  LSTM.get_initial_state l (drop_last2 (shape x)) = Ok st ->
  LSTM._forward l x None = LSTM._forward l x (Some st).
Proof.
  intros E. unfold LSTM._forward. rewrite E. reflexivity.
Qed.
End LSTMForward.

(** An LSTM made by its constructor holds well-shaped weights. *)
Lemma LSTM_init_ready `{IvyContract} (ic oc n : Z) (rs rst : bool)
      (dev_str : string) (g : rng) :
  0 <= ic -> 0 < oc ->
  exists l ins recs g',
    LSTM.__init__ ic oc n rs rst dev_str None g = Ok (l, g') /\
    LSTM.self l = {| LSTM._input_channels := ic; LSTM._output_channels := oc;
                     LSTM._num_layers := n; LSTM._return_sequence := rs;
                     LSTM._return_state := rst |} /\
    lstm_ready l ins recs.
Proof.
  intros Hic Hoc.
  set (self := {| LSTM._input_channels := ic; LSTM._output_channels := oc;
                  LSTM._num_layers := n; LSTM._return_sequence := rs;
                  LSTM._return_state := rst |}).
  destruct (LSTM_create_variables_run self dev_str g Hic Hoc)
    as (ins & recs & g' & E & Fins & Frecs).
  pose proof (lstm_shaped_of_run self ins recs _ _ Fins Frecs) as S.
  rewrite LSTM_init_none. fold self. rewrite E.
  eexists. exists ins, recs, g'. split; [reflexivity |]. split; [reflexivity |].
  split; [reflexivity | exact S].
Qed.

(** The state a forward call works with: the one passed, or the one of the
    zero-state accessor on the leading batch dimensions of the input. *)
Lemma forward_effective_state `{IvyContract}
      (l : LSTM.t) (ins recs : list tensor) (x : tensor) (bs : list Z) (T : Z)
      (initial_state : option (list tensor * list tensor)) :
  lstm_ready l ins recs ->
  0 <= LSTM._output_channels l ->
  valid_shape (bs ++ [T; LSTM._input_channels l]) -> 0 < T ->
  shape x = bs ++ [T; LSTM._input_channels l] ->
  match initial_state with
  | None => True
  | Some (hs, cs) =>
      List.length hs = Z.to_nat (LSTM._num_layers l) /\
      List.length cs = Z.to_nat (LSTM._num_layers l) /\
      Forall (fun t => shape t = bs ++ [LSTM._output_channels l]) (hs ++ cs)
  end ->
  exists hs cs,
    match initial_state with
    | None => LSTM.get_initial_state l bs = Ok (hs, cs)
    | Some st => st = (hs, cs)
    end /\
    LSTM._forward l x initial_state = LSTM._forward l x (Some (hs, cs)) /\
    List.length hs = Z.to_nat (LSTM._num_layers l) /\
    List.length cs = Z.to_nat (LSTM._num_layers l) /\
    Forall (fun t => shape t = bs ++ [LSTM._output_channels l]) hs /\
    Forall (fun t => shape t = bs ++ [LSTM._output_channels l]) cs.
Proof.
  intros Hready Hoc Hvalid HT Hx Hst.
  destruct initial_state as [[hs cs] |].
  - destruct Hst as (Lh & Lc & F). apply Forall_app in F. destruct F as [Fh Fc].
    exists hs, cs. repeat split; auto.
  - destruct (initial_state_run l x bs T Hoc Hvalid Hx)
      as (hs & cs & E1 & E2 & Lh & Lc & Fh & Fc).
    exists hs, cs. repeat split; auto.
    apply forward_none. exact E1.
Qed.

(** C2.  For every LSTM with well-shaped weights and every time-major input
    of shape [batch_shape + [T, input_channels]]:
    - with [initial_state] omitted, the state is the one [get_initial_state]
      returns for the input's shape without its last two dimensions, and the
      call continues as with that state passed;
    - with a state for every layer, the layers run in sequence as in the
      specification's indexed loop: layer [i] is one call of [lstm_update] on
      the output sequence of layer [i-1] (the input for layer 0), the initial
      hidden and cell state of layer [i] and the input and recurrent weight of
      layer [i]; the output of the pass is the output sequence of the last
      layer (its last timestep when [return_sequence] is false). *)
Theorem LSTM_forward_sequential `{IvyContract}
        (l : LSTM.t) (ins recs : list tensor) (x : tensor) (bs : list Z) (T : Z) :
  let oc := LSTM._output_channels l in
  let n := Z.to_nat (LSTM._num_layers l) in
  lstm_ready l ins recs ->
  0 <= oc ->
  valid_shape (bs ++ [T; LSTM._input_channels l]) -> 0 < T ->
  shape x = bs ++ [T; LSTM._input_channels l] ->
  (exists hs0 cs0,
     drop_last2 (shape x) = bs /\
     LSTM.get_initial_state l (drop_last2 (shape x)) = Ok (hs0, cs0) /\
     LSTM._forward l x None = LSTM._forward l x (Some (hs0, cs0)) /\
     List.length hs0 = n /\ List.length cs0 = n /\
     Forall (fun t => shape t = bs ++ [oc]) (hs0 ++ cs0)) /\
  (forall hs cs,
     List.length hs = n -> List.length cs = n ->
     Forall (fun t => shape t = bs ++ [oc]) (hs ++ cs) ->
     exists h hn cn out,
       LSTMSpec.stack_output l x hs cs n = Ok h /\
       LSTMSpec.truncated l h out /\
       LSTM._forward l x (Some (hs, cs)) = Ok (LSTMSpec.packed l out hn cn) /\
       forall i, (i < n)%nat -> LSTMSpec.collected l x hs cs hn cn i).
Proof.
  intros oc n Hready Hoc Hvalid HT Hx. split.
  - destruct (initial_state_run l x bs T Hoc Hvalid Hx)
      as (hs & cs & E1 & E2 & Lh & Lc & Fh & Fc).
    exists hs, cs. repeat split; auto.
    + rewrite Hx. apply drop_last2_app.
    + apply forward_none. exact E1.
    + apply Forall_app. split; assumption.
  - intros hs cs Lh Lc F. apply Forall_app in F. destruct F as [Fh Fc].
    destruct (forward_some l ins recs x bs T Hready Hoc Hvalid HT Hx hs cs)
      as (h & hn & cn & out & Es & _ & Et & _ & Ef & _ & _ & Hcol & _);
      try assumption; try lia.
    exists h, hn, cn, out. rewrite Lh in *. repeat split; auto.
Qed.

(** C3.  For every forward call of an LSTM with at least one layer and
    well-shaped weights, on an input of shape [batch_shape + [T,
    input_channels]], with the initial state omitted or given for every
    layer: the output is the last layer's output sequence, of shape
    [batch_shape + [T, output_channels]], when [return_sequence] is true and
    its last timestep only, of shape [batch_shape + [output_channels]], when
    it is false; the call returns the output alone when [return_state] is
    false and the output with the pair of per-layer hidden and cell state
    lists otherwise; the hidden state of each layer is the last timestep of
    that layer's output sequence. *)
Theorem LSTM_forward_output_policy `{IvyContract}
        (l : LSTM.t) (ins recs : list tensor) (x : tensor) (bs : list Z) (T : Z)
        (initial_state : option (list tensor * list tensor)) :
  let oc := LSTM._output_channels l in
  let n := Z.to_nat (LSTM._num_layers l) in
  lstm_ready l ins recs ->
  0 <= oc -> 1 <= LSTM._num_layers l ->
  valid_shape (bs ++ [T; LSTM._input_channels l]) -> 0 < T ->
  shape x = bs ++ [T; LSTM._input_channels l] ->
  match initial_state with
  | None => True
  | Some (hs, cs) =>
      List.length hs = n /\ List.length cs = n /\
      Forall (fun t => shape t = bs ++ [oc]) (hs ++ cs)
  end ->
  exists hs cs h hn cn out,
    match initial_state with
    | None => LSTM.get_initial_state l bs = Ok (hs, cs)
    | Some st => st = (hs, cs)
    end /\
    LSTMSpec.stack_output l x hs cs n = Ok h /\
    shape h = bs ++ [T; oc] /\
    (LSTM._return_sequence l = true -> out = h /\ shape out = bs ++ [T; oc]) /\
    (LSTM._return_sequence l = false ->
       last_step h = inr out /\ shape out = bs ++ [oc]) /\
    (LSTM._return_state l = false ->
       LSTM._forward l x initial_state = Ok (LSTM.Output out)) /\
    (LSTM._return_state l = true ->
       LSTM._forward l x initial_state = Ok (LSTM.OutputAndState out (hn, cn))) /\
    List.length hn = n /\ List.length cn = n /\
    (forall i, (i < n)%nat -> LSTMSpec.collected l x hs cs hn cn i).
Proof.
  intros oc n Hready Hoc Hn Hvalid HT Hx Hst.
  destruct (forward_effective_state l ins recs x bs T initial_state
              Hready Hoc Hvalid HT Hx Hst)
    as (hs & cs & Eeff & Efw & Lh & Lc & Fh & Fc).
  destruct (forward_some l ins recs x bs T Hready Hoc Hvalid HT Hx hs cs)
    as (h & hn & cn & out & Es & Sh & Et & So & Ef & Lhn & Lcn & Hcol & _);
    try assumption; try lia.
  assert (Hk : (List.length hs =? 0)%nat = false).
  { apply Nat.eqb_neq. rewrite Lh. lia. }
  rewrite Hk in Sh, So. rewrite Lh in *.
  exists hs, cs, h, hn, cn, out.
  unfold LSTMSpec.truncated in Et. unfold LSTMSpec.packed in Ef.
  rewrite Efw.
  split; [exact Eeff |]. split; [exact Es |]. split; [exact Sh |].
  split; [| split; [| split; [| split; [| split; [| split]]]]]; auto.
  - intros E. rewrite E in Et, So. split; assumption.
  - intros E. rewrite E in Et, So. split; assumption.
  - intros E. rewrite E in Ef. exact Ef.
  - intros E. rewrite E in Ef. exact Ef.
Qed.

(** C10.  For every LSTM with [n] layers and well-shaped weights, if
    [_forward] is given an initial state whose hidden and cell lists both
    have length [k < n], it raises no error: it runs the first [k] layers
    only -- its output is the output sequence of layer [k-1] (the input
    itself when [k = 0]), cut to the last timestep unless [return_sequence]
    -- and the state lists it collects have length [k]. *)
Theorem LSTM_forward_short_state `{IvyContract}
        (l : LSTM.t) (ins recs : list tensor) (x : tensor) (bs : list Z) (T : Z)
        (hs cs : list tensor) (k : nat) :
  let oc := LSTM._output_channels l in
  lstm_ready l ins recs ->
  0 <= oc ->
  valid_shape (bs ++ [T; LSTM._input_channels l]) -> 0 < T ->
  shape x = bs ++ [T; LSTM._input_channels l] ->
  List.length hs = k -> List.length cs = k ->
  (k < Z.to_nat (LSTM._num_layers l))%nat ->
  Forall (fun t => shape t = bs ++ [oc]) (hs ++ cs) ->
  exists h hn cn out,
    LSTM._forward l x (Some (hs, cs)) = Ok (LSTMSpec.packed l out hn cn) /\
    LSTMSpec.stack_output l x hs cs k = Ok h /\
    LSTMSpec.truncated l h out /\
    List.length hn = k /\ List.length cn = k /\
    (forall i, (i < k)%nat -> LSTMSpec.collected l x hs cs hn cn i).
Proof.
  intros oc Hready Hoc Hvalid HT Hx Lh Lc Hk F.
  apply Forall_app in F. destruct F as [Fh Fc].
  destruct (forward_some l ins recs x bs T Hready Hoc Hvalid HT Hx hs cs)
    as (h & hn & cn & out & Es & _ & Et & _ & Ef & Lhn & Lcn & Hcol & _);
    try assumption; try lia.
  rewrite Lh in *.
  exists h, hn, cn, out. repeat split; auto.
Qed.

Ltac sample_ready :=
  split; [reflexivity |];
  split; [reflexivity |]; split; [reflexivity |];
  split; intros i w Hi;
  repeat (destruct i as [| i]; simpl in Hi;
          [injection Hi as <-; reflexivity |]);
  destruct i; discriminate.

Lemma sample_lstm_ready_2 (rs rst : bool) :
  @lstm_ready Ref.backend (Sample.lstm 2 rs rst) (Sample.lstm_ins 2) (Sample.lstm_recs 2).
Proof. sample_ready. Qed.

Lemma sample_lstm_ready_3 (rs rst : bool) :
  @lstm_ready Ref.backend (Sample.lstm 3 rs rst) (Sample.lstm_ins 3) (Sample.lstm_recs 3).
Proof. sample_ready. Qed.

Lemma LSTM_forward_sequential_witness :
  (exists hs0 cs0,
     @LSTM.get_initial_state Ref.backend (Sample.lstm 2 true true) [3]
       = Ok (hs0, cs0) /\
     @LSTM._forward Ref.backend (Sample.lstm 2 true true) Sample.inputs None
       = @LSTM._forward Ref.backend (Sample.lstm 2 true true) Sample.inputs
           (Some (hs0, cs0))) /\
  (exists h hn cn,
     @LSTMSpec.stack_output Ref.backend (Sample.lstm 2 true true) Sample.inputs
        [Sample.state; Sample.state] [Sample.state; Sample.state] 2 = Ok h /\
     @LSTM._forward Ref.backend (Sample.lstm 2 true true) Sample.inputs
        (Some ([Sample.state; Sample.state], [Sample.state; Sample.state]))
       = Ok (LSTM.OutputAndState h (hn, cn))).
Proof.
  destruct (@LSTM_forward_sequential Ref.backend ref_contract
              (Sample.lstm 2 true true) (Sample.lstm_ins 2) (Sample.lstm_recs 2)
              Sample.inputs [3] 5)
    as [(hs0 & cs0 & Ed & E0 & Enone & _) Hseq].
  - apply sample_lstm_ready_2.
  - simpl. lia.
  - simpl. shapes.
  - lia.
  - reflexivity.
  - split.
    + exists hs0, cs0. split; [rewrite <- Ed; exact E0 | exact Enone].
    + destruct (Hseq [Sample.state; Sample.state] [Sample.state; Sample.state])
        as (h & hn & cn & out & Es & Et & Efw & _);
        [reflexivity | reflexivity | repeat constructor |].
      unfold LSTMSpec.truncated, LSTMSpec.packed in *. simpl in Et, Efw, Es.
      subst out. exists h, hn, cn. split; [exact Es | exact Efw].
Defined.

Lemma LSTM_forward_output_policy_witness :
  exists h out,
    @shape Ref.backend h = [3; 5; 16] /\
    @last_step Ref.backend h = inr out /\
    @shape Ref.backend out = [3; 16] /\
    @LSTM._forward Ref.backend (Sample.lstm 2 false false) Sample.inputs None
      = Ok (LSTM.Output out).
Proof.
  destruct (@LSTM_forward_output_policy Ref.backend ref_contract
              (Sample.lstm 2 false false) (Sample.lstm_ins 2) (Sample.lstm_recs 2)
              Sample.inputs [3] 5 None)
    as (hs & cs & h & hn & cn & out & _ & _ & Sh & _ & Hseq & Hst & _).
  - apply sample_lstm_ready_2.
  - simpl. lia.
  - simpl. lia.
  - simpl. shapes.
  - lia.
  - reflexivity.
  - exact I.
  - simpl in Sh, Hseq, Hst.
    destruct (Hseq eq_refl) as [El So].
    exists h, out.
    split; [exact Sh |]. split; [exact El |].
    split; [exact So | exact (Hst eq_refl)].
Defined.

Lemma LSTM_forward_short_state_witness :
  exists h hn cn,
    @LSTM._forward Ref.backend (Sample.lstm 3 true true) Sample.inputs
       (Some ([Sample.state], [Sample.state]))
      = Ok (LSTM.OutputAndState h (hn, cn)) /\
    @LSTMSpec.stack_output Ref.backend (Sample.lstm 3 true true) Sample.inputs
       [Sample.state] [Sample.state] 1 = Ok h /\
    List.length hn = 1%nat /\ List.length cn = 1%nat.
Proof.
  destruct (@LSTM_forward_short_state Ref.backend ref_contract
              (Sample.lstm 3 true true) (Sample.lstm_ins 3) (Sample.lstm_recs 3)
              Sample.inputs [3] 5 [Sample.state] [Sample.state] 1%nat)
    as (h & hn & cn & out & Efw & Es & Et & Lhn & Lcn & _).
  - apply sample_lstm_ready_3.
  - simpl. lia.
  - simpl. shapes.
  - lia.
  - reflexivity.
  - reflexivity.
  - reflexivity.
  - simpl. lia.
  - repeat constructor.
  - unfold LSTMSpec.truncated, LSTMSpec.packed in *. simpl in Et, Efw.
    subst out. exists h, hn, cn.
    split; [exact Efw |]. split; [exact Es |].
    split; [exact Lhn | exact Lcn].
Defined.

(** ** End to end

    A layer made by its constructor, then one forward call: the examples of
    the specification ([Linear(4, 3)] on an input of shape [[2, 4]] gives
    shape [[2, 3]]; [LSTM(8, 16, 2)] on [[3, 5, 8]] gives [[3, 5, 16]] and
    two lists of two states of shape [[3, 16]]) are instances. *)

(** X12.  Construction and forward pass of [Linear] compose: for valid
    channel counts, [Linear(input_channels, output_channels)] is constructed
    with variables of its own and maps every input of shape
    [batch_shape + [input_channels]] to an output of shape
    [batch_shape + [output_channels]]. *)
Lemma Linear_end_to_end `{IvyContract}
      (ic oc : Z) (dev_str : string) (g : rng) (x : tensor) (bs : list Z) :
  0 <= ic -> 0 <= oc -> 0 < ic + oc ->
  valid_shape bs -> shape x = bs ++ [ic] ->
  exists l g' y,
    Linear.__init__ ic oc dev_str None g = Ok (l, g') /\
    Linear._forward l x = Ok y /\
    shape y = bs ++ [oc].
Proof.
  intros Hic Hoc Hsum Hbs Hx.
  destruct (Linear_init_ready ic oc dev_str g Hic Hoc Hsum)
    as (l & w & b & g' & E & Eic & Eoc & R).
  destruct R as (Hv & Sw & Sb). rewrite Eic, Eoc in Sw. rewrite Eoc in Sb.
  assert (Hvs : valid_shape (bs ++ [ic])) by shapes.
  destruct (linear_spec x w b bs ic oc Hvs Hoc Hx Sw Sb) as (y & Ey & Sy & _).
  exists l, g', y. split; [exact E |]. split; [| exact Sy].
  unfold Linear._forward. rewrite Hv. simpl. rewrite Ey. reflexivity.
Qed.

(** X13.  Construction and forward pass of [LSTM] compose: for valid
    channel counts and at least one layer, the constructed layer takes every
    input of shape [batch_shape + [T, input_channels]], [T >= 1], without an
    initial state, and returns an output of shape
    [batch_shape + [T, output_channels]] ([batch_shape + [output_channels]]
    without [return_sequence]) and, with [return_state], [num_layers] hidden
    and [num_layers] cell states of shape [batch_shape + [output_channels]]. *)
Lemma LSTM_end_to_end `{IvyContract}
      (ic oc n : Z) (rs rst : bool) (dev_str : string) (g : rng)
      (x : tensor) (bs : list Z) (T : Z) :
  0 <= ic -> 0 < oc -> 1 <= n ->
  valid_shape bs -> 0 < T -> shape x = bs ++ [T; ic] ->
  exists l g' out hn cn,
    LSTM.__init__ ic oc n rs rst dev_str None g = Ok (l, g') /\
    LSTM._forward l x None
      = Ok (if rst then LSTM.OutputAndState out (hn, cn) else LSTM.Output out) /\
    shape out = (if rs then bs ++ [T; oc] else bs ++ [oc]) /\
    Z.of_nat (List.length hn) = n /\ Z.of_nat (List.length cn) = n /\
    Forall (fun t => shape t = bs ++ [oc]) (hn ++ cn).
Proof.
  intros Hic Hoc Hn Hbs HT Hx.
  destruct (LSTM_init_ready ic oc n rs rst dev_str g Hic Hoc)
    as (l & ins & recs & g' & E & Ef & R).
  assert (Fic : LSTM._input_channels l = ic) by (rewrite Ef; reflexivity).
  assert (Foc : LSTM._output_channels l = oc) by (rewrite Ef; reflexivity).
  assert (Fn : LSTM._num_layers l = n) by (rewrite Ef; reflexivity).
  assert (Frs : LSTM._return_sequence l = rs) by (rewrite Ef; reflexivity).
  assert (Frst : LSTM._return_state l = rst) by (rewrite Ef; reflexivity).
  assert (Hoc' : 0 <= LSTM._output_channels l) by lia.
  assert (Hv : valid_shape (bs ++ [T; LSTM._input_channels l])).
  { rewrite Fic. shapes. }
  assert (Hx' : shape x = bs ++ [T; LSTM._input_channels l]).
  { rewrite Fic. exact Hx. }
  destruct (forward_effective_state l ins recs x bs T None R Hoc' Hv HT Hx' I)
    as (hs & cs & _ & Efw & Lh & Lc & Fh & Fc).
  destruct (forward_some l ins recs x bs T R Hoc' Hv HT Hx' hs cs)
    as (h & hn & cn & out & _ & _ & _ & So & Ef' & Lhn & Lcn & _ & Fs);
    try assumption; try lia.
  assert (Hk : (List.length hs =? 0)%nat = false).
  { apply Nat.eqb_neq. rewrite Lh, Fn. lia. }
  rewrite Hk, Frs, Foc in So. unfold LSTMSpec.packed in Ef'.
  rewrite Frst in Ef'. rewrite Foc in Fs.
  exists l, g', out, hn, cn. rewrite Efw.
  repeat split; auto; rewrite ?Lhn, ?Lcn, Lh, Fn; lia.
Qed.

(** ** Construction performs no validation *)

Lemma bind_ok_inv `{Ivy} {A B} (c : M A) (k : A -> M B) (g : rng)
      (b : B) (g' : rng) :
  bind c k g = Ok (b, g') ->
  exists a g1, c g = Ok (a, g1) /\ k a g1 = Ok (b, g').
Proof.
  unfold bind. destruct (c g) as [e | [a g1]]; intros E;
    [discriminate | exists a, g1; split; [reflexivity | exact E]].
Qed.

Section Unvalidated.
Context `{Ivy}.

Lemma bind_err {A B} (c : M A) (k : A -> M B) (g : rng) (e : exn) :
  bind c k g = inl e ->
  c g = inl e \/ exists a g', c g = Ok (a, g') /\ k a g' = inl e.
Proof.
  unfold bind. destruct (c g) as [e' | [a g']]; intros E.
  - left. injection E as ->. reflexivity.
  - right. exists a, g'. split; [reflexivity | exact E].
Qed.

Lemma truediv_err (a b : Z) (g : rng) (e : exn) :
  lift (truediv a b) g = inl e -> e = ZeroDivisionError /\ b = 0.
Proof.
  unfold lift, truediv. destruct (b =? 0) eqn:Eb; simpl; intros E;
    [injection E as <-; split; [reflexivity | apply Z.eqb_eq; exact Eb]
    | discriminate].
Qed.

Lemma random_uniformM_err (lo hi : num) (s : list Z) (d : option string)
      (g : rng) (e : exn) :
  random_uniformM lo hi s d g = inl e -> exists msg, e = BackendError msg.
Proof.
  unfold random_uniformM. destruct (random_uniform lo hi s d g) as [msg | [t g']];
    intros E; [injection E as <-; eauto | discriminate].
Qed.

Lemma zeros_err (s : list Z) (d : option string) (g : rng) (e : exn) :
  lift (backend (zeros s d)) g = inl e -> exists msg, e = BackendError msg.
Proof.
  unfold lift, backend. destruct (zeros s d) as [msg | t]; simpl; intros E;
    [injection E as <-; eauto | discriminate].
Qed.

Lemma mapM_err {A B} (P : exn -> Prop) (f : A -> M B) (l : list A) :
  (forall a g e, f a g = inl e -> P e) ->
  forall g e, mapM f l g = inl e -> P e.
Proof.
  intros Hf. induction l as [| a l IH]; intros g e E; simpl in E.
  - discriminate.
  - apply bind_err in E. destruct E as [E | (b & g1 & _ & E)].
    + eapply Hf. exact E.
    + apply bind_err in E. destruct E as [E | (bs & g2 & _ & E)].
      * eapply IH. exact E.
      * discriminate.
Qed.

(** The creation of a weight and a bias, as the five dense and convolution
    layers do it, ends in [ZeroDivisionError] -- then the channel sum is
    zero --, in an exception of the backend or well. *)
Lemma create_wb_error (n : Z) (w_shape b_shape : list Z) (dev_str : string)
      (g : rng) (e : exn) :
  (q <- lift (truediv 6 n) ;;
   let wlim := pow_half q in
   w <- random_uniformM (neg wlim) wlim w_shape (Some dev_str) ;;
   let w := variable w in
   b <- lift (backend (zeros b_shape (Some dev_str))) ;;
   let b := variable b in
   ret (Dict [("w", Leaf w); ("b", Leaf b)])) g = inl e ->
  (e = ZeroDivisionError /\ n = 0) \/ exists msg, e = BackendError msg.
Proof.
  intros E. apply bind_err in E. destruct E as [E | (q & g1 & _ & E)].
  - left. eapply truediv_err. exact E.
  - apply bind_err in E. destruct E as [E | (w & g2 & _ & E)].
    + right. eapply random_uniformM_err. exact E.
    + apply bind_err in E. destruct E as [E | (b & g3 & _ & E)].
      * right. eapply zeros_err. exact E.
      * discriminate.
Qed.

Lemma create_wb_zero (n : Z) (w_shape b_shape : list Z) (dev_str : string)
      (g : rng) :
  n = 0 ->
  (q <- lift (truediv 6 n) ;;
   let wlim := pow_half q in
   w <- random_uniformM (neg wlim) wlim w_shape (Some dev_str) ;;
   let w := variable w in
   b <- lift (backend (zeros b_shape (Some dev_str))) ;;
   let b := variable b in
   ret (Dict [("w", Leaf w); ("b", Leaf b)])) g = inl ZeroDivisionError.
Proof. intros ->. reflexivity. Qed.

Lemma LSTM_create_error (self : LSTM.fields) (dev_str : string) (g : rng) (e : exn) :
  LSTM._create_variables self dev_str g = inl e ->
  (e = ZeroDivisionError /\
   (LSTM._output_channels self + LSTM._input_channels self = 0 \/
    LSTM._output_channels self + LSTM._output_channels self = 0)) \/
  exists msg, e = BackendError msg.
Proof.
  unfold LSTM._create_variables. intros E.
  apply bind_err in E. destruct E as [E | (q & g1 & _ & E)].
  { left. apply truediv_err in E. destruct E as [-> E]. auto. }
  apply bind_err in E. destruct E as [E | (ws & g2 & _ & E)].
  { right. eapply (mapM_err (fun e => exists msg, e = BackendError msg)); [| exact E].
    intros i g' e' E'.
    apply bind_err in E'. destruct E' as [E' | (w & g3 & _ & E')].
    - eapply random_uniformM_err. exact E'.
    - discriminate. }
  apply bind_err in E. destruct E as [E | (q' & g3 & _ & E)].
  { left. apply truediv_err in E. destruct E as [-> E]. auto. }
  apply bind_err in E. destruct E as [E | (ws' & g4 & _ & E)].
  { right. eapply (mapM_err (fun e => exists msg, e = BackendError msg)); [| exact E].
    intros i g' e' E'.
    apply bind_err in E'. destruct E' as [E' | (w & g5 & _ & E')].
    - eapply random_uniformM_err. exact E'.
    - discriminate. }
  discriminate.
Qed.

Lemma LSTM_create_zero (self : LSTM.fields) (dev_str : string) (g : rng) :
  LSTM._output_channels self + LSTM._input_channels self = 0 ->
  LSTM._create_variables self dev_str g = inl ZeroDivisionError.
Proof.
  intros E. unfold LSTM._create_variables. rewrite E. reflexivity.
Qed.

(** With [output_channels = 0] the second bound of the LSTM divides by zero:
    whatever the backend does with the input weights, the creation ends in an
    error. *)
Lemma LSTM_create_no_output (self : LSTM.fields) (dev_str : string) (g : rng) :
  LSTM._output_channels self + LSTM._output_channels self = 0 ->
  exists e, LSTM._create_variables self dev_str g = inl e /\ creation_error e.
Proof.
  intros Hoc.
  destruct (LSTM._create_variables self dev_str g) as [e | [c g']] eqn:E.
  - exists e. split; [reflexivity |].
    apply LSTM_create_error in E.
    destruct E as [[-> _] | E]; [left; reflexivity | right; exact E].
  - exfalso. unfold LSTM._create_variables in E. rewrite Hoc in E.
    apply bind_ok_inv in E. destruct E as (q & g1 & _ & E).
    apply bind_ok_inv in E. destruct E as (ws & g2 & _ & E).
    apply bind_ok_inv in E. destruct E as (q' & g3 & E & _).
    discriminate.
Qed.

(** The base class passes the outcome of the creation on. *)
Lemma ModuleBase_init_err (create : string -> M container) (dev_str : string)
      (v : option container) (g : rng) (e : exn) :
  ModuleBase.__init__ create dev_str v g = inl e ->
  v = None /\ create dev_str g = inl e.
Proof.
  destruct v as [c |]; simpl; intros E.
  - discriminate.
  - apply bind_err in E. destruct E as [E | (vs & g' & _ & E)];
      [split; [reflexivity | exact E] | discriminate].
Qed.

Lemma ModuleBase_init_zero (create : string -> M container) (dev_str : string)
      (g : rng) (e : exn) :
  create dev_str g = inl e ->
  ModuleBase.__init__ create dev_str None g = inl e.
Proof. intros E. simpl. unfold bind. rewrite E. reflexivity. Qed.

(** A construction that fails was given no container, and fails with
    [ZeroDivisionError] on a zero divisor or with an exception of the
    backend. *)
Lemma construct_error (c : new_layer) (dev_str : string) (v : option container)
      (g : rng) (e : exn) :
  construct c dev_str v g = inl e ->
  v = None /\
  ((e = ZeroDivisionError /\ zero_divisor c) \/ exists msg, e = BackendError msg).
Proof.
  intros E. destruct c; simpl in E;
    (apply bind_err in E; destruct E as [E | (l & g1 & _ & E)]; [| discriminate]);
    (apply bind_err in E; destruct E as [E | (b & g2 & _ & E)]; [| discriminate]);
    apply ModuleBase_init_err in E; destruct E as [-> E];
    (split; [reflexivity |]).
  1-5: apply create_wb_error in E;
    (destruct E as [[-> E] | E];
     [left; split; [reflexivity | left; exact E] | right; exact E]).
  apply LSTM_create_error in E.
  destruct E as [[-> [E | E]] | E].
  - left. split; [reflexivity | left; exact E].
  - left. split; [reflexivity | right; exact E].
  - right. exact E.
Qed.

Lemma construct_zero (c : new_layer) (dev_str : string) (g : rng) :
  fst (channels c) + snd (channels c) = 0 ->
  construct c dev_str None g = inl ZeroDivisionError.
Proof.
  intros E.
  destruct c; simpl in E; cbn [construct];
    match goal with
    | |- bind (?init) _ _ = _ =>
        assert (E' : init g = inl ZeroDivisionError);
        [| unfold bind at 1; rewrite E'; reflexivity]
    end.
  - unfold Linear.__init__, bind at 1.
    rewrite (ModuleBase_init_zero _ dev_str g ZeroDivisionError); [reflexivity |].
    apply create_wb_zero. simpl. lia.
  - unfold Conv1D.__init__, bind at 1.
    rewrite (ModuleBase_init_zero _ dev_str g ZeroDivisionError); [reflexivity |].
    apply create_wb_zero. simpl. lia.
  - unfold Conv1DTranspose.__init__, bind at 1.
    rewrite (ModuleBase_init_zero _ dev_str g ZeroDivisionError); [reflexivity |].
    apply create_wb_zero. simpl. lia.
  - unfold Conv2D.__init__, bind at 1.
    rewrite (ModuleBase_init_zero _ dev_str g ZeroDivisionError); [reflexivity |].
    apply create_wb_zero. simpl. lia.
  - unfold Conv2DTranspose.__init__, bind at 1.
    rewrite (ModuleBase_init_zero _ dev_str g ZeroDivisionError); [reflexivity |].
    apply create_wb_zero. simpl. lia.
  - unfold LSTM.__init__, bind at 1.
    rewrite (ModuleBase_init_zero _ dev_str g ZeroDivisionError); [reflexivity |].
    apply LSTM_create_zero. simpl. lia.
Qed.

Lemma construct_zero_divisor (c : new_layer) (dev_str : string) (g : rng) :
  zero_divisor c -> exists e, construct c dev_str None g = inl e.
Proof.
  intros [E | E].
  - exists ZeroDivisionError. apply construct_zero. lia.
  - destruct c; try contradiction.
    destruct (LSTM_create_no_output
                {| LSTM._input_channels := input_channels;
                   LSTM._output_channels := output_channels;
                   LSTM._num_layers := num_layers;
                   LSTM._return_sequence := return_sequence;
                   LSTM._return_state := return_state |} dev_str g E)
      as (e & Ee & _).
    exists e. cbn [construct]. unfold LSTM.__init__, bind at 1, bind at 1.
    rewrite (ModuleBase_init_zero _ dev_str g e Ee). reflexivity.
Qed.
End Unvalidated.

(** C8, as the code has it.  No constructor validates its hyperparameters,
    and none fails with [InvalidConfiguration]: for every layer class, all
    hyperparameter values (negative channel counts included), every device
    target and every backend,
    - with a caller-supplied container the construction completes, and the
      layer holds the hyperparameters, the device target and the container as
      they were passed;
    - with no container it fails with [ZeroDivisionError] when
      [input_channels + output_channels = 0];
    - with no container it fails whenever a Glorot bound divides by zero, so
      also for an LSTM with [output_channels = 0], whose second bound divides
      by [output_channels + output_channels];
    - whenever it fails, no container was supplied, and the error is either
      [ZeroDivisionError], which occurs only when one of these divisors is
      zero, or an exception raised by a tensor-creation operation of the
      backend;
    - in particular the error is never [InvalidConfiguration].
    The completion with a supplied container rests on [ModuleBase.__init__],
    which is modelled from the specification. *)
Theorem construction_unvalidated `{Ivy}
        (c : new_layer) (dev_str : string) (v : option container) (g : rng) :
  (forall cont, exists l,
      construct c dev_str (Some cont) g = Ok (l, g) /\
      held l = c /\
      base_of l = {| ModuleBase._dev_str := dev_str; ModuleBase.v := cont |}) /\
  (fst (channels c) + snd (channels c) = 0 ->
   construct c dev_str None g = Err ZeroDivisionError) /\
  (zero_divisor c -> exists e, construct c dev_str None g = Err e) /\
  (forall e, construct c dev_str v g = Err e ->
     v = None /\
     ((e = ZeroDivisionError /\ zero_divisor c) \/
      exists msg, e = BackendError msg)) /\
  (forall e, construct c dev_str v g = Err e -> creation_error e) /\
  construct c dev_str v g <> Err InvalidConfiguration.
Proof.
  split; [| split; [| split; [| split; [| split]]]].
  - intros cont. destruct c; eexists; (split; [reflexivity |]); split; reflexivity.
  - apply construct_zero.
  - apply construct_zero_divisor.
  - intros e. apply construct_error.
  - intros e E. apply construct_error in E.
    destruct E as [_ [[-> _] | E]]; [left; reflexivity | right; exact E].
  - intros E. apply construct_error in E.
    destruct E as [_ [[E _] | [msg E]]]; discriminate.
Qed.

(** C8 fails on the code: on the reference backend, [Linear(-1, 1)] ends in
    [ZeroDivisionError], [Linear(-1, 3)] in the backend's own exception about
    the negative dimension, and [Linear(-3, 2, v=...)] with a supplied
    container completes; none of them raises [InvalidConfiguration]. *)
Lemma construction_negative_channels :
  @construct Ref.backend (NewLinear (-1) 1) "cpu" None 0%nat
    = Err ZeroDivisionError /\
  @construct Ref.backend (NewLinear (-1) 3) "cpu" None 0%nat
    = Err (BackendError "negative dimensions are not allowed") /\
  @construct Ref.backend (NewLinear (-3) 2) "cpu" (Some (Dict [])) 0%nat
    = Ok (ALinear {| Linear.self := {| Linear._input_channels := -3;
                                       Linear._output_channels := 2 |};
                     Linear.base := {| ModuleBase._dev_str := "cpu";
                                       ModuleBase.v := Dict [] |} |},
          0%nat).
Proof.
  split; [reflexivity |]. split; [| reflexivity].
  assert (E : @Linear._create_variables Ref.backend
                {| Linear._input_channels := -1; Linear._output_channels := 3 |}
                "cpu" 0%nat
              = Err (BackendError "negative dimensions are not allowed")).
  { unfold Linear._create_variables.
    cbn [Linear._input_channels Linear._output_channels].
    change (3 + -1) with 2.
    rewrite (bind_lift_ok _ _ _ _ (truediv_pos 6 2 ltac:(lia))).
    cbv zeta. rewrite (glorot_bound 2) by lia. reflexivity. }
  cbn [construct]. unfold Linear.__init__.
  unfold bind at 1. unfold bind at 1.
  rewrite (@ModuleBase_init_zero Ref.backend _ "cpu" 0%nat _ E). reflexivity.
Qed.

(** * Further properties of the layers *)

(** ** The variables of the convolution layers *)

(** The creation of a weight and a bias, as the dense and the convolution
    layers do it, on a positive channel sum and shapes without negative
    entries: the uniform draw [w0] and the zero tensor [b0] that end up,
    wrapped as variables, in the container. *)
Lemma create_wb_run `{IvyContract} (n : Z) (w_shape b_shape : list Z)
      (dev_str : string) (g : rng) :
  0 < n -> valid_shape w_shape -> valid_shape b_shape ->
  exists w0 b0 g',
    (q <- lift (truediv 6 n) ;;
     let wlim := pow_half q in
     w <- random_uniformM (neg wlim) wlim w_shape (Some dev_str) ;;
     let w := variable w in
     b <- lift (backend (zeros b_shape (Some dev_str))) ;;
     let b := variable b in
     ret (Dict [("w", Leaf w); ("b", Leaf b)])) g
      = Ok (Dict [("w", Leaf (variable w0)); ("b", Leaf (variable b0))], g') /\
    shape w0 = w_shape /\
    List.length (elems w0) = Z.to_nat (prod w_shape) /\
    Forall (fun x => (- sqrt (6 / IZR n) <= x <= sqrt (6 / IZR n))%R) (elems w0) /\
    shape b0 = b_shape /\
    elems b0 = repeat 0%R (Z.to_nat (prod b_shape)).
Proof.
  intros Hn Hw Hb.
  assert (Hne : n <> 0) by lia.
  destruct (run_glorot_uniform n w_shape dev_str g Hn Hw)
    as (w0 & g' & Ew & Sw & Lw & Bw & _).
  destruct (run_zeros b_shape (Some dev_str) Hb) as (b0 & Eb & Sb & Zb & _).
  exists w0, b0, g'. split; [| repeat split; assumption].
  rewrite (bind_lift_ok _ _ g _ (truediv_pos 6 n Hne)).
  cbv zeta. rewrite (bind_ok _ _ g w0 g' Ew).
  rewrite (bind_lift_ok _ _ g' b0 Eb). reflexivity.
Qed.

Lemma prod_three (a b c : Z) : prod [a; b; c] = a * b * c.
Proof. rewrite !prod_cons, prod_nil. lia. Qed.

Lemma prod_app (a b : list Z) : prod (a ++ b) = prod a * prod b.
Proof.
  induction a as [| x a IH]; simpl app.
  - rewrite prod_nil. lia.
  - rewrite !prod_cons, IH. lia.
Qed.

(** X1.  For every valid [Conv1D] configuration (non-negative channel counts,
    not both zero, non-negative filter size), [_create_variables] returns
    [{'w': w, 'b': b}]: the weight has shape [[filter_size, output_channels,
    input_channels]] when [data_format] is ["NWC"] and [[output_channels,
    input_channels, filter_size]] for every other value of [data_format]
    (["NCW"] or anything else: no layout is rejected); in both layouts it
    has [filter_size * output_channels * input_channels] elements, all
    within the Glorot bound; the bias is all zeros of shape [[1, 1,
    output_channels]] whatever the layout. *)
Theorem Conv1D_create_variables_layout `{IvyContract}
        (self : Conv1D.fields) (dev_str : string) (g : rng) :
  let ic := Conv1D._input_channels self in
  let oc := Conv1D._output_channels self in
  let fs := Conv1D._filter_size self in
  0 <= ic -> 0 <= oc -> 0 < ic + oc -> 0 <= fs ->
  exists w b g',
    Conv1D._create_variables self dev_str g
      = Ok (Dict [("w", Leaf w); ("b", Leaf b)], g') /\
    (Conv1D._data_format self = "NWC" -> shape w = [fs; oc; ic]) /\
    (Conv1D._data_format self <> "NWC" -> shape w = [oc; ic; fs]) /\
    List.length (elems w) = Z.to_nat (fs * oc * ic) /\
    Forall (fun x => (- sqrt (6 / IZR (ic + oc)) <= x <= sqrt (6 / IZR (ic + oc)))%R)
           (elems w) /\
    shape b = [1; 1; oc] /\
    elems b = repeat 0%R (Z.to_nat oc).
Proof.
  intros ic oc fs Hic Hoc Hsum Hfs.
  assert (Hn : 0 < oc + ic) by lia.
  set (w_shape := if String.eqb (Conv1D._data_format self) "NWC"
                  then [fs; oc; ic] else [oc; ic; fs]).
  assert (Hws : valid_shape w_shape).
  { subst w_shape. destruct (String.eqb _ _); shapes. }
  destruct (create_wb_run (oc + ic) w_shape [1; 1; oc] dev_str g Hn Hws)
    as (w0 & b0 & g' & E & Sw & Lw & Bw & Sb & Zb); [shapes |].
  exists (variable w0), (variable b0), g'.
  rewrite !variable_shape, !variable_elems.
  rewrite prod_three in Zb. replace (1 * 1 * oc) with oc in Zb by lia.
  replace (ic + oc) with (oc + ic) by lia.
  split; [exact E |]. repeat split; auto.
  - intros Edf. rewrite Sw. subst w_shape. rewrite Edf. reflexivity.
  - intros Edf. rewrite Sw. subst w_shape.
    destruct (String.eqb_spec (Conv1D._data_format self) "NWC");
      [contradiction | reflexivity].
  - rewrite Lw. subst w_shape. f_equal.
    destruct (String.eqb _ _); rewrite prod_three; lia.
Qed.

Lemma Conv1D_create_variables_layout_witness :
  let self := {| Conv1D._input_channels := 3;
                 Conv1D._output_channels := 8;
                 Conv1D._filter_size := 5;
                 Conv1D._strides := AnInt 1;
                 Conv1D._padding := PadMode "SAME";
                 Conv1D._data_format := "nwc";
                 Conv1D._dilations := AnInt 1 |} in
  exists w b g',
    @Conv1D._create_variables Ref.backend self "cpu" 0%nat
      = Ok (Dict [("w", Leaf w); ("b", Leaf b)], g') /\
    @shape Ref.backend w = [8; 3; 5] /\
    @shape Ref.backend b = [1; 1; 8].
Proof.
  intros self.
  destruct (@Conv1D_create_variables_layout Ref.backend ref_contract self "cpu" 0%nat)
    as (w & b & g' & E & _ & Hother & _ & _ & Sb & _);
    [simpl; lia | simpl; lia | simpl; lia | simpl; lia |].
  exists w, b, g'. split; [exact E |]. split; [| exact Sb].
  apply Hother. discriminate.
Defined.

(** X2.  [Conv1DTranspose._create_variables] lays its variables out as
    [Conv1D] does: for every valid configuration the weight has shape
    [[filter_size, output_channels, input_channels]] for ["NWC"] and
    [[output_channels, input_channels, filter_size]] otherwise -- the channel
    counts are not swapped for the transposed convolution -- the bias is all
    zeros of shape [[1, 1, output_channels]], and [output_shape] has no part
    in it. *)
Theorem Conv1DTranspose_create_variables_layout `{IvyContract}
        (self : Conv1DTranspose.fields) (dev_str : string) (g : rng) :
  let ic := Conv1DTranspose._input_channels self in
  let oc := Conv1DTranspose._output_channels self in
  let fs := Conv1DTranspose._filter_size self in
  0 <= ic -> 0 <= oc -> 0 < ic + oc -> 0 <= fs ->
  exists w b g',
    Conv1DTranspose._create_variables self dev_str g
      = Ok (Dict [("w", Leaf w); ("b", Leaf b)], g') /\
    (Conv1DTranspose._data_format self = "NWC" -> shape w = [fs; oc; ic]) /\
    (Conv1DTranspose._data_format self <> "NWC" -> shape w = [oc; ic; fs]) /\
    Forall (fun x => (- sqrt (6 / IZR (ic + oc)) <= x <= sqrt (6 / IZR (ic + oc)))%R)
           (elems w) /\
    shape b = [1; 1; oc] /\
    elems b = repeat 0%R (Z.to_nat oc) /\
    (forall os,
        Conv1DTranspose._create_variables
          {| Conv1DTranspose._input_channels := ic;
             Conv1DTranspose._output_channels := oc;
             Conv1DTranspose._filter_size := fs;
             Conv1DTranspose._strides := Conv1DTranspose._strides self;
             Conv1DTranspose._padding := Conv1DTranspose._padding self;
             Conv1DTranspose._output_shape := os;
             Conv1DTranspose._data_format := Conv1DTranspose._data_format self;
             Conv1DTranspose._dilations := Conv1DTranspose._dilations self |}
          dev_str g
        = Conv1DTranspose._create_variables self dev_str g).
Proof.
  intros ic oc fs Hic Hoc Hsum Hfs.
  assert (Hn : 0 < oc + ic) by lia.
  set (w_shape := if String.eqb (Conv1DTranspose._data_format self) "NWC"
                  then [fs; oc; ic] else [oc; ic; fs]).
  assert (Hws : valid_shape w_shape).
  { subst w_shape. destruct (String.eqb _ _); shapes. }
  destruct (create_wb_run (oc + ic) w_shape [1; 1; oc] dev_str g Hn Hws)
    as (w0 & b0 & g' & E & Sw & Lw & Bw & Sb & Zb); [shapes |].
  exists (variable w0), (variable b0), g'.
  rewrite !variable_shape, !variable_elems.
  rewrite prod_three in Zb. replace (1 * 1 * oc) with oc in Zb by lia.
  replace (ic + oc) with (oc + ic) by lia.
  split; [exact E |]. repeat split; auto.
  - intros Edf. rewrite Sw. subst w_shape. rewrite Edf. reflexivity.
  - intros Edf. rewrite Sw. subst w_shape.
    destruct (String.eqb_spec (Conv1DTranspose._data_format self) "NWC");
      [contradiction | reflexivity].
Qed.

Lemma Conv1DTranspose_create_variables_layout_witness :
  let self := {| Conv1DTranspose._input_channels := 3;
                 Conv1DTranspose._output_channels := 8;
                 Conv1DTranspose._filter_size := 5;
                 Conv1DTranspose._strides := AnInt 2;
                 Conv1DTranspose._padding := PadMode "VALID";
                 Conv1DTranspose._output_shape := Some [1; 20; 8];
                 Conv1DTranspose._data_format := "NWC";
                 Conv1DTranspose._dilations := AnInt 1 |} in
  exists w b g',
    @Conv1DTranspose._create_variables Ref.backend self "cpu" 0%nat
      = Ok (Dict [("w", Leaf w); ("b", Leaf b)], g') /\
    @shape Ref.backend w = [5; 8; 3] /\
    @shape Ref.backend b = [1; 1; 8].
Proof.
  intros self.
  destruct (@Conv1DTranspose_create_variables_layout Ref.backend ref_contract
              self "cpu" 0%nat)
    as (w & b & g' & E & Hnwc & _ & _ & Sb & _);
    [simpl; lia | simpl; lia | simpl; lia | simpl; lia |].
  exists w, b, g'. split; [exact E |]. split; [| exact Sb].
  apply Hnwc. reflexivity.
Defined.

(** X3.  [Conv2DTranspose._create_variables] lays its variables out as
    [Conv2D] does: for every valid configuration the weight has shape
    [filter_shape + [output_channels, input_channels]] for ["NHWC"] and
    [[output_channels, input_channels] + filter_shape] for every other
    [data_format] -- the channel counts are not swapped for the transposed
    convolution -- the bias is all zeros of shape [[1, 1, 1,
    output_channels]], and [output_shape] has no part in it. *)
Theorem Conv2DTranspose_create_variables_layout `{IvyContract}
        (self : Conv2DTranspose.fields) (dev_str : string) (g : rng) :
  let ic := Conv2DTranspose._input_channels self in
  let oc := Conv2DTranspose._output_channels self in
  let fs := Conv2DTranspose._filter_shape self in
  0 <= ic -> 0 <= oc -> 0 < ic + oc -> valid_shape fs ->
  exists w b g',
    Conv2DTranspose._create_variables self dev_str g
      = Ok (Dict [("w", Leaf w); ("b", Leaf b)], g') /\
    (Conv2DTranspose._data_format self = "NHWC" -> shape w = fs ++ [oc; ic]) /\
    (Conv2DTranspose._data_format self <> "NHWC" -> shape w = [oc; ic] ++ fs) /\
    Forall (fun x => (- sqrt (6 / IZR (ic + oc)) <= x <= sqrt (6 / IZR (ic + oc)))%R)
           (elems w) /\
    shape b = [1; 1; 1; oc] /\
    elems b = repeat 0%R (Z.to_nat oc) /\
    (forall os,
        Conv2DTranspose._create_variables
          {| Conv2DTranspose._input_channels := ic;
             Conv2DTranspose._output_channels := oc;
             Conv2DTranspose._filter_shape := fs;
             Conv2DTranspose._strides := Conv2DTranspose._strides self;
             Conv2DTranspose._padding := Conv2DTranspose._padding self;
             Conv2DTranspose._output_shape := os;
             Conv2DTranspose._data_format := Conv2DTranspose._data_format self;
             Conv2DTranspose._dilations := Conv2DTranspose._dilations self |}
          dev_str g
        = Conv2DTranspose._create_variables self dev_str g).
Proof.
  intros ic oc fs Hic Hoc Hsum Hfs.
  assert (Hn : 0 < oc + ic) by lia.
  set (w_shape := if String.eqb (Conv2DTranspose._data_format self) "NHWC"
                  then fs ++ [oc; ic] else [oc; ic] ++ fs).
  assert (Hws : valid_shape w_shape).
  { subst w_shape. destruct (String.eqb _ _); shapes. }
  destruct (create_wb_run (oc + ic) w_shape [1; 1; 1; oc] dev_str g Hn Hws)
    as (w0 & b0 & g' & E & Sw & Lw & Bw & Sb & Zb); [shapes |].
  exists (variable w0), (variable b0), g'.
  rewrite !variable_shape, !variable_elems.
  replace (prod [1; 1; 1; oc]) with oc in Zb by (rewrite !prod_cons, prod_nil; lia).
  replace (ic + oc) with (oc + ic) by lia.
  split; [exact E |]. repeat split; auto.
  - intros Edf. rewrite Sw. subst w_shape. rewrite Edf. reflexivity.
  - intros Edf. rewrite Sw. subst w_shape.
    destruct (String.eqb_spec (Conv2DTranspose._data_format self) "NHWC");
      [contradiction | reflexivity].
Qed.

Lemma Conv2DTranspose_create_variables_layout_witness :
  let self := {| Conv2DTranspose._input_channels := 3;
                 Conv2DTranspose._output_channels := 8;
                 Conv2DTranspose._filter_shape := [5; 4];
                 Conv2DTranspose._strides := AnInt 2;
                 Conv2DTranspose._padding := PadMode "VALID";
                 Conv2DTranspose._output_shape := None;
                 Conv2DTranspose._data_format := "NHWC";
                 Conv2DTranspose._dilations := AnInt 1 |} in
  exists w b g',
    @Conv2DTranspose._create_variables Ref.backend self "cpu" 0%nat
      = Ok (Dict [("w", Leaf w); ("b", Leaf b)], g') /\
    @shape Ref.backend w = [5; 4; 8; 3] /\
    @shape Ref.backend b = [1; 1; 1; 8].
Proof.
  intros self.
  destruct (@Conv2DTranspose_create_variables_layout Ref.backend ref_contract
              self "cpu" 0%nat)
    as (w & b & g' & E & Hnhwc & _ & _ & Sb & _);
    [simpl; lia | simpl; lia | simpl; lia | simpl; shapes |].
  exists w, b, g'. split; [exact E |]. split; [| exact Sb].
  apply Hnhwc. reflexivity.
Defined.

(** X4.  [Conv2D._create_variables] rejects no [data_format]: for every valid
    configuration and every layout string other than ["NHWC"] (["NCHW"], a
    misspelling, lower case, ...) it returns the channel-first weight of
    shape [[output_channels, input_channels] + filter_shape]; in every
    layout the weight has [output_channels * input_channels *
    prod(filter_shape)] elements, and the bias keeps the shape [[1, 1, 1,
    output_channels]], channels last, whatever the layout. *)
Theorem Conv2D_create_variables_any_layout `{IvyContract}
        (self : Conv2D.fields) (dev_str : string) (g : rng) :
  let ic := Conv2D._input_channels self in
  let oc := Conv2D._output_channels self in
  let fs := Conv2D._filter_shape self in
  0 <= ic -> 0 <= oc -> 0 < ic + oc -> valid_shape fs ->
  exists w b g',
    Conv2D._create_variables self dev_str g
      = Ok (Dict [("w", Leaf w); ("b", Leaf b)], g') /\
    (Conv2D._data_format self <> "NHWC" -> shape w = [oc; ic] ++ fs) /\
    List.length (elems w) = Z.to_nat (oc * ic * prod fs) /\
    shape b = [1; 1; 1; oc].
Proof.
  intros ic oc fs Hic Hoc Hsum Hfs.
  assert (Hn : 0 < oc + ic) by lia.
  set (w_shape := if String.eqb (Conv2D._data_format self) "NHWC"
                  then fs ++ [oc; ic] else [oc; ic] ++ fs).
  assert (Hws : valid_shape w_shape).
  { subst w_shape. destruct (String.eqb _ _); shapes. }
  destruct (create_wb_run (oc + ic) w_shape [1; 1; 1; oc] dev_str g Hn Hws)
    as (w0 & b0 & g' & E & Sw & Lw & _ & Sb & _); [shapes |].
  exists (variable w0), (variable b0), g'.
  rewrite !variable_shape, !variable_elems.
  split; [exact E |]. split; [| split; [| exact Sb]].
  - intros Edf. rewrite Sw. subst w_shape.
    destruct (String.eqb_spec (Conv2D._data_format self) "NHWC");
      [contradiction | reflexivity].
  - rewrite Lw. subst w_shape. f_equal.
    destruct (String.eqb _ _); rewrite prod_app, !prod_cons, prod_nil; lia.
Qed.

Lemma Conv2D_create_variables_any_layout_witness :
  let self := {| Conv2D._input_channels := 3;
                 Conv2D._output_channels := 8;
                 Conv2D._filter_shape := [5; 5];
                 Conv2D._strides := AnInt 1;
                 Conv2D._padding := PadMode "SAME";
                 Conv2D._data_format := "nhwc";
                 Conv2D._dilations := AnInt 1 |} in
  exists w b g',
    @Conv2D._create_variables Ref.backend self "cpu" 0%nat
      = Ok (Dict [("w", Leaf w); ("b", Leaf b)], g') /\
    @shape Ref.backend w = [8; 3; 5; 5] /\
    List.length (@elems Ref.backend w) = 600%nat /\
    @shape Ref.backend b = [1; 1; 1; 8].
Proof.
  intros self.
  destruct (@Conv2D_create_variables_any_layout Ref.backend ref_contract
              self "cpu" 0%nat)
    as (w & b & g' & E & Hother & Lw & Sb);
    [simpl; lia | simpl; lia | simpl; lia | simpl; shapes |].
  exists w, b, g'. split; [exact E |]. split; [| split; [exact Lw | exact Sb]].
  apply Hother. discriminate.
Defined.

(** ** Edge cases of the LSTM *)

(** X5.  An LSTM with [output_channels = 0] cannot be constructed without a
    supplied container: the second Glorot bound divides by
    [output_channels + output_channels = 0].  On every backend, whatever its
    operations do, the construction ends in an error, which is
    [ZeroDivisionError] or an exception the backend raised while the input
    weights were drawn; and with a positive [input_channels] on a backend
    that meets the creation contracts -- where the input weights are drawn
    first, without complaint -- the error is [ZeroDivisionError].
    (A [Linear] layer with [output_channels = 0] and a positive
    [input_channels] has no such division and is created.) *)
Theorem LSTM_zero_output_channels `{Ivy}
        (ic n : Z) (rs rst : bool) (dev_str : string) (g : rng) :
  (exists e, LSTM.__init__ ic 0 n rs rst dev_str None g = Err e /\
             creation_error e) /\
  (IvyContract -> 0 < ic ->
   LSTM.__init__ ic 0 n rs rst dev_str None g = Err ZeroDivisionError).
Proof.
  set (self := {| LSTM._input_channels := ic; LSTM._output_channels := 0;
                  LSTM._num_layers := n; LSTM._return_sequence := rs;
                  LSTM._return_state := rst |}).
  split.
  - rewrite LSTM_init_none. fold self.
    destruct (LSTM_create_no_output self dev_str g) as (e & E & Ce);
      [reflexivity |].
    exists e. rewrite E. split; [reflexivity | exact Ce].
  - intros C Hic. rewrite LSTM_init_none. fold self.
    assert (Hn : 0 < 0 + ic) by lia.
    assert (Hne : 0 + ic <> 0) by lia.
    destruct (mapM_glorot (0 + ic) (fun i => [if i =? 0 then ic else 0; 4 * 0])
                          dev_str (range n) g Hn)
      as (ins & g1 & Eins & _).
    { intros i. destruct (i =? 0); shapes. }
    unfold LSTM._create_variables.
    cbn [LSTM._input_channels LSTM._output_channels LSTM._num_layers self].
    rewrite (bind_lift_ok _ _ g _ (truediv_pos 6 (0 + ic) Hne)).
    rewrite (bind_ok _ _ g _ g1 Eins).
    reflexivity.
Qed.

Lemma LSTM_zero_output_channels_witness :
  @LSTM.__init__ Ref.backend 8 0 2 true true "cpu" None 0%nat
  = Err ZeroDivisionError.
Proof.
  apply (proj2 (@LSTM_zero_output_channels Ref.backend
                  8 2 true true "cpu" 0%nat)).
  - exact ref_contract.
  - lia.
Defined.

(** X6.  An LSTM with [num_layers <= 0] (and channel counts that keep the two
    Glorot divisions away from zero) is constructed on every backend without
    a single backend call: the generator is left as it was and both weight
    groups are empty.  Its zero-state accessor returns two empty lists for
    any batch shape, and its forward pass with [return_sequence] returns the
    input tensor itself, with empty state lists, whatever the input's shape
    and whatever initial state is passed. *)
Theorem LSTM_no_layers `{Ivy}
        (ic oc n : Z) (rs rst : bool) (dev_str : string) (g : rng) :
  n <= 0 -> oc + ic <> 0 -> oc <> 0 ->
  exists l,
    LSTM.__init__ ic oc n rs rst dev_str None g = Ok (l, g) /\
    LSTM.v l = Dict [("input", Dict []); ("recurrent", Dict [])] /\
    (forall bs, LSTM.get_initial_state l bs = Ok ([], [])) /\
    (forall x st,
        rs = true ->
        LSTM._forward l x st
        = Ok (if rst then LSTM.OutputAndState x ([], []) else LSTM.Output x)).
Proof.
  intros Hn Hsum Hoc.
  set (self := {| LSTM._input_channels := ic; LSTM._output_channels := oc;
                  LSTM._num_layers := n; LSTM._return_sequence := rs;
                  LSTM._return_state := rst |}).
  assert (Hr : range n = []).
  { unfold range. replace (Z.to_nat n) with 0%nat by lia. reflexivity. }
  assert (Hoc2 : oc + oc <> 0) by lia.
  assert (E : LSTM._create_variables self dev_str g
              = Ok (Dict [("input", Dict []); ("recurrent", Dict [])], g)).
  { unfold LSTM._create_variables, LSTM.layer_keys.
    cbn [LSTM._input_channels LSTM._output_channels LSTM._num_layers self].
    rewrite Hr.
    rewrite (bind_lift_ok _ _ g _ (truediv_pos 6 (oc + ic) Hsum)).
    cbv zeta. cbn [mapM map combine].
    rewrite (bind_ok _ _ g (@nil container) g eq_refl).
    rewrite (bind_lift_ok _ _ g _ (truediv_pos 6 (oc + oc) Hoc2)).
    rewrite (bind_ok _ _ g (@nil container) g eq_refl).
    reflexivity. }
  rewrite LSTM_init_none. fold self. rewrite E.
  eexists. split; [reflexivity |]. split; [reflexivity |].
  assert (Hstate : forall bs,
             LSTM.get_initial_state
               {| LSTM.self := self;
                  LSTM.base := {| ModuleBase._dev_str := dev_str;
                                  ModuleBase.v :=
                                    Dict [("input", Dict []); ("recurrent", Dict [])] |} |}
               bs = Ok ([], [])).
  { intros bs. unfold LSTM.get_initial_state.
    cbn [LSTM.self LSTM._num_layers self]. rewrite Hr. reflexivity. }
  split; [exact Hstate |].
  intros x st Hrs. unfold LSTM._forward.
  assert (Est : exists hs cs,
             match st with
             | Some s => Ok s
             | None =>
                 LSTM.get_initial_state
                   {| LSTM.self := self;
                      LSTM.base := {| ModuleBase._dev_str := dev_str;
                                      ModuleBase.v :=
                                        Dict [("input", Dict []);
                                              ("recurrent", Dict [])] |} |}
                   (drop_last2 (shape x))
             end = Ok (hs, cs)).
  { destruct st as [[hs cs] |]; [exists hs, cs; reflexivity |].
    exists [], []. apply Hstate. }
  destruct Est as (hs & cs & Est). rewrite Est.
  cbn [rbind Ok LSTM.v LSTM.base ModuleBase.v getattr dict_get String.eqb
       Ascii.eqb Bool.eqb items fst snd].
  assert (Hz : zip4 hs cs (@nil (string * container)) (@nil (string * container)) = []).
  { destruct hs; [reflexivity |]. destruct cs; reflexivity. }
  rewrite Hz. cbn [LSTM.for_loop rbind Ok].
  cbn [LSTM.self LSTM._return_sequence LSTM._return_state self].
  rewrite Hrs. cbn [negb rbind Ok].
  destruct rst; reflexivity.
Qed.

Lemma LSTM_no_layers_witness :
  exists l : @LSTM.t Ref.backend,
    @LSTM.__init__ Ref.backend 8 16 0 true true "cpu" None 7%nat = Ok (l, 7%nat) /\
    @LSTM._forward Ref.backend l (Ref.filled [3; 5; 8] "cpu") None
      = Ok (@LSTM.OutputAndState Ref.backend (Ref.filled [3; 5; 8] "cpu") ([], [])).
Proof.
  destruct (@LSTM_no_layers Ref.backend 8 16 0 true true "cpu" 7%nat)
    as (l & E & _ & _ & Hf); [lia | lia | lia |].
  exists l. split; [exact E |]. apply Hf. reflexivity.
Defined.

Lemma zip4_firstn_ge {A B C D} (a : list A) (b : list B) (c : list C)
      (d : list D) (m : nat) :
  (Nat.min (Nat.min (List.length a) (List.length b))
           (Nat.min (List.length c) (List.length d)) <= m)%nat ->
  zip4 a b c d = zip4 (firstn m a) (firstn m b) c d.
Proof.
  revert b c d m. induction a as [| a0 a IH]; intros b c d m Hm.
  - rewrite firstn_nil. reflexivity.
  - destruct b as [| b0 b].
    { rewrite firstn_nil. destruct (firstn m (a0 :: a)); reflexivity. }
    destruct c as [| c0 c]; [destruct m; reflexivity |].
    destruct d as [| d0 d]; [destruct m; reflexivity |].
    destruct m as [| m]; [simpl in Hm; lia |].
    cbn [firstn zip4]. f_equal. apply IH. simpl in Hm. lia.
Qed.

(** X7.  [zip] in [LSTM._forward] reads no further than its shortest
    argument: initial states beyond the shortest of the two state lists and
    the two weight groups are never used.  Passing hidden and cell lists of
    different lengths, or more states than the container has layers, raises
    nothing and returns exactly what the call returns on the lists cut to
    that length. *)
Theorem LSTM_forward_surplus_states `{Ivy}
        (l : LSTM.t) (ii ri : list (string * container))
        (x : tensor) (hs cs : list tensor) (m : nat) :
  LSTM.v l = Dict [("input", Dict ii); ("recurrent", Dict ri)] ->
  (Nat.min (Nat.min (List.length hs) (List.length cs))
           (Nat.min (List.length ii) (List.length ri)) <= m)%nat ->
  LSTM._forward l x (Some (hs, cs))
  = LSTM._forward l x (Some (firstn m hs, firstn m cs)).
Proof.
  intros Hv Hm. unfold LSTM._forward. rewrite Hv.
  cbn [rbind Ok getattr dict_get String.eqb Ascii.eqb Bool.eqb items fst snd].
  rewrite (zip4_firstn_ge hs cs ii ri m Hm). reflexivity.
Qed.

Lemma LSTM_forward_surplus_states_witness :
  @LSTM._forward Ref.backend (Sample.lstm 2 true true) Sample.inputs
     (Some ([Sample.state; Sample.state; Sample.state], [Sample.state; Sample.state]))
  = @LSTM._forward Ref.backend (Sample.lstm 2 true true) Sample.inputs
     (Some ([Sample.state; Sample.state], [Sample.state; Sample.state])).
Proof.
  apply (@LSTM_forward_surplus_states Ref.backend (Sample.lstm 2 true true)
           _ _ Sample.inputs
           [Sample.state; Sample.state; Sample.state] [Sample.state; Sample.state]
           2%nat eq_refl).
  simpl. lia.
Defined.

Lemma for_loop_keys `{Ivy} (hs cs : list tensor)
      (ii ri ii' ri' : list (string * container)) (acc : LSTM.carry) :
  map snd ii = map snd ii' -> map snd ri = map snd ri' ->
  LSTM.for_loop (zip4 hs cs ii ri) acc = LSTM.for_loop (zip4 hs cs ii' ri') acc.
Proof.
  revert cs ii ri ii' ri' acc.
  induction hs as [| h hs IH]; intros cs ii ri ii' ri' acc Hi Hr.
  - reflexivity.
  - destruct cs as [| c cs]; [reflexivity |].
    destruct ii as [| [k1 v1] ii], ii' as [| [k1' v1'] ii'];
      simpl in Hi; try discriminate; [reflexivity |].
    destruct ri as [| [k2 v2] ri], ri' as [| [k2' v2'] ri'];
      simpl in Hr; try discriminate; [reflexivity |].
    injection Hi as <- Hi. injection Hr as <- Hr.
    cbn [zip4 LSTM.for_loop].
    assert (Eb : LSTM.loop_body acc (h, c, (k1, v1), (k2, v2))
                 = LSTM.loop_body acc (h, c, (k1', v1), (k2', v2))).
    { destruct acc as [[h_t hn] cn]. reflexivity. }
    rewrite Eb.
    destruct (LSTM.loop_body acc (h, c, (k1', v1), (k2', v2))) as [e | acc'];
      [reflexivity |].
    cbn [rbind]. apply IH; assumption.
Qed.

(** X8.  [LSTM._forward] pairs states and weights by position, not by name:
    the keys of the entries of the two weight groups are never read.  Two
    layers with the same hyperparameters whose containers hold the same
    values in the same order, under whatever keys, return the same result on
    every input and initial state. *)
Theorem LSTM_forward_ignores_keys `{Ivy}
        (l l' : LSTM.t) (ii ri ii' ri' : list (string * container)) :
  LSTM.self l = LSTM.self l' ->
  LSTM.v l = Dict [("input", Dict ii); ("recurrent", Dict ri)] ->
  LSTM.v l' = Dict [("input", Dict ii'); ("recurrent", Dict ri')] ->
  map snd ii = map snd ii' -> map snd ri = map snd ri' ->
  forall x st, LSTM._forward l x st = LSTM._forward l' x st.
Proof.
  intros Hs Hv Hv' Hi Hr x st. unfold LSTM._forward, LSTM.get_initial_state.
  rewrite Hv, Hv', Hs.
  destruct (match st with
            | Some s => Ok s
            | None => _
            end) as [e | [hs cs]]; [reflexivity |].
  cbn [rbind Ok getattr dict_get String.eqb Ascii.eqb Bool.eqb items fst snd].
  rewrite (for_loop_keys hs cs ii ri ii' ri' (x, [], []) Hi Hr). reflexivity.
Qed.

Lemma LSTM_forward_ignores_keys_witness :
  @LSTM._forward Ref.backend (Sample.lstm 1 true true) Sample.inputs None
  = @LSTM._forward Ref.backend Sample.lstm_renamed Sample.inputs None.
Proof.
  apply (@LSTM_forward_ignores_keys Ref.backend
           (Sample.lstm 1 true true) Sample.lstm_renamed
           _ _ _ _ eq_refl eq_refl eq_refl eq_refl eq_refl).
Defined.

(** ** Supplied containers and returned states *)

(** X9.  [Linear._forward] reads the container only: a layer constructed with
    a supplied container works with the shapes of that container, whatever
    channel counts the constructor was given.  With a supplied weight of
    shape [[oc', ic']] and bias of shape [[oc']], construction completes
    (unchecked, the generator untouched), the layer still reports the
    channel counts it was given, and an input of shape [batch_shape + [ic']]
    is mapped to input·weightᵀ + bias of shape [batch_shape + [oc']]. *)
Theorem Linear_injected_container `{IvyContract}
        (ic oc : Z) (dev_str : string) (g : rng)
        (w b x : tensor) (bs : list Z) (ic' oc' : Z) :
  shape w = [oc'; ic'] -> shape b = [oc'] ->
  valid_shape (bs ++ [ic']) -> 0 <= oc' ->
  shape x = bs ++ [ic'] ->
  exists l y,
    Linear.__init__ ic oc dev_str (Some (Dict [("w", Leaf w); ("b", Leaf b)])) g
      = Ok (l, g) /\
    Linear._input_channels l = ic /\ Linear._output_channels l = oc /\
    Linear._forward l x = Ok y /\
    shape y = bs ++ [oc'] /\
    elems y = affine (Z.to_nat (prod bs)) (Z.to_nat ic') (Z.to_nat oc')
                     (elems x) (elems w) (elems b).
Proof.
  intros Sw Sb Hv Hoc Sx.
  destruct (linear_spec x w b bs ic' oc' Hv Hoc Sx Sw Sb) as (y & E & Sy & Ey).
  eexists. exists y.
  split; [reflexivity |]. split; [reflexivity |]. split; [reflexivity |].
  split; [| split; assumption].
  unfold Linear._forward. simpl. rewrite E. reflexivity.
Qed.

Lemma Linear_injected_container_witness :
  exists (l : @Linear.t Ref.backend) y,
    @Linear.__init__ Ref.backend 4 3 "cpu" (Some Sample.dense_injected) 0%nat
      = Ok (l, 0%nat) /\
    Linear._output_channels l = 3 /\
    @Linear._forward Ref.backend l (Ref.filled [2; 5] "cpu") = Ok y /\
    @shape Ref.backend y = [2; 7].
Proof.
  destruct (@Linear_injected_container Ref.backend ref_contract 4 3 "cpu" 0%nat
              (Sample.weight [7; 5]) (Sample.weight [7])
              (Ref.filled [2; 5] "cpu") [2] 5 7)
    as (l & y & E & _ & Eoc & Ef & Sy & _);
    [reflexivity | reflexivity | shapes | lia | reflexivity |].
  exists l, y. split; [exact E |]. split; [exact Eoc |]. split; [exact Ef | exact Sy].
Defined.

(** X10.  The state an LSTM returns is a state it accepts: for a layer with
    well-shaped weights and [return_state], a forward call without initial
    state on an input of shape [batch_shape + [T1, input_channels]] returns
    hidden and cell lists that, passed as [initial_state] of a second call on
    an input of the same batch shape and any length [T2 >= 1], are taken
    without error; both calls return one state of shape
    [batch_shape + [output_channels]] per layer. *)
Theorem LSTM_state_feeds_back `{IvyContract}
        (l : LSTM.t) (ins recs : list tensor) (x1 x2 : tensor)
        (bs : list Z) (T1 T2 : Z) :
  let ic := LSTM._input_channels l in
  let oc := LSTM._output_channels l in
  let n := Z.to_nat (LSTM._num_layers l) in
  lstm_ready l ins recs ->
  LSTM._return_state l = true ->
  0 <= oc ->
  valid_shape (bs ++ [T1; ic]) -> 0 < T1 -> shape x1 = bs ++ [T1; ic] ->
  0 < T2 -> shape x2 = bs ++ [T2; ic] ->
  exists out1 hn cn out2 hn' cn',
    LSTM._forward l x1 None = Ok (LSTM.OutputAndState out1 (hn, cn)) /\
    LSTM._forward l x2 (Some (hn, cn)) = Ok (LSTM.OutputAndState out2 (hn', cn')) /\
    List.length hn = n /\ List.length cn = n /\
    List.length hn' = n /\ List.length cn' = n /\
    Forall (fun t => shape t = bs ++ [oc]) (hn ++ cn) /\
    Forall (fun t => shape t = bs ++ [oc]) (hn' ++ cn').
Proof.
  intros ic oc n Hready Hrst Hoc Hv1 HT1 Hx1 HT2 Hx2.
  assert (Hv2 : valid_shape (bs ++ [T2; ic])).
  { apply valid_shape_app in Hv1. destruct Hv1 as [Hbs Hrest].
    apply valid_shape_cons in Hrest. destruct Hrest as [_ Hrest].
    apply valid_shape_cons in Hrest. destruct Hrest as [Hic _]. shapes. }
  destruct (forward_effective_state l ins recs x1 bs T1 None
              Hready Hoc Hv1 HT1 Hx1 I)
    as (hs & cs & _ & Efw & Lh & Lc & Fh & Fc).
  destruct (forward_some l ins recs x1 bs T1 Hready Hoc Hv1 HT1 Hx1 hs cs)
    as (h1 & hn & cn & out1 & _ & _ & _ & _ & Ef1 & Lhn & Lcn & _ & Fs);
    try assumption; try lia.
  pose proof Fs as Fs'. apply Forall_app in Fs'. destruct Fs' as [Fhn Fcn].
  destruct (forward_some l ins recs x2 bs T2 Hready Hoc Hv2 HT2 Hx2 hn cn)
    as (h2 & hn' & cn' & out2 & _ & _ & _ & _ & Ef2 & Lhn' & Lcn' & _ & Fs2);
    try assumption; try lia.
  unfold LSTMSpec.packed in Ef1, Ef2. rewrite Hrst in Ef1, Ef2.
  exists out1, hn, cn, out2, hn', cn'.
  rewrite Efw. repeat split; auto; lia.
Qed.

Lemma LSTM_state_feeds_back_witness :
  exists out1 hn cn out2 hn' cn',
    @LSTM._forward Ref.backend (Sample.lstm 2 true true) Sample.inputs None
      = Ok (LSTM.OutputAndState out1 (hn, cn)) /\
    @LSTM._forward Ref.backend (Sample.lstm 2 true true)
       (Ref.filled [3; 1; 8] "cpu") (Some (hn, cn))
      = Ok (LSTM.OutputAndState out2 (hn', cn')) /\
    List.length hn' = 2%nat /\ List.length cn' = 2%nat.
Proof.
  destruct (@LSTM_state_feeds_back Ref.backend ref_contract
              (Sample.lstm 2 true true) (Sample.lstm_ins 2) (Sample.lstm_recs 2)
              Sample.inputs (Ref.filled [3; 1; 8] "cpu") [3] 5 1)
    as (out1 & hn & cn & out2 & hn' & cn' & E1 & E2 & _ & _ & L1 & L2 & _).
  - apply sample_lstm_ready_2.
  - reflexivity.
  - simpl. lia.
  - simpl. shapes.
  - lia.
  - reflexivity.
  - lia.
  - reflexivity.
  - exists out1, hn, cn, out2, hn', cn'.
    split; [exact E1 |]. split; [exact E2 |]. split; [exact L1 | exact L2].
Defined.

(** X11.  In every forward call of an LSTM with at least one layer and
    well-shaped weights, the hidden state collected for the last layer and
    the returned output are the same thing: with [return_sequence] false the
    output is that hidden state, and with [return_sequence] true that hidden
    state is the last timestep of the output. *)
Theorem LSTM_output_is_last_hidden `{IvyContract}
        (l : LSTM.t) (ins recs : list tensor) (x : tensor) (bs : list Z) (T : Z)
        (initial_state : option (list tensor * list tensor)) :
  let oc := LSTM._output_channels l in
  let n := Z.to_nat (LSTM._num_layers l) in
  lstm_ready l ins recs ->
  0 <= oc -> 1 <= LSTM._num_layers l ->
  valid_shape (bs ++ [T; LSTM._input_channels l]) -> 0 < T ->
  shape x = bs ++ [T; LSTM._input_channels l] ->
  match initial_state with
  | None => True
  | Some (hs, cs) =>
      List.length hs = n /\ List.length cs = n /\
      Forall (fun t => shape t = bs ++ [oc]) (hs ++ cs)
  end ->
  exists out hn cn y,
    LSTM._forward l x initial_state = Ok (LSTMSpec.packed l out hn cn) /\
    nth_error hn (n - 1) = Some y /\
    (LSTM._return_sequence l = false -> out = y) /\
    (LSTM._return_sequence l = true -> last_step out = inr y).
Proof.
  intros oc n Hready Hoc Hn Hvalid HT Hx Hst.
  destruct (forward_effective_state l ins recs x bs T initial_state
              Hready Hoc Hvalid HT Hx Hst)
    as (hs & cs & _ & Efw & Lh & Lc & Fh & Fc).
  destruct (forward_some l ins recs x bs T Hready Hoc Hvalid HT Hx hs cs)
    as (h & hn & cn & out & Es & _ & Et & _ & Ef & _ & _ & Hcol & _);
    try assumption; try lia.
  fold n in Lh. rewrite Lh in Es, Hcol.
  assert (Hn' : n = S (n - 1)) by (subst n; lia).
  destruct (Hcol (n - 1)%nat) as (h' & c' & y & El & Ey & Ehn & _); [lia |].
  rewrite Hn' in Es. cbn [LSTMSpec.stack_output] in Es.
  rewrite El in Es. cbn [rbind fst] in Es. injection Es as <-.
  exists out, hn, cn, y. rewrite Efw.
  split; [exact Ef |]. split; [exact Ehn |].
  unfold LSTMSpec.truncated in Et. split; intros Ers; rewrite Ers in Et.
  - rewrite Ey in Et. injection Et as <-. reflexivity.
  - subst out. exact Ey.
Qed.

Lemma LSTM_output_is_last_hidden_witness :
  exists out hn cn,
    @LSTM._forward Ref.backend (Sample.lstm 2 false true) Sample.inputs None
      = Ok (LSTM.OutputAndState out (hn, cn)) /\
    nth_error hn 1 = Some out.
Proof.
  destruct (@LSTM_output_is_last_hidden Ref.backend ref_contract
              (Sample.lstm 2 false true) (Sample.lstm_ins 2) (Sample.lstm_recs 2)
              Sample.inputs [3] 5 None)
    as (out & hn & cn & y & Ef & Ey & Hfalse & _).
  - apply sample_lstm_ready_2.
  - simpl. lia.
  - simpl. lia.
  - simpl. shapes.
  - lia.
  - reflexivity.
  - exact I.
  - rewrite <- (Hfalse eq_refl) in Ey.
    exists out, hn, cn. split; [exact Ef | exact Ey].
Defined.

(** ** Construction of every layer class *)

Lemma ModuleBase_init_ok `{Ivy} (create : string -> M container)
      (dev_str : string) (g : rng) (c : container) (g' : rng) :
  create dev_str g = Ok (c, g') ->
  ModuleBase.__init__ create dev_str None g
  = Ok ({| ModuleBase._dev_str := dev_str; ModuleBase.v := c |}, g').
Proof. intros E. simpl. unfold bind. rewrite E. reflexivity. Qed.

(** X14.  For each of the six layer classes, construction with creatable
    hyperparameters and no supplied container completes on every backend
    that meets the creation contracts; the layer holds the hyperparameters
    exactly as passed, the device target as passed, and the container its
    own [_create_variables] returned for that device. *)
Theorem construct_creatable `{IvyContract}
        (c : new_layer) (dev_str : string) (g : rng) :
  creatable c ->
  exists l g',
    construct c dev_str None g = Ok (l, g') /\
    held l = c /\
    ModuleBase._dev_str (base_of l) = dev_str /\
    match l with
    | ALinear l0 =>
        Linear._create_variables l0 dev_str g = Ok (ModuleBase.v (base_of l), g')
    | AConv1D l0 =>
        Conv1D._create_variables l0 dev_str g = Ok (ModuleBase.v (base_of l), g')
    | AConv1DTranspose l0 =>
        Conv1DTranspose._create_variables l0 dev_str g
        = Ok (ModuleBase.v (base_of l), g')
    | AConv2D l0 =>
        Conv2D._create_variables l0 dev_str g = Ok (ModuleBase.v (base_of l), g')
    | AConv2DTranspose l0 =>
        Conv2DTranspose._create_variables l0 dev_str g
        = Ok (ModuleBase.v (base_of l), g')
    | AnLSTM l0 =>
        LSTM._create_variables l0 dev_str g = Ok (ModuleBase.v (base_of l), g')
    end.
Proof.
  intros (Hic & Hoc & Hsum & Hrest).
  destruct c as [ic oc | ic oc fs st pad df dil | ic oc fs st pad os df dil
                 | ic oc fs st pad df dil | ic oc fs st pad os df dil
                 | ic oc n rs rst];
    cbn [channels fst snd] in Hic, Hoc, Hsum.
  - destruct (Linear_create_variables_run ic oc dev_str g Hic Hoc Hsum)
      as (w0 & b0 & g' & E & _).
    eexists. exists g'. cbn [construct]. unfold Linear.__init__.
    rewrite (bind_ok _ _ g _ g'
               (bind_ok _ _ g _ g' (ModuleBase_init_ok _ dev_str g _ g' E))).
    unfold ret. repeat split. exact E.
  - assert (Hn : 0 < oc + ic) by lia.
    destruct (create_wb_run (oc + ic)
                (if String.eqb df "NWC" then [fs; oc; ic] else [oc; ic; fs])
                [1; 1; oc] dev_str g Hn)
      as (w0 & b0 & g' & E & _);
      [destruct (String.eqb df "NWC"); shapes | shapes |].
    eexists. exists g'. cbn [construct]. unfold Conv1D.__init__.
    rewrite (bind_ok _ _ g _ g'
               (bind_ok _ _ g _ g' (ModuleBase_init_ok _ dev_str g _ g' E))).
    unfold ret. repeat split. exact E.
  - assert (Hn : 0 < oc + ic) by lia.
    destruct (create_wb_run (oc + ic)
                (if String.eqb df "NWC" then [fs; oc; ic] else [oc; ic; fs])
                [1; 1; oc] dev_str g Hn)
      as (w0 & b0 & g' & E & _);
      [destruct (String.eqb df "NWC"); shapes | shapes |].
    eexists. exists g'. cbn [construct]. unfold Conv1DTranspose.__init__.
    rewrite (bind_ok _ _ g _ g'
               (bind_ok _ _ g _ g' (ModuleBase_init_ok _ dev_str g _ g' E))).
    unfold ret. repeat split. exact E.
  - assert (Hn : 0 < oc + ic) by lia.
    destruct (create_wb_run (oc + ic)
                (if String.eqb df "NHWC" then fs ++ [oc; ic] else [oc; ic] ++ fs)
                [1; 1; 1; oc] dev_str g Hn)
      as (w0 & b0 & g' & E & _);
      [destruct (String.eqb df "NHWC"); shapes | shapes |].
    eexists. exists g'. cbn [construct]. unfold Conv2D.__init__.
    rewrite (bind_ok _ _ g _ g'
               (bind_ok _ _ g _ g' (ModuleBase_init_ok _ dev_str g _ g' E))).
    unfold ret. repeat split. exact E.
  - assert (Hn : 0 < oc + ic) by lia.
    destruct (create_wb_run (oc + ic)
                (if String.eqb df "NHWC" then fs ++ [oc; ic] else [oc; ic] ++ fs)
                [1; 1; 1; oc] dev_str g Hn)
      as (w0 & b0 & g' & E & _);
      [destruct (String.eqb df "NHWC"); shapes | shapes |].
    eexists. exists g'. cbn [construct]. unfold Conv2DTranspose.__init__.
    rewrite (bind_ok _ _ g _ g'
               (bind_ok _ _ g _ g' (ModuleBase_init_ok _ dev_str g _ g' E))).
    unfold ret. repeat split. exact E.
  - destruct (LSTM_create_variables_run
                {| LSTM._input_channels := ic; LSTM._output_channels := oc;
                   LSTM._num_layers := n; LSTM._return_sequence := rs;
                   LSTM._return_state := rst |} dev_str g Hic Hrest)
      as (ins & recs & g' & E & _).
    eexists. exists g'. cbn [construct]. unfold LSTM.__init__.
    rewrite (bind_ok _ _ g _ g'
               (bind_ok _ _ g _ g' (ModuleBase_init_ok _ dev_str g _ g' E))).
    unfold ret. repeat split. exact E.
Qed.

Lemma construct_creatable_witness :
  exists (l : @layer Ref.backend) g',
    @construct Ref.backend
       (NewConv2D 3 8 [5; 5] (AnInt 1) (PadMode "SAME") "NHWC" (AnInt 1))
       "cuda:0" None 0%nat = Ok (l, g') /\
    held l = NewConv2D 3 8 [5; 5] (AnInt 1) (PadMode "SAME") "NHWC" (AnInt 1) /\
    ModuleBase._dev_str (base_of l) = "cuda:0".
Proof.
  destruct (@construct_creatable Ref.backend ref_contract
              (NewConv2D 3 8 [5; 5] (AnInt 1) (PadMode "SAME") "NHWC" (AnInt 1))
              "cuda:0" 0%nat)
    as (l & g' & E & Eh & Ed & _).
  - unfold creatable. simpl. repeat split; try lia. shapes.
  - exists l, g'. split; [exact E |]. split; [exact Eh | exact Ed].
Defined.

Lemma Linear_end_to_end_witness :
  exists (l : @Linear.t Ref.backend) g' y,
    @Linear.__init__ Ref.backend 4 3 "cpu" None 0%nat = Ok (l, g') /\
    @Linear._forward Ref.backend l (Ref.filled [2; 4] "cpu") = Ok y /\
    @shape Ref.backend y = [2; 3].
Proof.
  apply (@Linear_end_to_end Ref.backend ref_contract 4 3 "cpu" 0%nat
           (Ref.filled [2; 4] "cpu") [2]);
    [lia | lia | lia | shapes | reflexivity].
Defined.

Lemma LSTM_end_to_end_witness :
  exists (l : @LSTM.t Ref.backend) g' out hn cn,
    @LSTM.__init__ Ref.backend 8 16 2 true true "cpu" None 0%nat = Ok (l, g') /\
    @LSTM._forward Ref.backend l Sample.inputs None
      = Ok (LSTM.OutputAndState out (hn, cn)) /\
    @shape Ref.backend out = [3; 5; 16] /\
    Z.of_nat (List.length hn) = 2 /\ Z.of_nat (List.length cn) = 2 /\
    Forall (fun t => @shape Ref.backend t = [3; 16]) (hn ++ cn).
Proof.
  apply (@LSTM_end_to_end Ref.backend ref_contract 8 16 2 true true "cpu" 0%nat
           Sample.inputs [3] 5);
    [lia | lia | lia | shapes | lia | reflexivity].
Defined.

(** ** Small evaluations *)

Example str_12 : str 12 = "12".
Proof. reflexivity. Qed.

Example layer_keys_3 :
  LSTM.layer_keys {| LSTM._input_channels := 8; LSTM._output_channels := 16;
                     LSTM._num_layers := 3; LSTM._return_sequence := true;
                     LSTM._return_state := true |}
  = ["layer_0"; "layer_1"; "layer_2"].
Proof. reflexivity. Qed.

Example zip4_stops_at_the_shortest :
  zip4 [1; 2] [10; 20] ["a"; "b"; "c"] ["x"; "y"; "z"]
  = [(1, 10, "a", "x"); (2, 20, "b", "y")].
Proof. reflexivity. Qed.

Example dict_keeps_the_first_position :
  dict [("a", 1); ("b", 2); ("a", 3)] = [("a", 3); ("b", 2)].
Proof. reflexivity. Qed.

Example drop_last2_of_a_shape : drop_last2 [3; 5; 8] = [3].
Proof. reflexivity. Qed.

Example truediv_by_zero : truediv 6 (1 + -1) = Err ZeroDivisionError.
Proof. reflexivity. Qed.

Example zero_state_on_the_default_device :
  @LSTM.get_initial_state Ref.backend
    {| LSTM.self := {| LSTM._input_channels := 8; LSTM._output_channels := 16;
                       LSTM._num_layers := 1; LSTM._return_sequence := true;
                       LSTM._return_state := true |};
       LSTM.base := {| ModuleBase._dev_str := "cuda:0";
                       ModuleBase.v := Dict [] |} |} [3]
  = Ok ([Ref.filled [3; 16] "cpu"], [Ref.filled [3; 16] "cpu"]).
Proof. reflexivity. Qed.
